(** * MeEA backtest core: a shallow embedding of the Python simulator

    The development follows the layout of [V1/backtest]: the three
    estimators ([kalman_filter.py], [hurst_exponent.py],
    [volatility_regime.py]), the signal engine, the risk manager, the
    bar-by-bar loop of [backtester.py], the instrument presets of
    [config.py] and the trade statistics of [reporting.py].

    Numbers.  Python [int]s are [Z].  Python [float]s are read as exact
    rationals ([Q]) in the embedding of the loop and of the estimators, and
    the properties proved of it are those that do not depend on rounding:
    equalities between the very expressions the source computes,
    comparisons, and bounds that rest on operations rounding keeps
    monotone.  Where what the code returns depends on rounding (the
    position size, rounded down with [math.floor]) the functions are
    embedded a second time over binary64, in [Binary64].  Exact arithmetic
    hides one exception of binary64: the quotient [close / prev_close] of
    two positive prices can underflow to [0.0], on which [math.log] raises;
    the theorems that conclude that an estimator's update returns assume
    the quotient positive, and what is said of a whole run is said of the
    runs that return.  The two libm functions the code calls, [math.sqrt] and
    [math.log], are parameters of the sections that need them, wrapped so
    that they raise [ValueError] outside their domain as in Python.
    Python exceptions ([ZeroDivisionError], [IndexError], [ValueError],
    [OverflowError]) are explicit: fallible code lives in the [result]
    monad. *)

From Stdlib Require Import ZArith QArith Qround Qabs Qminmax List Sorted Bool String Lia Lqa.
From Stdlib Require Floats.
Set Warnings "-inexact-float".
From Equations Require Import Equations.
From Equations.Prop Require Import Logic.
Import ListNotations.

Set Implicit Arguments.
Open Scope Q_scope.

(** ** Exceptions and the error monad *)

Inductive exn : Set :=
  ZeroDivisionError | IndexError | ValueError | OverflowError.

Inductive result (A : Type) : Type :=
| Ok (a : A)
| Raise (e : exn).
Arguments Ok {A} a.
Arguments Raise {A} e.

Definition bind {A B : Type} (m : result A) (k : A -> result B) : result B :=
  match m with
  | Ok a => k a
  | Raise e => Raise e
  end.

Notation "x <- m ;; k" := (bind m (fun x => k))
  (at level 61, m at next level, right associativity).
Notation "' pat <- m ;; k" := (bind m (fun x => match x with pat => k end))
  (at level 61, pat pattern, m at next level, right associativity).

(** Left-to-right loop over a list with early exit on an exception: the
    shape of every [for] loop of the source. *)
Fixpoint foldM {A S : Type} (f : S -> A -> result S) (xs : list A) (s : S)
  : result S :=
  match xs with
  | [] => Ok s
  | x :: xs' => s' <- f s x ;; foldM f xs' s'
  end.

(** ** Python numbers and lists *)

Module Py.

(** Comparisons of floats, as booleans. *)
Definition leb (a b : Q) : bool := Qle_bool a b.
Definition ltb (a b : Q) : bool := negb (Qle_bool b a).
Definition geb (a b : Q) : bool := leb b a.
Definition gtb (a b : Q) : bool := ltb b a.
Definition eqb (a b : Q) : bool := Qeq_bool a b.

(** [a / b] on floats: [ZeroDivisionError] when [b == 0]. *)
Definition div (a b : Q) : result Q :=
  if Qeq_bool b 0 then Raise ZeroDivisionError else Ok (a / b).

(** [a // b] on ints. *)
Definition floordiv (a b : Z) : result Z :=
  if (b =? 0)%Z then Raise ZeroDivisionError else Ok (a / b)%Z.

(** [a % b] on ints. *)
Definition mod_ (a b : Z) : result Z :=
  if (b =? 0)%Z then Raise ZeroDivisionError else Ok (a mod b)%Z.

(** [max(a, b)] and [min(a, b)]: the first argument wins ties. *)
Definition max (a b : Q) : Q := if gtb b a then b else a.
Definition min (a b : Q) : Q := if ltb b a then b else a.

(** [math.floor], and [float(int)]. *)
Definition floor (x : Q) : Z := Qfloor x.
Definition float (z : Z) : Q := inject_Z z.

(** [int(x)]: truncation toward zero. *)
Definition int (x : Q) : Z := Z.quot (Qnum x) (Zpos (Qden x)).

(** [range(a, b)]. *)
Definition range (a b : Z) : list Z :=
  map (fun k => (a + Z.of_nat k)%Z) (seq 0 (Z.to_nat (b - a))).

(** [l[i]], with Python's negative indices. *)
Definition norm_index {A : Type} (l : list A) (i : Z) : option nat :=
  let n := Z.of_nat (List.length l) in
  if (0 <=? i)%Z && (i <? n)%Z then Some (Z.to_nat i)
  else if (i <? 0)%Z && (- n <=? i)%Z then Some (Z.to_nat (n + i))
  else None.

Definition getitem {A : Type} (l : list A) (i : Z) : result A :=
  match norm_index l i with
  | Some k => match nth_error l k with
              | Some x => Ok x
              | None => Raise IndexError
              end
  | None => Raise IndexError
  end.

Fixpoint update_nth {A : Type} (l : list A) (k : nat) (v : A) : list A :=
  match l, k with
  | [], _ => []
  | _ :: t, O => v :: t
  | h :: t, S k' => h :: update_nth t k' v
  end.

(** [l[i] = v]. *)
Definition setitem {A : Type} (l : list A) (i : Z) (v : A) : result (list A) :=
  match norm_index l i with
  | Some k => Ok (update_nth l k v)
  | None => Raise IndexError
  end.

Fixpoint remove_nth {A : Type} (l : list A) (k : nat) : list A :=
  match l, k with
  | [], _ => []
  | _ :: t, O => t
  | h :: t, S k' => h :: remove_nth t k'
  end.

(** [l.pop(i)], keeping the list only (the source drops the value). *)
Definition pop {A : Type} (l : list A) (i : Z) : result (list A) :=
  match norm_index l i with
  | Some k => Ok (remove_nth l k)
  | None => Raise IndexError
  end.

(** [[v] * n]. *)
Definition replicate {A : Type} (v : A) (n : Z) : list A :=
  repeat v (Z.to_nat n).

(** [len(l)]. *)
Definition len {A : Type} (l : list A) : Z := Z.of_nat (List.length l).

Section Libm.
Variables sqrt ln : Q -> Q.

(** [math.sqrt] and [math.log] with their domain errors. *)
Definition math_sqrt (x : Q) : result Q :=
    if ltb x 0 then Raise ValueError else Ok (sqrt x).
Definition math_log (x : Q) : result Q :=
    if leb x 0 then Raise ValueError else Ok (ln x).
End Libm.

End Py.

(** ** config.py *)

Inductive VolRegime : Set := LOW | NORMAL | HIGH.
Inductive Signal : Set := NONE | BUY | SELL | CLOSE_BUY | CLOSE_SELL.
Module PositionType.
Inductive t : Set := BUY | SELL.
Definition eqb (a b : t) : bool :=
  match a, b with BUY, BUY | SELL, SELL => true | _, _ => false end.
End PositionType.

Definition Signal_eqb (a b : Signal) : bool :=
  match a, b with
  | NONE, NONE | BUY, BUY | SELL, SELL
  | CLOSE_BUY, CLOSE_BUY | CLOSE_SELL, CLOSE_SELL => true
  | _, _ => false
  end.

Definition VolRegime_eqb (a b : VolRegime) : bool :=
  match a, b with
  | LOW, LOW | NORMAL, NORMAL | HIGH, HIGH => true
  | _, _ => false
  end.

Record EAConfig : Type := {
  kf_process_noise : Q;
  kf_observ_noise : Q;
  kf_conf_band : Q;
  hurst_period : Z;
  hurst_threshold : Q;
  vol_period : Z;
  vol_hist_period : Z;
  risk_per_trade : Q;
  max_positions : Z;
  max_daily_dd : Q;
  max_spread_points : Q;
  hurst_exit_threshold : Q;
  trail_multiplier : Q;
  min_hold_bars : Z;
  slippage_points : Q;
  close_cooldown : Z;
  initial_equity : Q;
  leverage : Z
}.

Record InstrumentConfig : Type := {
  symbol : string;
  digits : Z;
  point : Q;
  point_value : Q;
  min_lot : Q;
  max_lot : Q;
  lot_step : Q;
  spread_points : Q;
  contract_size : Q
}.

Definition default_EAConfig : EAConfig := {|
  kf_process_noise := 1 # 100;
  kf_observ_noise := 1;
  kf_conf_band := 2;
  hurst_period := 200;
  hurst_threshold := 55 # 100;
  vol_period := 100;
  vol_hist_period := 500;
  risk_per_trade := 1 # 100;
  max_positions := 3;
  max_daily_dd := 3 # 100;
  max_spread_points := 30;
  hurst_exit_threshold := 40 # 100;
  trail_multiplier := 3;
  min_hold_bars := 5;
  slippage_points := 10;
  close_cooldown := 2;
  initial_equity := 10000;
  leverage := 100
|}.

Definition EURUSD : InstrumentConfig := {|
  symbol := "EURUSD";
  digits := 5;
  point := 1 # 100000;
  point_value := 1;
  min_lot := 1 # 100;
  max_lot := 100;
  lot_step := 1 # 100;
  spread_points := 15;
  contract_size := 100000
|}.


(** ** kalman_filter.py *)

Module KalmanFilter.

(** [_state = [level, slope]], the covariance [_P] and the process noise
    [_Q] as scalars, the observation noise [_R]. *)
Record t : Type := {
  state0 : Q;
  state1 : Q;
  P00 : Q; P01 : Q; P10 : Q; P11 : Q;
  Q00 : Q; Q01 : Q; Q10 : Q; Q11 : Q;
  R : Q;
  initialized : bool
}.

(** [__init__] *)
Definition new : t := {|
  state0 := 0; state1 := 0;
  P00 := 1; P01 := 0; P10 := 0; P11 := 1;
  Q00 := 1 # 100; Q01 := 0; Q10 := 0; Q11 := 1 # 100;
  R := 1;
  initialized := false
|}.

Definition init (self : t) (process_noise observ_noise : Q) : t := {|
  state0 := state0 self; state1 := state1 self;
  P00 := P00 self; P01 := P01 self; P10 := P10 self; P11 := P11 self;
  Q00 := process_noise; Q01 := 0; Q10 := 0; Q11 := process_noise;
  R := observ_noise;
  initialized := false
|}.

(** The assignments of [update] that write state and covariance. *)
Definition commit (self : t) (x0 x1 p00 p01 p10 p11 : Q) : t := {|
  state0 := x0; state1 := x1;
  P00 := p00; P01 := p01; P10 := p10; P11 := p11;
  Q00 := Q00 self; Q01 := Q01 self; Q10 := Q10 self; Q11 := Q11 self;
  R := R self;
  initialized := true
|}.

(** The predict step, named as in the source. *)
Definition x_pred0 (self : t) : Q := state0 self + state1 self.
Definition x_pred1 (self : t) : Q := state1 self.
Definition FP00 (self : t) : Q := P00 self + P10 self.
Definition FP01 (self : t) : Q := P01 self + P11 self.
Definition FP10 (self : t) : Q := P10 self.
Definition FP11 (self : t) : Q := P11 self.
Definition P_pred00 (self : t) : Q := FP00 self + FP01 self + Q00 self.
Definition P_pred01 (self : t) : Q := FP01 self + Q01 self.
Definition P_pred10 (self : t) : Q := FP10 self + FP11 self + Q10 self.
Definition P_pred11 (self : t) : Q := FP11 self + Q11 self.

(** Innovation and innovation covariance. *)
Definition innovation (self : t) (price : Q) : Q := price - x_pred0 self.
Definition S (self : t) : Q := P_pred00 self + R self.

Section Update.
Variable sqrt : Q -> Q.

(** The two off-diagonal entries of the covariance are computed by
    different expressions, as in the source; they are equal in exact
    arithmetic only, which [KalmanFacts] uses and the theorems on the
    filter do not. *)
Definition update (self : t) (price : Q) : result t :=
  if negb (initialized self) then
    let price_scale := price * (1 # 100) in
    Ok (commit self price 0
          (price_scale * price_scale) 0 0
          (price_scale * price_scale * (1 # 100)))
  else
    let y := innovation self price in
    innovation_sigma <- Py.math_sqrt sqrt (S self) ;;
    if Py.gtb (Qabs y) (3 * innovation_sigma) then
      Ok (commit self (x_pred0 self) (x_pred1 self)
            (P_pred00 self) (P_pred01 self) (P_pred10 self) (P_pred11 self))
    else
      K0 <- Py.div (P_pred00 self) (S self) ;;
      K1 <- Py.div (P_pred10 self) (S self) ;;
      Ok (commit self
            (x_pred0 self + K0 * y)
            (x_pred1 self + K1 * y)
            ((1 - K0) * P_pred00 self)
            ((1 - K0) * P_pred01 self)
            (- K1 * P_pred00 self + P_pred10 self)
            (- K1 * P_pred01 self + P_pred11 self)).

Definition get_level (self : t) : Q := state0 self.
Definition get_slope (self : t) : Q := state1 self.
Definition get_estimation_error (self : t) : result Q :=
  Py.math_sqrt sqrt (Qabs (P00 self)).
Definition get_upper_band (self : t) (k : Q) : result Q :=
  e <- get_estimation_error self ;; Ok (state0 self + k * e).
Definition get_lower_band (self : t) (k : Q) : result Q :=
  e <- get_estimation_error self ;; Ok (state0 self - k * e).
Definition is_initialized (self : t) : bool := initialized self.

End Update.

End KalmanFilter.


(** ** hurst_exponent.py *)

Module HurstExponent.

Record t : Type := {
  period : Z;
  returns : list Q;
  head : Z;
  count : Z;
  hurst : Q
}.

(** [__init__] *)
Definition new : t := {|
  period := 200; returns := []; head := 0; count := 0; hurst := 1 # 2
|}.

Definition init (self : t) (period : Z) : t := {|
  period := period;
  returns := Py.replicate 0 period;
  head := 0; count := 0; hurst := 1 # 2
|}.

Definition set_hurst (self : t) (h : Q) : t := {|
  period := period self; returns := returns self;
  head := head self; count := count self; hurst := h
|}.

(** The ring-buffer write of [update]. *)
Definition push (self : t) (ret : Q) : result t :=
  if (count self <? period self)%Z then
    rs <- Py.setitem (returns self) (count self) ret ;;
    Ok {| period := period self; returns := rs; head := head self;
          count := (count self + 1)%Z; hurst := hurst self |}
  else
    rs <- Py.setitem (returns self) (head self) ret ;;
    h <- Py.mod_ (head self + 1) (period self) ;;
    Ok {| period := period self; returns := rs; head := h;
          count := count self; hurst := hurst self |}.

(** [self._returns[:data_len]] *)
Definition slice_to {A : Type} (l : list A) (stop : Z) : list A :=
  if (0 <=? stop)%Z then firstn (Z.to_nat stop) l
  else firstn (Z.to_nat (Py.len l + stop)) l.

Definition _linearize (self : t) : result (list Q) :=
  let data_len := Z.min (count self) (period self) in
  if (count self <? period self)%Z then Ok (slice_to (returns self) data_len)
  else
    foldM (fun acc i =>
             k <- Py.mod_ (head self + i) (period self) ;;
             x <- Py.getitem (returns self) k ;;
             Ok (acc ++ [x]))
          (Py.range 0 data_len) [].

Definition tiny : Q := 1 # 1000000000000000.
Definition huge : Q := 1000000000000000000000000000000.

Section Calc.
Variables sqrt ln : Q -> Q.

Definition _calc_rs (data : list Q) (start length : Z) : result Q :=
  if (length <? 2)%Z then Ok 0
  else
    let idx := Py.range start (start + length) in
    mean <- foldM (fun mean i => x <- Py.getitem data i ;; Ok (mean + x))
                  idx 0 ;;
    mean <- Py.div mean (Py.float length) ;;
    sum_sq <- foldM (fun sum_sq i =>
                       x <- Py.getitem data i ;;
                       let diff := x - mean in
                       Ok (sum_sq + diff * diff))
                    idx 0 ;;
    var <- Py.div sum_sq (Py.float length) ;;
    sd <- Py.math_sqrt sqrt var ;;
    if Py.ltb sd tiny then Ok 0
    else
      '(cum_dev, max_cum, min_cum) <-
        foldM (fun '(cum_dev, max_cum, min_cum) i =>
                 x <- Py.getitem data i ;;
                 let cum_dev := cum_dev + (x - mean) in
                 let max_cum := if Py.gtb cum_dev max_cum then cum_dev else max_cum in
                 let min_cum := if Py.ltb cum_dev min_cum then cum_dev else min_cum in
                 Ok (cum_dev, max_cum, min_cum))
              idx (0, - huge, huge) ;;
      Py.div (max_cum - min_cum) sd.

(** One pass of the [while] body for a window size [n] that differs from
    [prev_n]; [None] is the [break]. *)
Definition window (linear : list Q) (data_len n : Z) (logs : list Q * list Q)
  : result (option (list Q * list Q)) :=
  num_segments <- Py.floordiv data_len n ;;
  if (num_segments <? 1)%Z then Ok None
  else
    '(sum_rs, valid_segs) <-
      foldM (fun '(sum_rs, valid_segs) seg =>
               rs <- _calc_rs linear (seg * n) n ;;
               if Py.gtb rs 0 then Ok (sum_rs + rs, (valid_segs + 1)%Z)
               else Ok (sum_rs, valid_segs))
            (Py.range 0 num_segments) (0, 0%Z) ;;
    if (0 <? valid_segs)%Z then
      avg_rs <- Py.div sum_rs (Py.float valid_segs) ;;
      ln_n <- Py.math_log ln (Py.float n) ;;
      ln_rs <- Py.math_log ln avg_rs ;;
      Ok (Some (fst logs ++ [ln_n], snd logs ++ [ln_rs]))
    else Ok (Some logs).

(** [n = int(n * 1.5)] *)
Definition next_n (n : Z) : Z := Py.int (Py.float n * (3 # 2)).

Definition windows_left (data_len prev_n n : Z) : nat :=
  2 * Z.to_nat (data_len / 2 + 1 - n) + (if (n =? prev_n)%Z then 0 else 1).

Lemma window_Some_pos linear data_len n logs r :
  (0 <= data_len)%Z -> window linear data_len n logs = Ok (Some r) -> (1 <= n)%Z.
Proof.
  intros Hd. unfold window, Py.floordiv.
  destruct (n =? 0)%Z eqn:E0; [discriminate|]. cbn [bind].
  destruct (data_len / n <? 1)%Z eqn:E1; [discriminate|]. intros _.
  apply Z.eqb_neq in E0. apply Z.ltb_ge in E1.
  destruct (Z.ltb_spec n 0); [|lia].
  pose proof (Z.div_mod data_len n ltac:(lia)) as Hdm.
  pose proof (Z.mod_neg_bound data_len n ltac:(lia)). nia.
Qed.

Lemma next_n_ge n : (1 <= n)%Z -> (n <= next_n n)%Z.
Proof.
  intros H. unfold next_n, Py.int, Py.float. simpl.
  apply Z.quot_le_lower_bound; lia.
Qed.

(** The [while n <= data_len // 2] loop.  It terminates because [n] grows
    at every pass over a window, and a repeated value is stepped over. *)
Equations? window_loop (linear : list Q) (prev_n n : Z) (logs : list Q * list Q)
  : result (list Q * list Q) by wf (windows_left (Py.len linear) prev_n n) lt :=
window_loop linear prev_n n logs with inspect (n <=? Py.len linear / 2)%Z := {
  | exist _ false _ := Ok logs
  | exist _ true Hle with inspect (n =? prev_n)%Z := {
    | exist _ true Heq := window_loop linear prev_n (n + 1)%Z logs
    | exist _ false Hne with inspect (window linear (Py.len linear) n logs) := {
      | exist _ (Raise e) _ := Raise e
      | exist _ (Ok None) _ := Ok logs
      | exist _ (Ok (Some logs')) Hw := window_loop linear n (next_n n) logs' } } }.
Proof.
  - apply Z.leb_le in Hle. unfold windows_left.
    rewrite Heq. destruct (n + 1 =? prev_n)%Z; lia.
  - apply Z.leb_le in Hle. unfold windows_left. rewrite Hne.
    apply window_Some_pos in Hw; [|unfold Py.len; lia].
    pose proof (next_n_ge Hw).
    destruct (next_n n =? n)%Z eqn:E; [lia|].
    apply Z.eqb_neq in E. lia.
Qed.

(** The four sums of the linear regression log(R/S) = H * log(n) + c. *)
Definition regression_sums (log_n log_rs : list Q) (num_points : Z)
  : result (Q * Q * Q * Q) :=
  foldM (fun '(sum_x, sum_y, sum_xy, sum_x2) i =>
           x <- Py.getitem log_n i ;;
           y <- Py.getitem log_rs i ;;
           Ok (sum_x + x, sum_y + y, sum_xy + x * y, sum_x2 + x * x))
        (Py.range 0 num_points) (0, 0, 0, 0).

(** Linear regression, clamped to [0, 1]. *)
Definition regress (log_n log_rs : list Q) : result Q :=
  let num_points := Py.len log_n in
  if (num_points <? 2)%Z then Ok (1 # 2)
  else
    '(sum_x, sum_y, sum_xy, sum_x2) <- regression_sums log_n log_rs num_points ;;
    let denom := Py.float num_points * sum_x2 - sum_x * sum_x in
    if Py.ltb (Qabs denom) tiny then Ok (1 # 2)
    else
      H <- Py.div (Py.float num_points * sum_xy - sum_x * sum_y) denom ;;
      Ok (Py.max 0 (Py.min 1 H)).

Definition _calculate_hurst (self : t) : result Q :=
  linear <- _linearize self ;;
  let data_len := Py.len linear in
  if (data_len <? 20)%Z then Ok (1 # 2)
  else
    '(log_n, log_rs) <- window_loop linear 0 8 ([], []) ;;
    regress log_n log_rs.

(** The exact quotient of two positive prices is positive, so here
    [math.log] never raises on it; the binary64 quotient can underflow to
    [0.0], which is why the theorems that conclude that [update] returns
    assume it positive. *)
Definition update (self : t) (close prev_close : Q) : result t :=
  if Py.leb prev_close 0 || Py.leb close 0 then Ok self
  else
    ratio <- Py.div close prev_close ;;
    ret <- Py.math_log ln ratio ;;
    self <- push self ret ;;
    if (20 <=? count self)%Z then
      h <- _calculate_hurst self ;;
      Ok (set_hurst self h)
    else Ok self.

End Calc.

Definition get_hurst (self : t) : Q := hurst self.
Definition is_trending (self : t) (threshold : Q) : bool :=
  Py.gtb (hurst self) threshold.
Definition is_ready (self : t) : bool := (20 <=? count self)%Z.

End HurstExponent.


(** ** volatility_regime.py *)

Module VolatilityRegime.

Record t : Type := {
  period : Z;
  hist_period : Z;
  returns : list Q;
  ret_head : Z;
  ret_count : Z;
  vol_history : list Q;
  vol_head : Z;
  vol_count : Z;
  current_vol : Q;
  percentile : Q
}.

(** [__init__] *)
Definition new : t := {|
  period := 100; hist_period := 500;
  returns := []; ret_head := 0; ret_count := 0;
  vol_history := []; vol_head := 0; vol_count := 0;
  current_vol := 0; percentile := 1 # 2
|}.

Definition init (self : t) (period hist_period : Z) : t := {|
  period := period; hist_period := hist_period;
  returns := Py.replicate 0 period; ret_head := 0; ret_count := 0;
  vol_history := Py.replicate 0 hist_period; vol_head := 0; vol_count := 0;
  current_vol := 0; percentile := 1 # 2
|}.

Definition set_returns (self : t) (rs : list Q) (h c : Z) : t := {|
  period := period self; hist_period := hist_period self;
  returns := rs; ret_head := h; ret_count := c;
  vol_history := vol_history self; vol_head := vol_head self;
  vol_count := vol_count self;
  current_vol := current_vol self; percentile := percentile self
|}.

Definition set_current_vol (self : t) (v : Q) : t := {|
  period := period self; hist_period := hist_period self;
  returns := returns self; ret_head := ret_head self;
  ret_count := ret_count self;
  vol_history := vol_history self; vol_head := vol_head self;
  vol_count := vol_count self;
  current_vol := v; percentile := percentile self
|}.

Definition set_history (self : t) (vs : list Q) (h c : Z) : t := {|
  period := period self; hist_period := hist_period self;
  returns := returns self; ret_head := ret_head self;
  ret_count := ret_count self;
  vol_history := vs; vol_head := h; vol_count := c;
  current_vol := current_vol self; percentile := percentile self
|}.

Definition set_percentile (self : t) (p : Q) : t := {|
  period := period self; hist_period := hist_period self;
  returns := returns self; ret_head := ret_head self;
  ret_count := ret_count self;
  vol_history := vol_history self; vol_head := vol_head self;
  vol_count := vol_count self;
  current_vol := current_vol self; percentile := p
|}.

(** Ring buffer write for returns. *)
Definition push_return (self : t) (ret : Q) : result t :=
  if (ret_count self <? period self)%Z then
    rs <- Py.setitem (returns self) (ret_count self) ret ;;
    Ok (set_returns self rs (ret_head self) (ret_count self + 1)%Z)
  else
    rs <- Py.setitem (returns self) (ret_head self) ret ;;
    h <- Py.mod_ (ret_head self + 1) (period self) ;;
    Ok (set_returns self rs h (ret_count self)).

(** Store current vol in history ring buffer. *)
Definition push_vol (self : t) : result t :=
  if (vol_count self <? hist_period self)%Z then
    vs <- Py.setitem (vol_history self) (vol_count self) (current_vol self) ;;
    Ok (set_history self vs (vol_head self) (vol_count self + 1)%Z)
  else
    vs <- Py.setitem (vol_history self) (vol_head self) (current_vol self) ;;
    h <- Py.mod_ (vol_head self + 1) (hist_period self) ;;
    Ok (set_history self vs h (vol_count self)).

(** Calculate percentile rank. *)
Definition rank (self : t) : result t :=
  if (2 <=? vol_count self)%Z then
    let length := Z.min (vol_count self) (hist_period self) in
    count_below <-
      foldM (fun count_below i =>
               v <- Py.getitem (vol_history self) i ;;
               if Py.ltb v (current_vol self) then Ok (count_below + 1)%Z
               else Ok count_below)
            (Py.range 0 length) 0%Z ;;
    p <- Py.div (Py.float count_below) (Py.float length) ;;
    Ok (set_percentile self p)
  else Ok self.

Section Update.
Variables sqrt ln : Q -> Q.

(** Current realized volatility (population std of returns). *)
Definition realized (self : t) : result t :=
  if (2 <=? ret_count self)%Z then
    let length := Z.min (ret_count self) (period self) in
    mean <- foldM (fun mean i => x <- Py.getitem (returns self) i ;; Ok (mean + x))
                  (Py.range 0 length) 0 ;;
    mean <- Py.div mean (Py.float length) ;;
    sum_sq <- foldM (fun sum_sq i =>
                       x <- Py.getitem (returns self) i ;;
                       let diff := x - mean in
                       Ok (sum_sq + diff * diff))
                    (Py.range 0 length) 0 ;;
    var <- Py.div sum_sq (Py.float length) ;;
    vol <- Py.math_sqrt sqrt var ;;
    Ok (set_current_vol self vol)
  else Ok self.

(** As for [HurstExponent.update], the quotient is exact here and can
    underflow to [0.0] in binary64. *)
Definition update (self : t) (close prev_close : Q) : result t :=
  if Py.leb prev_close 0 || Py.leb close 0 then Ok self
  else
    ratio <- Py.div close prev_close ;;
    ret <- Py.math_log ln ratio ;;
    self <- push_return self ret ;;
    self <- realized self ;;
    if Py.gtb (current_vol self) 0 then
      self <- push_vol self ;;
      rank self
    else Ok self.

End Update.

Definition get_current_vol (self : t) : Q := current_vol self.
Definition get_percentile (self : t) : Q := percentile self.
Definition get_regime (self : t) : VolRegime :=
  if Py.ltb (percentile self) (25 # 100) then LOW
  else if Py.gtb (percentile self) (75 # 100) then HIGH
  else NORMAL.
Definition is_ready (self : t) : bool :=
  (period self <=? ret_count self)%Z && (20 <=? vol_count self)%Z.

End VolatilityRegime.


(** ** signal_engine.py *)

Module SignalEngine.

Record t : Type := {
  kalman : KalmanFilter.t;
  hurst : HurstExponent.t;
  vol_regime : VolatilityRegime.t;
  conf_band : Q;
  hurst_threshold : Q;
  hurst_exit_threshold : Q
}.

(** [__init__] *)
Definition new : t := {|
  kalman := KalmanFilter.new;
  hurst := HurstExponent.new;
  vol_regime := VolatilityRegime.new;
  conf_band := 2;
  hurst_threshold := 55 # 100;
  hurst_exit_threshold := 40 # 100
|}.

Definition init (self : t) (kf_process_noise kf_observ_noise conf_band : Q)
    (hurst_period : Z) (hurst_threshold : Q) (vol_period vol_hist_period : Z)
    (hurst_exit_threshold : Q) : t := {|
  kalman := KalmanFilter.init (kalman self) kf_process_noise kf_observ_noise;
  hurst := HurstExponent.init (hurst self) hurst_period;
  vol_regime := VolatilityRegime.init (vol_regime self) vol_period vol_hist_period;
  conf_band := conf_band;
  hurst_threshold := hurst_threshold;
  hurst_exit_threshold := hurst_exit_threshold
|}.

Section Engine.
Variables sqrt ln : Q -> Q.

Definition on_new_bar (self : t) (close prev_close : Q) : result t :=
  k <- KalmanFilter.update sqrt (kalman self) close ;;
  h <- HurstExponent.update sqrt ln (hurst self) close prev_close ;;
  v <- VolatilityRegime.update sqrt ln (vol_regime self) close prev_close ;;
  Ok {| kalman := k; hurst := h; vol_regime := v;
        conf_band := conf_band self;
        hurst_threshold := hurst_threshold self;
        hurst_exit_threshold := hurst_exit_threshold self |}.

Definition get_entry_signal (self : t) (current_price : Q) : result Signal :=
  if negb (KalmanFilter.is_initialized (kalman self))
     || negb (HurstExponent.is_ready (hurst self))
  then Ok NONE
  else
    let slope := KalmanFilter.get_slope (kalman self) in
    let hurst_v := HurstExponent.get_hurst (hurst self) in
    upper_band <- KalmanFilter.get_upper_band sqrt (kalman self) (conf_band self) ;;
    lower_band <- KalmanFilter.get_lower_band sqrt (kalman self) (conf_band self) ;;
    if Py.gtb slope 0 && Py.gtb hurst_v (hurst_threshold self)
       && Py.gtb current_price upper_band
    then Ok BUY
    else if Py.ltb slope 0 && Py.gtb hurst_v (hurst_threshold self)
            && Py.ltb current_price lower_band
    then Ok SELL
    else Ok NONE.

Definition should_close_buy (self : t) : bool :=
  if negb (KalmanFilter.is_initialized (kalman self)) then false
  else Py.ltb (KalmanFilter.get_slope (kalman self)) 0
       && Py.ltb (HurstExponent.get_hurst (hurst self)) (hurst_exit_threshold self).

Definition should_close_sell (self : t) : bool :=
  if negb (KalmanFilter.is_initialized (kalman self)) then false
  else Py.gtb (KalmanFilter.get_slope (kalman self)) 0
       && Py.ltb (HurstExponent.get_hurst (hurst self)) (hurst_exit_threshold self).

Definition get_kalman_level (self : t) : Q :=
  KalmanFilter.get_level (kalman self).
Definition get_kalman_slope (self : t) : Q :=
  KalmanFilter.get_slope (kalman self).
Definition get_estimation_error (self : t) : result Q :=
  KalmanFilter.get_estimation_error sqrt (kalman self).
Definition get_upper_band (self : t) : result Q :=
  KalmanFilter.get_upper_band sqrt (kalman self) (conf_band self).
Definition get_lower_band (self : t) : result Q :=
  KalmanFilter.get_lower_band sqrt (kalman self) (conf_band self).
Definition get_hurst (self : t) : Q :=
  HurstExponent.get_hurst (hurst self).
Definition get_vol_regime (self : t) : VolRegime :=
  VolatilityRegime.get_regime (vol_regime self).
Definition get_current_vol (self : t) : Q :=
  VolatilityRegime.get_current_vol (vol_regime self).
Definition get_vol_percentile (self : t) : Q :=
  VolatilityRegime.get_percentile (vol_regime self).

End Engine.

End SignalEngine.


(** ** position.py *)

(** Entries of the data frame's index: a timestamp, which has a [date()],
    or any other label. *)
Inductive stamp : Set :=
| Timestamp (day : Z) (time_of_day : Z)
| Label (v : Z).

Record Position : Type := {
  ticket : Z;
  type : PositionType.t;
  open_time : stamp;
  open_price : Q;
  lots : Q;
  stop_loss : Q;
  entry_bar_index : Z
}.

Record ClosedTrade : Type := {
  ct_ticket : Z;
  ct_type : PositionType.t;
  ct_open_time : stamp;
  close_time : stamp;
  ct_open_price : Q;
  close_price : Q;
  ct_lots : Q;
  profit : Q;
  close_reason : string;
  ct_entry_bar_index : Z;
  exit_bar_index : Z
}.


(** ** risk_manager.py *)

Module RiskManager.

Record t : Type := {
  ea : EAConfig;
  inst : InstrumentConfig;
  day_start_equity : Q
}.

(** [__init__] *)
Definition new (ea_cfg : EAConfig) (inst_cfg : InstrumentConfig) : t := {|
  ea := ea_cfg; inst := inst_cfg; day_start_equity := initial_equity ea_cfg
|}.

Definition on_new_day (self : t) (equity : Q) : t := {|
  ea := ea self; inst := inst self; day_start_equity := equity
|}.

(** Required margin to open [lots] at [price]. *)
Definition calc_margin (self : t) (lots price : Q) : result Q :=
  Py.div (lots * contract_size (inst self) * price)
         (Py.float (leverage (ea self))).

Definition get_used_margin (self : t) (positions : list Position) : result Q :=
  foldM (fun total pos =>
           m <- calc_margin self (lots pos) (open_price pos) ;;
           Ok (total + m))
        positions 0.

Definition get_free_margin (self : t) (equity : Q) (positions : list Position)
  : result Q :=
  used <- get_used_margin self positions ;;
  Ok (equity - used).

(** [math.floor(lots / step) * step] under [if step > 0.0], on the exact
    quotient; [Binary64.RiskManager.normalize] is the same statement on
    the rounded one, which can be a whole step lower. *)
Definition normalize (step lots : Q) : result Q :=
  if Py.gtb step 0 then
    q <- Py.div lots step ;;
    Ok (Py.float (Py.floor q) * step)
  else Ok lots.

Definition calc_lots (self : t) (stop_points : Q) (regime : VolRegime)
    (equity : Q) (positions : list Position) (entry_price : Q) : result Q :=
  if Py.leb stop_points 0 then Ok 0
  else
    let point_val := point_value (inst self) in
    if Py.leb point_val 0 then Ok 0
    else
      let risk_amount := equity * risk_per_trade (ea self) in
      lots <- Py.div risk_amount (stop_points * point_val) ;;
      let lots :=
        if VolRegime_eqb regime LOW then lots * (5 # 10)
        else if VolRegime_eqb regime HIGH then lots * (7 # 10)
        else lots in
      let step := lot_step (inst self) in
      lots <- normalize step lots ;;
      let lots := Py.max lots (min_lot (inst self)) in
      let lots := Py.min lots (max_lot (inst self)) in
      free <- get_free_margin self equity positions ;;
      required <- calc_margin self lots entry_price ;;
      if Py.gtb required free then
        if Py.leb free 0 then Ok 0
        else
          lots <- Py.div (free * Py.float (leverage (ea self)))
                         (contract_size (inst self) * entry_price) ;;
          lots <- normalize step lots ;;
          if Py.ltb lots (min_lot (inst self)) then Ok 0
          else Ok lots
      else Ok lots.

Definition can_open_trade (self : t) (positions : list Position)
    (equity spread_points new_lots new_price : Q) : result bool :=
  if (max_positions (ea self) <=? Py.len positions)%Z then Ok false
  else
    dd_hit <-
      (if Py.gtb (day_start_equity self) 0 then
         let day_pnl := equity - day_start_equity self in
         if Py.ltb day_pnl 0 then
           dd <- Py.div (Qabs day_pnl) (day_start_equity self) ;;
           Ok (Py.gtb dd (max_daily_dd (ea self)))
         else Ok false
       else Ok false) ;;
    if dd_hit : bool then Ok false
    else if Py.gtb spread_points (max_spread_points (ea self)) then Ok false
    else
      required <- calc_margin self new_lots new_price ;;
      free <- get_free_margin self equity positions ;;
      if Py.ltb free required then Ok false
      else Ok true.

Definition get_stop_loss (signal : Signal) (kalman_level est_error multiplier : Q)
  : Q :=
  let stop_dist := est_error * multiplier in
  if Signal_eqb signal BUY then kalman_level - stop_dist
  else if Signal_eqb signal SELL then kalman_level + stop_dist
  else 0.

Definition get_stop_points (entry_price stop_loss point : Q) : result Q :=
  Py.div (Qabs (entry_price - stop_loss)) point.

End RiskManager.


(** ** risk_manager.py in binary64: position sizing

    [calc_lots] rounds a quotient down with [math.floor], so what it
    returns depends on how every operation before it is rounded: with the
    default configuration, an equity of 10000, a stop of 1000 points and
    the HIGH regime the size before rounding is [0.1 * 0.7], which in
    binary64 is just below [0.07], and the function returns [0.06].  The
    sizing functions are therefore embedded a second time, over the
    kernel's binary64 floats ([PrimFloat]: IEEE 754 double precision,
    round to nearest even, which is CPython's [float]), operation by
    operation and in the order of the source. *)

Module Binary64.
Import PrimFloat.

(** [a / b]: [ZeroDivisionError] when [b == 0.0] (either zero). *)
Definition div (a b : float) : result float :=
  if (b =? 0)%float then Raise ZeroDivisionError else Ok (a / b)%float.

(** [float(n)] of an [int], as the mixed operations [float * int] and
    [float / int] convert it: the nearest double, [OverflowError] when
    there is none. *)
Definition float_of_int (n : Z) : result float :=
  let f := FloatOps.SF2Prim
             (SpecFloat.binary_normalize FloatOps.prec FloatOps.emax n 0 false) in
  if is_infinity f then Raise OverflowError else Ok f.

(** [math.floor(x)], an [int]: [ValueError] on NaN, [OverflowError] on an
    infinity. *)
Definition math_floor (x : float) : result Z :=
  match FloatOps.Prim2SF x with
  | SpecFloat.S754_zero _ => Ok 0%Z
  | SpecFloat.S754_infinity _ => Raise OverflowError
  | SpecFloat.S754_nan => Raise ValueError
  | SpecFloat.S754_finite s m e =>
      let n := if s then Z.neg m else Z.pos m in
      if (0 <=? e)%Z then Ok (n * 2 ^ e)%Z else Ok (n / 2 ^ (- e))%Z
  end.

(** [max(a, b)] and [min(a, b)]: the first argument wins ties, and any
    comparison with NaN. *)
Definition max (a b : float) : float := if (a <? b)%float then b else a.
Definition min (a b : float) : float := if (b <? a)%float then b else a.

(** *** config.py and position.py *)

Record EAConfig : Type := {
  kf_process_noise : float;
  kf_observ_noise : float;
  kf_conf_band : float;
  hurst_period : Z;
  hurst_threshold : float;
  vol_period : Z;
  vol_hist_period : Z;
  risk_per_trade : float;
  max_positions : Z;
  max_daily_dd : float;
  max_spread_points : float;
  hurst_exit_threshold : float;
  trail_multiplier : float;
  min_hold_bars : Z;
  slippage_points : float;
  close_cooldown : Z;
  initial_equity : float;
  leverage : Z
}.

Record InstrumentConfig : Type := {
  symbol : string;
  digits : Z;
  point : float;
  point_value : float;
  min_lot : float;
  max_lot : float;
  lot_step : float;
  spread_points : float;
  contract_size : float
}.

Definition default_EAConfig : EAConfig := {|
  kf_process_noise := 0.01;
  kf_observ_noise := 1.0;
  kf_conf_band := 2.0;
  hurst_period := 200;
  hurst_threshold := 0.55;
  vol_period := 100;
  vol_hist_period := 500;
  risk_per_trade := 0.01;
  max_positions := 3;
  max_daily_dd := 0.03;
  max_spread_points := 30.0;
  hurst_exit_threshold := 0.40;
  trail_multiplier := 3.0;
  min_hold_bars := 5;
  slippage_points := 10.0;
  close_cooldown := 2;
  initial_equity := 10000.0;
  leverage := 100
|}.

Definition EURUSD : InstrumentConfig := {|
  symbol := "EURUSD";
  digits := 5;
  point := 0.00001;
  point_value := 1.0;
  min_lot := 0.01;
  max_lot := 100.0;
  lot_step := 0.01;
  spread_points := 15.0;
  contract_size := 100000.0
|}.

Record Position : Type := {
  ticket : Z;
  type : PositionType.t;
  open_time : stamp;
  open_price : float;
  lots : float;
  stop_loss : float;
  entry_bar_index : Z
}.

(** *** risk_manager.py *)

Module RiskManager.

Record t : Type := {
  ea : EAConfig;
  inst : InstrumentConfig;
  day_start_equity : float
}.

(** [__init__] *)
Definition new (ea_cfg : EAConfig) (inst_cfg : InstrumentConfig) : t := {|
  ea := ea_cfg; inst := inst_cfg; day_start_equity := initial_equity ea_cfg
|}.

(** Required margin to open [lots] at [price]. *)
Definition calc_margin (self : t) (lots price : float) : result float :=
  lev <- float_of_int (leverage (ea self)) ;;
  div (lots * contract_size (inst self) * price)%float lev.

Definition get_used_margin (self : t) (positions : list Position)
  : result float :=
  foldM (fun total pos =>
           m <- calc_margin self (lots pos) (open_price pos) ;;
           Ok (total + m)%float)
        positions 0%float.

Definition get_free_margin (self : t) (equity : float)
    (positions : list Position) : result float :=
  used <- get_used_margin self positions ;;
  Ok (equity - used)%float.

(** [math.floor(lots / step) * step] under [if step > 0.0]. *)
Definition normalize (step lots : float) : result float :=
  if (0 <? step)%float then
    q <- div lots step ;;
    n <- math_floor q ;;
    k <- float_of_int n ;;
    Ok (k * step)%float
  else Ok lots.

Definition calc_lots (self : t) (stop_points : float) (regime : VolRegime)
    (equity : float) (positions : list Position) (entry_price : float)
  : result float :=
  if (stop_points <=? 0)%float then Ok 0%float
  else
    let point_val := point_value (inst self) in
    if (point_val <=? 0)%float then Ok 0%float
    else
      let risk_amount := (equity * risk_per_trade (ea self))%float in
      lots <- div risk_amount (stop_points * point_val)%float ;;
      let lots :=
        if VolRegime_eqb regime LOW then (lots * 0.5)%float
        else if VolRegime_eqb regime HIGH then (lots * 0.7)%float
        else lots in
      let step := lot_step (inst self) in
      lots <- normalize step lots ;;
      let lots := max lots (min_lot (inst self)) in
      let lots := min lots (max_lot (inst self)) in
      free <- get_free_margin self equity positions ;;
      required <- calc_margin self lots entry_price ;;
      if (free <? required)%float then
        if (free <=? 0)%float then Ok 0%float
        else
          lev <- float_of_int (leverage (ea self)) ;;
          lots <- div (free * lev)%float
                      (contract_size (inst self) * entry_price)%float ;;
          lots <- normalize step lots ;;
          if (lots <? min_lot (inst self))%float then Ok 0%float
          else Ok lots
      else Ok lots.

End RiskManager.

End Binary64.


(** ** backtester.py *)

Module Backtester.

(** A row of the data frame: its index entry and the columns the loop
    reads. *)
Record Bar : Type := {
  date : stamp;
  high : Q;
  low : Q;
  close : Q
}.

Record BacktestResult : Type := {
  equity_curve : list Q;
  trades : list ClosedTrade;
  kalman_levels : list Q;
  kalman_upper : list Q;
  kalman_lower : list Q;
  hurst_values : list Q;
  vol_regimes : list VolRegime;
  signals : list Signal;
  dates : list stamp
}.

Definition empty_result : BacktestResult := {|
  equity_curve := []; trades := []; kalman_levels := []; kalman_upper := [];
  kalman_lower := []; hurst_values := []; vol_regimes := []; signals := [];
  dates := []
|}.

(** What [today] is compared on: the [date()] of a timestamp, or the
    index entry itself. *)
Inductive day : Set :=
| DateOf (d : Z)
| Itself (v : Z).

Definition today_of (current_date : stamp) : day :=
  match current_date with
  | Timestamp d _ => DateOf d
  | Label v => Itself v
  end.

Definition day_eqb (a b : day) : bool :=
  match a, b with
  | DateOf x, DateOf y => (x =? y)%Z
  | Itself x, Itself y => (x =? y)%Z
  | _, _ => false
  end.

(** [today != last_day], where [last_day] starts as [None]. *)
Definition day_differs (today : day) (last_day : option day) : bool :=
  match last_day with
  | None => true
  | Some d => negb (day_eqb today d)
  end.

(** The variables [run] carries from bar to bar. *)
Record state : Type := {
  signal_engine : SignalEngine.t;
  risk_mgr : RiskManager.t;
  equity : Q;
  realized_pnl : Q;
  positions : list Position;
  closed_trades : list ClosedTrade;
  next_ticket : Z;
  bars_since_close : Z;
  last_day : option day;
  result_ : BacktestResult
}.

Definition stamp_eqb (a b : stamp) : bool :=
  match a, b with
  | Timestamp d t, Timestamp d' t' => (d =? d')%Z && (t =? t')%Z
  | Label v, Label v' => (v =? v')%Z
  | _, _ => false
  end.

(** Equality of the [Position] dataclass: field by field. *)
Definition Position_eqb (a b : Position) : bool :=
  (ticket a =? ticket b)%Z
  && PositionType.eqb (type a) (type b)
  && stamp_eqb (open_time a) (open_time b)
  && Py.eqb (open_price a) (open_price b)
  && Py.eqb (lots a) (lots b)
  && Py.eqb (stop_loss a) (stop_loss b)
  && (entry_bar_index a =? entry_bar_index b)%Z.

(** [positions.remove(pos)]: the first equal element goes; [ValueError]
    when there is none. *)
Fixpoint list_remove (pos : Position) (l : list Position) : result (list Position) :=
  match l with
  | [] => Raise ValueError
  | p :: l' =>
      if Position_eqb p pos then Ok l'
      else l'' <- list_remove pos l' ;; Ok (p :: l'')
  end.

(** [sorted(l, reverse=True)] on ints. *)
Fixpoint insert_desc (x : Z) (l : list Z) : list Z :=
  match l with
  | [] => [x]
  | y :: l' => if (y <? x)%Z then x :: l else y :: insert_desc x l'
  end.

Definition sorted_reverse (l : list Z) : list Z :=
  fold_left (fun acc x => insert_desc x acc) l [].

(** [enumerate(l)]. *)
Definition enumerate {A : Type} (l : list A) : list (Z * A) :=
  combine (Py.range 0 (Py.len l)) l.

(** [any(p.type == ty for p in positions)]. *)
Definition any_type (ty : PositionType.t) (positions : list Position) : bool :=
  existsb (fun p => PositionType.eqb (type p) ty) positions.

Definition mk_closed (pos : Position) (close_time : stamp) (close_price pnl : Q)
    (reason : string) (exit_bar_index : Z) : ClosedTrade := {|
  ct_ticket := ticket pos; ct_type := type pos;
  ct_open_time := open_time pos; close_time := close_time;
  ct_open_price := open_price pos; close_price := close_price;
  ct_lots := lots pos; profit := pnl;
  close_reason := reason;
  ct_entry_bar_index := entry_bar_index pos;
  exit_bar_index := exit_bar_index
|}.

Definition set_stop_loss (pos : Position) (sl : Q) : Position := {|
  ticket := ticket pos; type := type pos; open_time := open_time pos;
  open_price := open_price pos; lots := lots pos; stop_loss := sl;
  entry_bar_index := entry_bar_index pos
|}.

(** The trading variables a stage of the bar rewrites. *)
Definition set_book (st : state) (ps : list Position) (cts : list ClosedTrade)
    (pnl : Q) (bsc : Z) : state := {|
  signal_engine := signal_engine st; risk_mgr := risk_mgr st;
  equity := equity st; realized_pnl := pnl;
  positions := ps; closed_trades := cts;
  next_ticket := next_ticket st; bars_since_close := bsc;
  last_day := last_day st; result_ := result_ st
|}.

Section Run.
Variables sqrt ln : Q -> Q.
Variable ea_ : EAConfig.
Variable inst_ : InstrumentConfig.

(** Spread / slippage in price terms. *)
Definition half_spread : Q := spread_points inst_ * point inst_ / 2.
Definition slippage : Q := slippage_points ea_ * point inst_.

(** *** Stop loss check (use high/low of bar) *)

Definition sl_hit (bar_high bar_low : Q) (pos : Position) : bool :=
  match type pos with
  | PositionType.BUY => Py.leb bar_low (stop_loss pos)
  | PositionType.SELL => Py.geb bar_high (stop_loss pos)
  end.

Definition sl_scan (i : Z) (current_date : stamp) (bar_high bar_low : Q)
    (acc : Q * list ClosedTrade * list Z * Z) (ip : Z * Position)
  : Q * list ClosedTrade * list Z * Z :=
  let '(realized_pnl, closed_trades, sl_closed, bars_since_close) := acc in
  let '(idx, pos) := ip in
  if PositionType.eqb (type pos) PositionType.BUY
     && Py.leb bar_low (stop_loss pos) then
    let close_price := stop_loss pos in
    let pnl := (close_price - open_price pos) * lots pos * contract_size inst_ in
    (realized_pnl + pnl,
     closed_trades ++ [mk_closed pos current_date close_price pnl "stop_loss" i],
     sl_closed ++ [idx], 0%Z)
  else if PositionType.eqb (type pos) PositionType.SELL
          && Py.geb bar_high (stop_loss pos) then
    let close_price := stop_loss pos in
    let pnl := (open_price pos - close_price) * lots pos * contract_size inst_ in
    (realized_pnl + pnl,
     closed_trades ++ [mk_closed pos current_date close_price pnl "stop_loss" i],
     sl_closed ++ [idx], 0%Z)
  else acc.

Definition stop_loss_check (i : Z) (current_date : stamp) (bar_high bar_low : Q)
    (st : state) : result state :=
  let '(realized_pnl, closed_trades, sl_closed, bars_since_close) :=
    fold_left (sl_scan i current_date bar_high bar_low)
              (enumerate (positions st))
              (realized_pnl st, closed_trades st, [], bars_since_close st) in
  positions <- foldM (fun ps idx => Py.pop ps idx)
                     (sorted_reverse sl_closed) (positions st) ;;
  Ok (set_book st positions closed_trades realized_pnl bars_since_close).

(** *** Signal exit (skip positions held < min_hold_bars) *)

Definition held_enough (i : Z) (pos : Position) : bool :=
  (min_hold_bars ea_ <=? i - entry_bar_index pos)%Z.

Definition exit_buy (i : Z) (current_date : stamp) (bar_close : Q) (st : state)
  : result state :=
  if any_type PositionType.BUY (positions st)
     && SignalEngine.should_close_buy (signal_engine st) then
    let bid := bar_close - half_spread in
    let to_close :=
      filter (fun p => PositionType.eqb (type p) PositionType.BUY && held_enough i p)
             (positions st) in
    '(realized_pnl, closed_trades, positions) <-
      foldM (fun '(realized_pnl, closed_trades, positions) pos =>
               let pnl := (bid - open_price pos) * lots pos * contract_size inst_ in
               positions <- list_remove pos positions ;;
               Ok (realized_pnl + pnl,
                   closed_trades ++ [mk_closed pos current_date bid pnl "signal" i],
                   positions))
            to_close (realized_pnl st, closed_trades st, positions st) ;;
    Ok (set_book st positions closed_trades realized_pnl 0%Z)
  else Ok st.

Definition exit_sell (i : Z) (current_date : stamp) (bar_close : Q) (st : state)
  : result state :=
  if any_type PositionType.SELL (positions st)
     && SignalEngine.should_close_sell (signal_engine st) then
    let ask := bar_close + half_spread in
    let to_close :=
      filter (fun p => PositionType.eqb (type p) PositionType.SELL && held_enough i p)
             (positions st) in
    '(realized_pnl, closed_trades, positions) <-
      foldM (fun '(realized_pnl, closed_trades, positions) pos =>
               let pnl := (open_price pos - ask) * lots pos * contract_size inst_ in
               positions <- list_remove pos positions ;;
               Ok (realized_pnl + pnl,
                   closed_trades ++ [mk_closed pos current_date ask pnl "signal" i],
                   positions))
            to_close (realized_pnl st, closed_trades st, positions st) ;;
    Ok (set_book st positions closed_trades realized_pnl 0%Z)
  else Ok st.

(** *** Entry signal *)

(** Reverse position protection, then cooldown. *)
Definition gate_signal (entry_signal : Signal) (positions : list Position)
    (bars_since_close : Z) : Signal :=
  let entry_signal :=
    if Signal_eqb entry_signal BUY && any_type PositionType.SELL positions
    then NONE else entry_signal in
  let entry_signal :=
    if Signal_eqb entry_signal SELL && any_type PositionType.BUY positions
    then NONE else entry_signal in
  if negb (Signal_eqb entry_signal NONE)
     && (bars_since_close <? close_cooldown ea_)%Z
  then NONE else entry_signal.

Definition open_position (st : state) (pos : Position) : state := {|
  signal_engine := signal_engine st; risk_mgr := risk_mgr st;
  equity := equity st; realized_pnl := realized_pnl st;
  positions := positions st ++ [pos]; closed_trades := closed_trades st;
  next_ticket := (next_ticket st + 1)%Z;
  bars_since_close := bars_since_close st;
  last_day := last_day st; result_ := result_ st
|}.

(** Returns the state, [entry_signal] and [entry_this_bar]. *)
Definition entry (i : Z) (current_date : stamp) (bar_close : Q) (st : state)
  : result (state * Signal * bool) :=
  entry_signal <- SignalEngine.get_entry_signal sqrt (signal_engine st) bar_close ;;
  let entry_signal := gate_signal entry_signal (positions st) (bars_since_close st) in
  if negb (Signal_eqb entry_signal NONE) then
    let kalman_level := SignalEngine.get_kalman_level (signal_engine st) in
    est_error <- SignalEngine.get_estimation_error sqrt (signal_engine st) ;;
    let regime := SignalEngine.get_vol_regime (signal_engine st) in
    let sl := RiskManager.get_stop_loss entry_signal kalman_level est_error
                (kf_conf_band ea_) in
    let entry_price :=
      if Signal_eqb entry_signal BUY then bar_close + half_spread + slippage
      else bar_close - half_spread - slippage in
    stop_points <- RiskManager.get_stop_points entry_price sl (point inst_) ;;
    lots <- RiskManager.calc_lots (risk_mgr st) stop_points regime (equity st)
              (positions st) entry_price ;;
    if Py.gtb lots 0 then
      ok <- RiskManager.can_open_trade (risk_mgr st) (positions st) (equity st)
              (spread_points inst_) lots entry_price ;;
      if ok : bool then
        let pos := {|
          ticket := next_ticket st;
          type := if Signal_eqb entry_signal BUY then PositionType.BUY
                  else PositionType.SELL;
          open_time := current_date;
          open_price := entry_price;
          lots := lots;
          stop_loss := sl;
          entry_bar_index := i |} in
        Ok (open_position st pos, entry_signal, true)
      else Ok (st, entry_signal, false)
    else Ok (st, entry_signal, false)
  else Ok (st, entry_signal, false).

(** *** Trailing stop (skip entry bar + min hold bars) *)

Definition trail (i : Z) (trail_buy trail_sell : Q) (pos : Position) : Position :=
  if (entry_bar_index pos =? i)%Z then pos
  else if (i - entry_bar_index pos <? min_hold_bars ea_)%Z then pos
  else if PositionType.eqb (type pos) PositionType.BUY && Py.gtb trail_buy 0 then
    if Py.gtb (stop_loss pos) 0 && Py.gtb trail_buy (stop_loss pos)
    then set_stop_loss pos trail_buy else pos
  else if PositionType.eqb (type pos) PositionType.SELL && Py.gtb trail_sell 0 then
    if Py.gtb (stop_loss pos) 0 && Py.ltb trail_sell (stop_loss pos)
    then set_stop_loss pos trail_sell else pos
  else pos.

Definition is_empty {A : Type} (l : list A) : bool :=
  match l with [] => true | _ => false end.

Definition trailing_stop (i : Z) (entry_this_bar : bool) (st : state)
  : result state :=
  if negb entry_this_bar && negb (is_empty (positions st)) then
    let level := SignalEngine.get_kalman_level (signal_engine st) in
    err <- SignalEngine.get_estimation_error sqrt (signal_engine st) ;;
    let trail_buy := level - err * trail_multiplier ea_ in
    let trail_sell := level + err * trail_multiplier ea_ in
    Ok (set_book st (map (trail i trail_buy trail_sell) (positions st))
          (closed_trades st) (realized_pnl st) (bars_since_close st))
  else Ok st.

(** *** Update equity *)

Definition unrealized_of (bar_close : Q) (positions : list Position) : Q :=
  fold_left (fun unrealized pos =>
               match type pos with
               | PositionType.BUY =>
                   unrealized + (bar_close - open_price pos) * lots pos * contract_size inst_
               | PositionType.SELL =>
                   unrealized + (open_price pos - bar_close) * lots pos * contract_size inst_
               end)
            positions 0.

(** *** Record *)

Definition record (current_date : stamp) (equity : Q) (entry_signal : Signal)
    (entry_this_bar : bool) (se : SignalEngine.t) (r : BacktestResult)
  : result BacktestResult :=
  upper <- SignalEngine.get_upper_band sqrt se ;;
  lower <- SignalEngine.get_lower_band sqrt se ;;
  Ok {| equity_curve := equity_curve r ++ [equity];
        trades := trades r;
        kalman_levels := kalman_levels r ++ [SignalEngine.get_kalman_level se];
        kalman_upper := kalman_upper r ++ [upper];
        kalman_lower := kalman_lower r ++ [lower];
        hurst_values := hurst_values r ++ [SignalEngine.get_hurst se];
        vol_regimes := vol_regimes r ++ [SignalEngine.get_vol_regime se];
        signals := signals r ++ [if entry_this_bar then entry_signal else NONE];
        dates := dates r ++ [current_date] |}.

(** *** One pass of the main trading loop *)

Section Bars.
Variable data : list Bar.

Definition closes : list Q := map close data.
Definition highs : list Q := map high data.
Definition lows : list Q := map low data.
Definition dates_ : list stamp := map date data.
Definition n_bars : Z := Py.len closes.

(** [bars_since_close += 1], new day detection, feed new bar. *)
Definition begin_bar (i : Z) (st : state) : result (state * stamp) :=
  let bars_since_close := (bars_since_close st + 1)%Z in
  current_date <- Py.getitem dates_ i ;;
  let today := today_of current_date in
  let '(risk_mgr, last_day) :=
    if day_differs today (last_day st)
    then (RiskManager.on_new_day (risk_mgr st) (equity st), Some today)
    else (risk_mgr st, last_day st) in
  c <- Py.getitem closes i ;;
  c_prev <- Py.getitem closes (i - 1) ;;
  signal_engine <- SignalEngine.on_new_bar sqrt ln (signal_engine st) c c_prev ;;
  Ok ({| signal_engine := signal_engine; risk_mgr := risk_mgr;
         equity := equity st; realized_pnl := realized_pnl st;
         positions := positions st; closed_trades := closed_trades st;
         next_ticket := next_ticket st; bars_since_close := bars_since_close;
         last_day := last_day; result_ := result_ st |},
      current_date).

(** Update equity, then record. *)
Definition end_bar (current_date : stamp) (bar_close : Q) (entry_signal : Signal)
    (entry_this_bar : bool) (st : state) : result state :=
  let unrealized := unrealized_of bar_close (positions st) in
  let equity := initial_equity ea_ + realized_pnl st + unrealized in
  r <- record current_date equity entry_signal entry_this_bar
         (signal_engine st) (result_ st) ;;
  Ok {| signal_engine := signal_engine st; risk_mgr := risk_mgr st;
        equity := equity; realized_pnl := realized_pnl st;
        positions := positions st; closed_trades := closed_trades st;
        next_ticket := next_ticket st; bars_since_close := bars_since_close st;
        last_day := last_day st; result_ := r |}.

Definition bar (st : state) (i : Z) : result state :=
  '(st, current_date) <- begin_bar i st ;;
  bar_close <- Py.getitem closes i ;;
  bar_high <- Py.getitem highs i ;;
  bar_low <- Py.getitem lows i ;;
  st <- stop_loss_check i current_date bar_high bar_low st ;;
  st <- exit_buy i current_date bar_close st ;;
  st <- exit_sell i current_date bar_close st ;;
  '(st, entry_signal, entry_this_bar) <- entry i current_date bar_close st ;;
  st <- trailing_stop i entry_this_bar st ;;
  end_bar current_date bar_close entry_signal entry_this_bar st.

(** *** Warmup *)

Definition warmup_bars : Z :=
  Z.min (Z.max (hurst_period ea_) (vol_hist_period ea_) + 50) (n_bars - 1).

Definition warmup_feed (se : SignalEngine.t) (i : Z) : result SignalEngine.t :=
  c <- Py.getitem closes i ;;
  c_prev <- Py.getitem closes (i - 1) ;;
  SignalEngine.on_new_bar sqrt ln se c c_prev.

Definition warmup (se : SignalEngine.t) : result SignalEngine.t :=
  c0 <- Py.getitem closes 0 ;;
  se <- SignalEngine.on_new_bar sqrt ln se c0 c0 ;;
  foldM warmup_feed (Py.range 1 warmup_bars) se.

(** *** Close remaining positions at last bar *)

Definition close_remaining (st : state) : result (list ClosedTrade) :=
  if negb (is_empty (positions st)) then
    last_close <- Py.getitem closes (-1) ;;
    last_date <- Py.getitem dates_ (-1) ;;
    Ok (fold_left
          (fun closed_trades pos =>
             let cp := match type pos with
                       | PositionType.BUY => last_close - half_spread
                       | PositionType.SELL => last_close + half_spread
                       end in
             let pnl := match type pos with
                        | PositionType.BUY =>
                            (cp - open_price pos) * lots pos * contract_size inst_
                        | PositionType.SELL =>
                            (open_price pos - cp) * lots pos * contract_size inst_
                        end in
             closed_trades ++
               [mk_closed pos last_date cp pnl "end_of_data" (n_bars - 1)])
          (positions st) (closed_trades st))
  else Ok (closed_trades st).

Definition init_state (se : SignalEngine.t) : state := {|
  signal_engine := se;
  risk_mgr := RiskManager.new ea_ inst_;
  equity := initial_equity ea_;
  realized_pnl := 0;
  positions := [];
  closed_trades := [];
  next_ticket := 1;
  bars_since_close := 100;
  last_day := None;
  result_ := empty_result
|}.

Definition init_engine : SignalEngine.t :=
  SignalEngine.init SignalEngine.new
    (kf_process_noise ea_) (kf_observ_noise ea_) (kf_conf_band ea_)
    (hurst_period ea_) (hurst_threshold ea_)
    (vol_period ea_) (vol_hist_period ea_)
    (hurst_exit_threshold ea_).

(** The main trading loop, as a function of the bars still to process. *)
Definition trade (bars : list Z) (st : state) : result state :=
  foldM bar bars st.

Definition set_trades (r : BacktestResult) (cts : list ClosedTrade)
  : BacktestResult := {|
  equity_curve := equity_curve r; trades := cts;
  kalman_levels := kalman_levels r; kalman_upper := kalman_upper r;
  kalman_lower := kalman_lower r; hurst_values := hurst_values r;
  vol_regimes := vol_regimes r; signals := signals r; dates := dates r
|}.

Definition run : result BacktestResult :=
  se <- warmup init_engine ;;
  st <- trade (Py.range warmup_bars n_bars) (init_state se) ;;
  closed_trades <- close_remaining st ;;
  Ok (set_trades (result_ st) closed_trades).

End Bars.

End Run.

End Backtester.

(** ** config.py: the preset instruments *)

Module Config.

Definition GBPUSD : InstrumentConfig := {|
  symbol := "GBPUSD"; digits := 5; point := 1 # 100000; point_value := 1;
  min_lot := 1 # 100; max_lot := 100; lot_step := 1 # 100;
  spread_points := 18; contract_size := 100000
|}.

Definition USDJPY : InstrumentConfig := {|
  symbol := "USDJPY"; digits := 3; point := 1 # 1000; point_value := 67 # 100;
  min_lot := 1 # 100; max_lot := 100; lot_step := 1 # 100;
  spread_points := 15; contract_size := 100000
|}.

Definition AUDUSD : InstrumentConfig := {|
  symbol := "AUDUSD"; digits := 5; point := 1 # 100000; point_value := 1;
  min_lot := 1 # 100; max_lot := 100; lot_step := 1 # 100;
  spread_points := 18; contract_size := 100000
|}.

Definition XAUUSD : InstrumentConfig := {|
  symbol := "XAUUSD"; digits := 2; point := 1 # 100; point_value := 1;
  min_lot := 1 # 100; max_lot := 100; lot_step := 1 # 100;
  spread_points := 30; contract_size := 100
|}.

(** The dict of presets, in insertion order. *)
Definition _INSTRUMENTS : list (string * InstrumentConfig) :=
  [("EURUSD"%string, EURUSD); ("GBPUSD"%string, GBPUSD);
   ("USDJPY"%string, USDJPY); ("AUDUSD"%string, AUDUSD);
   ("XAUUSD"%string, XAUUSD)].

(** [d.get(key)] on a dict kept as an association list. *)
Fixpoint lookup (key : string) (d : list (string * InstrumentConfig))
  : option InstrumentConfig :=
  match d with
  | [] => None
  | (k, v) :: d' => if String.eqb key k then Some v else lookup key d'
  end.

Section Upper.
(** [str.upper]. *)
Variable upper : string -> string.

(** [key in _INSTRUMENTS] guards the subscript, so the only exception is
    the [ValueError] of the last line. *)
Definition get_instrument (name : string) : result InstrumentConfig :=
  let key := upper name in
  match lookup key _INSTRUMENTS with
  | Some inst => Ok inst
  | None => Raise ValueError
  end.

End Upper.

End Config.

(** ** reporting.py: the trade statistics of [compute_metrics] *)

Module Reporting.

(** A float that may be [float("inf")]. *)
Inductive xfloat : Set :=
| Finite (q : Q)
| Infinity.

(** The fields of [Metrics] that [compute_metrics] sets from the equity
    curve's last value and the trade log, up to the streak loop.  The
    dates, which are formatted with [str], and the fields the function
    computes further down with numpy are not covered. *)
Record Metrics : Type := {
  final_equity : Q;
  total_trades : Z;
  buy_trades : Z;
  sell_trades : Z;
  winning_trades : Z;
  losing_trades : Z;
  win_rate : Q;
  avg_win : Q;
  avg_loss : Q;
  profit_loss_ratio : xfloat;
  max_consec_wins : Z;
  max_consec_losses : Z;
  net_profit : Q;
  gross_profit : Q;
  gross_loss : Q;
  profit_factor : xfloat
}.

(** [sum(1 for t in trades if p(t))]. *)
Definition count_if (p : ClosedTrade -> bool) (trades : list ClosedTrade) : Z :=
  fold_left (fun n t => if p t then (n + 1)%Z else n) trades 0%Z.

(** [sum(t.profit for t in trades)]. *)
Definition sum_profit (trades : list ClosedTrade) : Q :=
  fold_left (fun a t => a + profit t) trades 0.

(** Max consecutive wins/losses. *)
Definition streak_step (acc : Z * Z * Z * Z) (t : ClosedTrade) : Z * Z * Z * Z :=
  let '(streak_w, streak_l, max_w, max_l) := acc in
  let '(streak_w, streak_l) :=
    if Py.gtb (profit t) 0 then ((streak_w + 1)%Z, 0%Z)
    else (0%Z, (streak_l + 1)%Z) in
  (streak_w, streak_l, Z.max max_w streak_w, Z.max max_l streak_l).

Definition streaks (trades : list ClosedTrade) : Z * Z * Z * Z :=
  fold_left streak_step trades (0, 0, 0, 0)%Z.

(** The statements of [compute_metrics] from [m = Metrics()] to the
    streak loop. *)
Definition trade_metrics (r : Backtester.BacktestResult) (ea_cfg : EAConfig)
  : result Metrics :=
  final_equity <-
    (if Backtester.is_empty (Backtester.equity_curve r)
     then Ok (initial_equity ea_cfg)
     else Py.getitem (Backtester.equity_curve r) (-1)) ;;
  let trades := Backtester.trades r in
  let total_trades := Py.len trades in
  if (total_trades =? 0)%Z then
    Ok {| final_equity := final_equity; total_trades := total_trades;
          buy_trades := 0; sell_trades := 0;
          winning_trades := 0; losing_trades := 0;
          win_rate := 0; avg_win := 0; avg_loss := 0;
          profit_loss_ratio := Finite 0;
          max_consec_wins := 0; max_consec_losses := 0;
          net_profit := 0; gross_profit := 0; gross_loss := 0;
          profit_factor := Finite 0 |}
  else
    let buy_trades :=
      count_if (fun t => PositionType.eqb (ct_type t) PositionType.BUY) trades in
    let sell_trades :=
      count_if (fun t => PositionType.eqb (ct_type t) PositionType.SELL) trades in
    let wins := filter (fun t => Py.gtb (profit t) 0) trades in
    let losses := filter (fun t => Py.leb (profit t) 0) trades in
    let winning_trades := Py.len wins in
    let losing_trades := Py.len losses in
    win_rate <-
      (if negb (total_trades =? 0)%Z
       then Py.div (Py.float winning_trades) (Py.float total_trades)
       else Ok 0) ;;
    let gross_profit := sum_profit wins in
    let gross_loss := Qabs (sum_profit losses) in
    let net_profit := gross_profit - gross_loss in
    avg_win <-
      (if negb (winning_trades =? 0)%Z
       then Py.div gross_profit (Py.float winning_trades) else Ok 0) ;;
    avg_loss <-
      (if negb (losing_trades =? 0)%Z
       then Py.div gross_loss (Py.float losing_trades) else Ok 0) ;;
    profit_loss_ratio <-
      (if Py.gtb avg_loss 0
       then q <- Py.div avg_win avg_loss ;; Ok (Finite q)
       else Ok Infinity) ;;
    profit_factor <-
      (if Py.gtb gross_loss 0
       then q <- Py.div gross_profit gross_loss ;; Ok (Finite q)
       else Ok Infinity) ;;
    let '(_, _, max_w, max_l) := streaks trades in
    Ok {| final_equity := final_equity; total_trades := total_trades;
          buy_trades := buy_trades; sell_trades := sell_trades;
          winning_trades := winning_trades; losing_trades := losing_trades;
          win_rate := win_rate; avg_win := avg_win; avg_loss := avg_loss;
          profit_loss_ratio := profit_loss_ratio;
          max_consec_wins := max_w; max_consec_losses := max_l;
          net_profit := net_profit; gross_profit := gross_profit;
          gross_loss := gross_loss;
          profit_factor := profit_factor |}.

End Reporting.


(** * Properties *)

Unset Implicit Arguments.

(** ** Comparisons and the error monad *)

Lemma leb_le a b : Py.leb a b = true <-> a <= b.
Proof. apply Qle_bool_iff. Qed.

Lemma ltb_lt a b : Py.ltb a b = true <-> a < b.
Proof.
  unfold Py.ltb. rewrite negb_true_iff.
  split; intros H.
  - apply Qnot_le_lt. intros Hle. apply Qle_bool_iff in Hle. congruence.
  - destruct (Qle_bool b a) eqn:E; [|reflexivity].
    apply Qle_bool_iff in E. exfalso. apply (Qlt_not_le _ _ H E).
Qed.

Lemma ltb_ge a b : Py.ltb a b = false <-> b <= a.
Proof.
  unfold Py.ltb. rewrite negb_false_iff. apply Qle_bool_iff.
Qed.

Lemma leb_gt a b : Py.leb a b = false <-> b < a.
Proof.
  rewrite <- ltb_lt. unfold Py.ltb, Py.leb.
  destruct (Qle_bool a b); simpl; split; congruence.
Qed.

Lemma gtb_lt a b : Py.gtb a b = true <-> b < a.
Proof. apply ltb_lt. Qed.

Lemma gtb_le a b : Py.gtb a b = false <-> a <= b.
Proof. apply ltb_ge. Qed.

Lemma geb_le a b : Py.geb a b = true <-> b <= a.
Proof. apply leb_le. Qed.

Lemma div_ok a b : ~ b == 0 -> Py.div a b = Ok (a / b).
Proof.
  intros H. unfold Py.div.
  destruct (Qeq_bool b 0) eqn:E; [|reflexivity].
  apply Qeq_bool_eq in E. contradiction.
Qed.

Lemma math_sqrt_ok sqrt x : 0 <= x -> Py.math_sqrt sqrt x = Ok (sqrt x).
Proof.
  intros H. unfold Py.math_sqrt.
  destruct (Py.ltb x 0) eqn:E; [|reflexivity].
  apply ltb_lt in E. exfalso. apply (Qlt_not_le _ _ E H).
Qed.

Lemma math_sqrt_abs sqrt x : Py.math_sqrt sqrt (Qabs x) = Ok (sqrt (Qabs x)).
Proof. apply math_sqrt_ok, Qabs_nonneg. Qed.

Lemma math_log_ok ln x : 0 < x -> Py.math_log ln x = Ok (ln x).
Proof.
  intros H. unfold Py.math_log.
  destruct (Py.leb x 0) eqn:E; [|reflexivity].
  apply leb_le in E. exfalso. apply (Qlt_not_le _ _ H E).
Qed.

Lemma bind_Ok {A B} (m : result A) (k : A -> result B) b :
  bind m k = Ok b -> exists a, m = Ok a /\ k a = Ok b.
Proof. destruct m; simpl; [eauto|discriminate]. Qed.

(** Python's [max] and [min] on floats are the library's. *)
Lemma max_Qmax a b : Py.max a b = Qmax a b.
Proof.
  unfold Py.max, Py.gtb, Py.ltb, Qle_bool, Qmax, GenericMinMax.gmax, Qcompare.
  simpl. rewrite Z.leb_compare.
  destruct (Qnum a * QDen b ?= Qnum b * QDen a)%Z eqn:E; simpl.
  - rewrite Z.compare_antisym, E. reflexivity.
  - rewrite Z.compare_antisym, E. reflexivity.
  - rewrite Z.compare_antisym, E. reflexivity.
Qed.

Lemma min_Qmin a b : Py.min a b = Qmin a b.
Proof.
  unfold Py.min, Py.ltb, Qle_bool, Qmin, GenericMinMax.gmin, Qcompare.
  simpl. rewrite Z.leb_compare.
  destruct (Qnum a * QDen b ?= Qnum b * QDen a)%Z eqn:E; reflexivity.
Qed.


(** ** TrendFilter: the innovation gate *)

(** A rational stand-in for libm, to run the embedding on concrete inputs:
    the integer square root at six decimals, and five terms of the area
    tangent series for the logarithm.  No theorem below depends on it. *)
Definition sqrt6 (x : Q) : Q :=
  Z.sqrt (Qfloor (x * 1000000000000)) # 1000000.

Definition ln5 (x : Q) : Q :=
  let z := Qred ((x - 1) / (x + 1)) in
  Qred (2 * (z + z ^ 3 / 3 + z ^ 5 / 5 + z ^ 7 / 7 + z ^ 9 / 9)).

Section KalmanGate.
Import KalmanFilter.
Variable sqrt : Q -> Q.

(** C2.  After initialization, with predicted level [level + slope],
    innovation [y = price - (level + slope)] and innovation variance
    [S = P00' + R]: when [|y| > 3 * sqrt S] the update commits exactly the
    predicted state and the predicted covariance and corrects nothing;
    otherwise it corrects with the gains [K0 = P00' / S] and
    [K1 = P10' / S], so that level becomes [level' + K0 * y] and slope
    [slope + K1 * y].  [S], a variance, is taken positive. *)
Theorem C2_update_innovation_gate (self : t) (price : Q) :
  initialized self = true ->
  0 < S self ->
  let level' := state0 self + state1 self in
  let y := price - level' in
  let P00' := P00 self + P10 self + (P01 self + P11 self) + Q00 self in
  let P01' := P01 self + P11 self + Q01 self in
  let P10' := P10 self + P11 self + Q10 self in
  let P11' := P11 self + Q11 self in
  let S := P00' + R self in
  let K0 := P00' / S in
  let K1 := P10' / S in
  (Qabs y > 3 * sqrt S ->
     exists self', update sqrt self price = Ok self' /\
       state0 self' = level' /\ state1 self' = state1 self /\
       P00 self' = P00' /\ P01 self' = P01' /\
       P10 self' = P10' /\ P11 self' = P11') /\
  (~ Qabs y > 3 * sqrt S ->
     exists self', update sqrt self price = Ok self' /\
       state0 self' = level' + K0 * y /\
       state1 self' = state1 self + K1 * y /\
       P00 self' = (1 - K0) * P00' /\ P01 self' = (1 - K0) * P01' /\
       P10 self' = - K1 * P00' + P10' /\ P11 self' = - K1 * P01' + P11').
Proof.
  intros Hinit HS. cbv zeta.
  assert (Hs : Py.math_sqrt sqrt (KalmanFilter.S self)
               = Ok (sqrt (KalmanFilter.S self)))
    by (apply math_sqrt_ok, Qlt_le_weak, HS).
  assert (Hnz : ~ KalmanFilter.S self == 0)
    by (intros E; rewrite E in HS; revert HS; apply Qlt_irrefl).
  split; intros Hgate.
  - eexists. split.
    + unfold update. rewrite Hinit. cbn [negb].
      rewrite Hs. cbn [bind].
      replace (Py.gtb _ _) with true; [reflexivity|].
      symmetry. apply gtb_lt. exact Hgate.
    + cbn. repeat split; reflexivity.
  - eexists. split.
    + unfold update. rewrite Hinit. cbn [negb].
      rewrite Hs. cbn [bind].
      replace (Py.gtb _ _) with false.
      * rewrite !div_ok by exact Hnz. cbn [bind]. reflexivity.
      * symmetry. apply gtb_le. apply Qnot_lt_le. exact Hgate.
    + cbn. repeat split; reflexivity.
Qed.

End KalmanGate.

Lemma C2_update_innovation_gate_witness :
  let self := KalmanFilter.commit KalmanFilter.new 100 0 1 0 0 (1 # 100) in
  KalmanFilter.initialized self = true /\ 0 < KalmanFilter.S self /\
  exists self', KalmanFilter.update sqrt6 self 110 = Ok self' /\
                KalmanFilter.state0 self' = 100 + 0.
Proof.
  cbv zeta. split; [reflexivity|]. split; [reflexivity|].
  destruct (C2_update_innovation_gate sqrt6
              (KalmanFilter.commit KalmanFilter.new 100 0 1 0 0 (1 # 100)) 110
              eq_refl eq_refl) as [Hout _].
  destruct Hout as (self' & Hu & Hl & _); [reflexivity|].
  exists self'. split; [exact Hu|exact Hl].
Defined.


(** ** Non-positive prices *)

Lemma or_leb_true close prev_close :
  close <= 0 \/ prev_close <= 0 ->
  Py.leb prev_close 0 || Py.leb close 0 = true.
Proof.
  intros [H|H]; apply leb_le in H; rewrite H; auto using orb_true_r.
Qed.

(** C4, as the code has it.  The strength estimator and the volatility
    classifier ignore a bar whose close or previous close is non-positive:
    nothing is raised and their whole state is kept.  The trend filter has
    no such guard (it is not given the previous close): in the engine's
    [on_new_bar] it is updated with that close like with any other, and it
    is the only estimator that changes. *)
Theorem C4_nonpositive_price_skipped (sqrt ln : Q -> Q)
    (h : HurstExponent.t) (v : VolatilityRegime.t) (se : SignalEngine.t)
    (close prev_close : Q) :
  close <= 0 \/ prev_close <= 0 ->
  HurstExponent.update sqrt ln h close prev_close = Ok h /\
  VolatilityRegime.update sqrt ln v close prev_close = Ok v /\
  SignalEngine.on_new_bar sqrt ln se close prev_close =
    (k <- KalmanFilter.update sqrt (SignalEngine.kalman se) close ;;
     Ok {| SignalEngine.kalman := k;
           SignalEngine.hurst := SignalEngine.hurst se;
           SignalEngine.vol_regime := SignalEngine.vol_regime se;
           SignalEngine.conf_band := SignalEngine.conf_band se;
           SignalEngine.hurst_threshold := SignalEngine.hurst_threshold se;
           SignalEngine.hurst_exit_threshold :=
             SignalEngine.hurst_exit_threshold se |}).
Proof.
  intros H. apply or_leb_true in H.
  assert (Hh : forall x, HurstExponent.update sqrt ln x close prev_close = Ok x)
    by (intros x; unfold HurstExponent.update; rewrite H; reflexivity).
  assert (Hv : forall x, VolatilityRegime.update sqrt ln x close prev_close = Ok x)
    by (intros x; unfold VolatilityRegime.update; rewrite H; reflexivity).
  repeat split; auto.
  unfold SignalEngine.on_new_bar. rewrite Hh, Hv. reflexivity.
Qed.

Lemma C4_nonpositive_price_skipped_witness :
  let h := HurstExponent.init HurstExponent.new 200 in
  let v := VolatilityRegime.init VolatilityRegime.new 100 500 in
  (0 <= 0 \/ 100 <= 0) /\
  HurstExponent.update sqrt6 ln5 h 0 100 = Ok h /\
  VolatilityRegime.update sqrt6 ln5 v 0 100 = Ok v.
Proof.
  cbv zeta. split; [left; apply Qle_refl|].
  destruct (C4_nonpositive_price_skipped sqrt6 ln5
              (HurstExponent.init HurstExponent.new 200)
              (VolatilityRegime.init VolatilityRegime.new 100 500)
              SignalEngine.new 0 100 (or_introl (Qle_refl 0)))
    as (Hh & Hv & _).
  split; assumption.
Defined.

(** The filter after [init(0.01, 1.0)] and a first [update(100.0)]. *)
Definition filter_at_100 : KalmanFilter.t :=
  KalmanFilter.commit (KalmanFilter.init KalmanFilter.new (1 # 100) 1)
    100 0 (100 * (1 # 100) * (100 * (1 # 100))) 0 0
    (100 * (1 # 100) * (100 * (1 # 100)) * (1 # 100)).

(** C4 as stated fails on the trend filter: a close of 0 is not ignored,
    the filter commits its prediction and the covariance grows. *)
Lemma C4_filter_counterexample :
  KalmanFilter.update sqrt6 (KalmanFilter.init KalmanFilter.new (1 # 100) 1) 100
    = Ok filter_at_100 /\
  0 <= 0 /\
  (exists k, KalmanFilter.update sqrt6 filter_at_100 0 = Ok k /\
             KalmanFilter.P00 k == 102 # 100 /\
             KalmanFilter.P00 filter_at_100 == 1) /\
  KalmanFilter.update sqrt6 filter_at_100 0 <> Ok filter_at_100.
Proof.
  split; [reflexivity|]. split; [apply Qle_refl|]. split.
  - eexists. split; [vm_compute; reflexivity|]. split; reflexivity.
  - vm_compute. discriminate.
Qed.


(** ** Lists, ranges and loops *)

Lemma range_In a b i : In i (Py.range a b) <-> (a <= i < b)%Z.
Proof.
  unfold Py.range. rewrite in_map_iff. split.
  - intros (k & <- & Hk). apply in_seq in Hk. lia.
  - intros H. exists (Z.to_nat (i - a)). split; [lia|].
    apply in_seq. lia.
Qed.

Lemma range_length a b : List.length (Py.range a b) = Z.to_nat (b - a).
Proof. unfold Py.range. rewrite length_map, length_seq. reflexivity. Qed.

Lemma range_empty a b : (b <= a)%Z -> Py.range a b = [].
Proof.
  intros H. unfold Py.range.
  replace (Z.to_nat (b - a)) with O by lia. reflexivity.
Qed.

Lemma range_cons a b : (a < b)%Z -> Py.range a b = a :: Py.range (a + 1) b.
Proof.
  intros H. unfold Py.range.
  replace (Z.to_nat (b - a)) with (S (Z.to_nat (b - (a + 1)))) by lia.
  cbn [seq map]. f_equal; [lia|].
  rewrite <- seq_shift, map_map. apply map_ext. intros k. lia.
Qed.

Lemma norm_index_nonneg {A} (l : list A) i :
  (0 <= i < Py.len l)%Z -> Py.norm_index l i = Some (Z.to_nat i).
Proof.
  intros H. unfold Py.norm_index, Py.len in *.
  destruct (Z.leb_spec 0 i); [|lia].
  destruct (Z.ltb_spec i (Z.of_nat (List.length l))); [|lia]. reflexivity.
Qed.

Lemma getitem_nth {A} (l : list A) i :
  (0 <= i < Py.len l)%Z ->
  exists x, Py.getitem l i = Ok x /\ nth_error l (Z.to_nat i) = Some x.
Proof.
  intros H. unfold Py.getitem. rewrite norm_index_nonneg by exact H.
  destruct (nth_error l (Z.to_nat i)) eqn:E; [eauto|].
  apply nth_error_None in E. unfold Py.len in H. lia.
Qed.

Lemma getitem_last {A} (l : list A) :
  l <> [] -> exists x, Py.getitem l (-1) = Ok x.
Proof.
  intros H. unfold Py.getitem, Py.norm_index.
  destruct l as [|a l]; [congruence|].
  cbn [andb Z.leb Z.compare Z.ltb].
  destruct (Z.leb_spec (- Z.of_nat (List.length (a :: l))) (-1));
    [|cbn [List.length] in *; lia].
  destruct (nth_error (a :: l) _) eqn:E; [eauto|].
  apply nth_error_None in E. cbn [List.length] in *. lia.
Qed.

Lemma update_nth_length {A} (l : list A) k v :
  List.length (Py.update_nth l k v) = List.length l.
Proof.
  revert k. induction l as [|h t IH]; intros [|k]; cbn; auto.
Qed.

Lemma setitem_ok {A} (l : list A) i v :
  (0 <= i < Py.len l)%Z ->
  Py.setitem l i v = Ok (Py.update_nth l (Z.to_nat i) v).
Proof.
  intros H. unfold Py.setitem. rewrite norm_index_nonneg by exact H.
  reflexivity.
Qed.

Lemma replicate_len {A} (v : A) n : Py.len (Py.replicate v n) = Z.max 0 n.
Proof. unfold Py.len, Py.replicate. rewrite repeat_length. lia. Qed.

(** A loop whose body keeps an invariant and never raises on the elements
    it is run on runs to the end. *)
Lemma foldM_invariant {A S} (I : S -> Prop) (f : S -> A -> result S) xs :
  (forall s x, In x xs -> I s -> exists s', f s x = Ok s' /\ I s') ->
  forall s, I s -> exists s', foldM f xs s = Ok s' /\ I s'.
Proof.
  induction xs as [|x xs IH]; intros Hf s Hs; cbn.
  - eauto.
  - destruct (Hf s x (or_introl eq_refl) Hs) as (s1 & E & H1).
    rewrite E. cbn. apply IH; auto.
    intros s0 y Hy. apply Hf. right. exact Hy.
Qed.

(** The other direction: what a completed loop established. *)
Lemma foldM_preserves {A S} (I : S -> Prop) (f : S -> A -> result S) xs :
  (forall s x s', In x xs -> I s -> f s x = Ok s' -> I s') ->
  forall s s', I s -> foldM f xs s = Ok s' -> I s'.
Proof.
  induction xs as [|x xs IH]; intros Hf s s' Hs; cbn.
  - intros [= <-]. exact Hs.
  - intros H. apply bind_Ok in H. destruct H as (s1 & E & H).
    apply (IH (fun s0 y s0' Hy => Hf s0 y s0' (or_intror Hy)) s1 s'); auto.
    apply (Hf s x s1); auto. left. reflexivity.
Qed.

(** A loop that reads [l[i]] for [i] in [range(n)] visits the first [n]
    elements of [l] in order. *)
Lemma foldM_getitem_shift {A S} (g : S -> A -> result S) (pre rest : list A) m :
  (m <= List.length rest)%nat ->
  forall s,
  foldM (fun s i => x <- Py.getitem (pre ++ rest) i ;; g s x)
        (map (fun k => (Z.of_nat (List.length pre) + Z.of_nat k)%Z) (seq 0 m)) s
  = foldM g (firstn m rest) s.
Proof.
  revert pre rest. induction m as [|m IH]; intros pre rest Hm s; [reflexivity|].
  destruct rest as [|x rest]; [cbn in Hm; lia|].
  cbn [seq map foldM firstn].
  destruct (getitem_nth (pre ++ x :: rest)
              (Z.of_nat (List.length pre) + Z.of_nat 0)) as (y & Hy & Hn).
  { unfold Py.len. rewrite length_app. cbn. lia. }
  rewrite Hy. cbn [bind].
  replace (Z.to_nat _) with (List.length pre + 0)%nat in Hn by lia.
  rewrite nth_error_app2, Nat.add_0_r, Nat.sub_diag in Hn by lia.
  cbn in Hn. injection Hn as <-.
  destruct (g s x) as [s1|e]; cbn [bind]; [|reflexivity].
  rewrite <- seq_shift, map_map.
  replace (pre ++ x :: rest) with ((pre ++ [x]) ++ rest)
    by (rewrite <- app_assoc; reflexivity).
  rewrite <- (IH (pre ++ [x]) rest) by (cbn in Hm; lia).
  f_equal. apply map_ext. intros k. rewrite length_app. cbn. lia.
Qed.

Lemma foldM_getitem_range {A S} (g : S -> A -> result S) (l : list A) n s :
  (0 <= n <= Py.len l)%Z ->
  foldM (fun s i => x <- Py.getitem l i ;; g s x) (Py.range 0 n) s
  = foldM g (firstn (Z.to_nat n) l) s.
Proof.
  intros H. unfold Py.range, Py.len in *.
  rewrite <- (foldM_getitem_shift g [] l) by lia.
  rewrite Z.sub_0_r. reflexivity.
Qed.


(** ** VolatilityRegimeClassifier *)

Lemma float_nonzero z : (z <> 0)%Z -> ~ Py.float z == 0.
Proof.
  intros H E. unfold Py.float, Qeq in E. cbn in E. lia.
Qed.

Lemma float_pos z : (0 < z)%Z -> 0 < Py.float z.
Proof. intros H. unfold Py.float, Qlt. cbn. lia. Qed.

(** Counting loop against [filter]. *)
Lemma count_loop (p : Q -> bool) (l : list Q) (c : Z) :
  foldM (fun count_below v => if p v then Ok (count_below + 1)%Z else Ok count_below)
        l c
  = Ok (c + Z.of_nat (List.length (filter p l)))%Z.
Proof.
  revert c. induction l as [|v l IH]; intros c; cbn.
  - f_equal. lia.
  - destruct (p v); cbn; rewrite IH; f_equal; cbn [List.length]; lia.
Qed.

Lemma square_nonneg (a : Q) : 0 <= a * a.
Proof. nra. Qed.

(** Sums of squares are not negative. *)
Lemma sum_sq_loop (mean : Q) (l : list Q) (s : Q) :
  0 <= s ->
  exists s', foldM (fun sum_sq x => let diff := x - mean in
                                    Ok (sum_sq + diff * diff)) l s = Ok s'
             /\ 0 <= s'.
Proof.
  revert s. induction l as [|x l IH]; intros s Hs; cbn.
  - eauto.
  - apply IH. pose proof (square_nonneg (x - mean)). lra.
Qed.

Lemma sum_loop (l : list Q) (s : Q) :
  exists s', foldM (fun mean x => Ok (mean + x)) l s = Ok s'.
Proof.
  revert s. induction l as [|x l IH]; intros s; cbn; eauto.
Qed.

Module VolFacts.
Import VolatilityRegime.

(** The shape [init] gives the two ring buffers and [update] keeps. *)
Definition wf (self : t) : Prop :=
  (1 <= period self)%Z /\ (1 <= hist_period self)%Z /\
  Py.len (returns self) = period self /\
  Py.len (vol_history self) = hist_period self /\
  (0 <= ret_count self <= period self)%Z /\
  (0 <= ret_head self < period self)%Z /\
  (0 <= vol_count self <= hist_period self)%Z /\
  (0 <= vol_head self < hist_period self)%Z.

(** The number of buffered history values below [v]. *)
Definition count_below (self : t) (v : Q) : Z :=
  Z.of_nat (List.length
              (filter (fun x => Py.ltb x v)
                      (firstn (Z.to_nat (vol_count self)) (vol_history self)))).

(** The slot [push_vol] writes. *)
Definition slot (self : t) : Z :=
  if (vol_count self <? hist_period self)%Z then vol_count self
  else vol_head self.

Lemma vol_init_wf self p hp : (1 <= p)%Z -> (1 <= hp)%Z -> wf (init self p hp).
Proof.
  intros Hp Hh. unfold wf, init; cbn.
  rewrite !replicate_len. lia.
Qed.

Lemma push_return_ok self ret :
  wf self ->
  exists rs h c, push_return self ret = Ok (set_returns self rs h c) /\
                 wf (set_returns self rs h c).
Proof.
  intros (Hp & Hh & Hr & Hv & Hc & Hrh & Hvc & Hvh). unfold push_return.
  destruct (Z.ltb_spec (ret_count self) (period self)).
  - rewrite setitem_ok by lia. cbn [bind].
    do 3 eexists. split; [reflexivity|].
    unfold wf, Py.len in *; cbn. rewrite update_nth_length. lia.
  - rewrite setitem_ok by lia. cbn [bind].
    unfold Py.mod_. destruct (Z.eqb_spec (period self) 0); [lia|]. cbn [bind].
    do 3 eexists. split; [reflexivity|].
    pose proof (Z.mod_pos_bound (ret_head self + 1) (period self)).
    unfold wf, Py.len in *; cbn. rewrite update_nth_length. lia.
Qed.

Lemma push_vol_ok self :
  wf self ->
  push_vol self =
    Ok (set_history self
          (Py.update_nth (vol_history self) (Z.to_nat (slot self)) (current_vol self))
          (if (vol_count self <? hist_period self)%Z then vol_head self
           else ((vol_head self + 1) mod hist_period self)%Z)
          (if (vol_count self <? hist_period self)%Z then (vol_count self + 1)%Z
           else vol_count self)).
Proof.
  intros (Hp & Hh & Hr & Hv & Hc & Hrh & Hvc & Hvh). unfold push_vol, slot.
  destruct (Z.ltb_spec (vol_count self) (hist_period self)).
  - rewrite setitem_ok by lia. reflexivity.
  - rewrite setitem_ok by lia. cbn [bind].
    unfold Py.mod_. destruct (Z.eqb_spec (hist_period self) 0); [lia|].
    reflexivity.
Qed.

Lemma set_history_wf self vs h c :
  wf self -> Py.len vs = hist_period self ->
  (0 <= h < hist_period self)%Z -> (0 <= c <= hist_period self)%Z ->
  wf (set_history self vs h c).
Proof. unfold wf; cbn. intuition. Qed.

Lemma rank_ok self :
  wf self ->
  rank self =
    Ok (if (2 <=? vol_count self)%Z
        then set_percentile self
               (Py.float (count_below self (current_vol self))
                / Py.float (vol_count self))
        else self).
Proof.
  intros (Hp & Hh & Hr & Hv & Hc & Hrh & Hvc & Hvh). unfold rank.
  destruct (Z.leb_spec 2 (vol_count self)); [|reflexivity].
  replace (Z.min (vol_count self) (hist_period self)) with (vol_count self) by lia.
  rewrite (foldM_getitem_range
             (fun c v => if Py.ltb v (current_vol self) then Ok (c + 1)%Z else Ok c))
    by lia.
  rewrite count_loop. cbn [bind Z.add].
  rewrite div_ok by (apply float_nonzero; lia). reflexivity.
Qed.

Section Realized.
Variable sqrt : Q -> Q.

Lemma realized_ok self :
  wf self ->
  exists v, realized sqrt self = Ok (if (2 <=? ret_count self)%Z
                                     then set_current_vol self v else self).
Proof.
  intros (Hp & Hh & Hr & Hv & Hc & Hrh & Hvc & Hvh). unfold realized.
  destruct (Z.leb_spec 2 (ret_count self)); [|exists 0; reflexivity].
  replace (Z.min (ret_count self) (period self)) with (ret_count self) by lia.
  rewrite (foldM_getitem_range (fun mean x => Ok (mean + x))) by lia.
  destruct (sum_loop (firstn (Z.to_nat (ret_count self)) (returns self)) 0)
    as (m & ->). cbn [bind].
  rewrite div_ok by (apply float_nonzero; lia). cbn [bind].
  rewrite (foldM_getitem_range
             (fun sum_sq x => let diff := x - _ in Ok (sum_sq + diff * diff)))
    by lia.
  destruct (sum_sq_loop (m / Py.float (ret_count self))
              (firstn (Z.to_nat (ret_count self)) (returns self)) 0
              (Qle_refl 0)) as (s & -> & Hs). cbn [bind].
  rewrite div_ok by (apply float_nonzero; lia). cbn [bind].
  rewrite math_sqrt_ok.
  - cbn [bind]. eexists. reflexivity.
  - apply Qle_shift_div_l; [apply float_pos; lia|]. lra.
Qed.

End Realized.

End VolFacts.

Section VolUpdate.
Import VolatilityRegime VolFacts.
Variables sqrt ln : Q -> Q.

(** What a pushed volatility leaves in the classifier [self'], coming from
    [self]. *)
Definition pushed (self self' : t) : Prop :=
  vol_history self' =
    Py.update_nth (vol_history self) (Z.to_nat (slot self)) (current_vol self') /\
  vol_count self' =
    (if (vol_count self <? hist_period self)%Z then (vol_count self + 1)%Z
     else vol_count self) /\
  ((2 <= vol_count self')%Z ->
     percentile self' =
       Py.float (count_below self' (current_vol self')) / Py.float (vol_count self')) /\
  ((vol_count self' < 2)%Z -> percentile self' = percentile self).

Lemma ratio_pos close prev_close : 0 < close -> 0 < prev_close -> 0 < close / prev_close.
Proof.
  intros Hc Hp. apply Qlt_shift_div_l; [exact Hp|]. lra.
Qed.

Lemma skip_false close prev_close :
  0 < close -> 0 < prev_close -> Py.leb prev_close 0 || Py.leb close 0 = false.
Proof.
  intros Hc Hp. apply leb_gt in Hc, Hp. rewrite Hc, Hp. reflexivity.
Qed.

Lemma vol_update_total self close prev_close :
  wf self ->
  exists self', update sqrt ln self close prev_close = Ok self' /\ wf self' /\
    (0 < close -> 0 < prev_close -> 0 < current_vol self' -> pushed self self').
Proof.
  intros Hwf. unfold update.
  destruct (Py.leb prev_close 0 || Py.leb close 0) eqn:Eskip.
  { exists self. split; [reflexivity|]. split; [exact Hwf|]. intros Hc Hp.
    rewrite (skip_false _ _ Hc Hp) in Eskip. discriminate. }
  apply orb_false_iff in Eskip. destruct Eskip as [Ep Ec].
  apply leb_gt in Ep, Ec.
  rewrite div_ok by lra. cbn [bind].
  rewrite math_log_ok by (apply ratio_pos; assumption). cbn [bind].
  destruct (push_return_ok self (ln (close / prev_close)) Hwf)
    as (rs & h & c & -> & Hwf1). cbn [bind].
  destruct (realized_ok sqrt _ Hwf1) as (v & ->). cbn [bind].
  set (mid := if (2 <=? ret_count (set_returns self rs h c))%Z
              then set_current_vol (set_returns self rs h c) v
              else set_returns self rs h c).
  assert (Hmid : wf mid /\ vol_history mid = vol_history self /\
                 vol_count mid = vol_count self /\
                 vol_head mid = vol_head self /\
                 hist_period mid = hist_period self /\
                 percentile mid = percentile self).
  { unfold mid. destruct (2 <=? _)%Z; cbn; repeat split; try apply Hwf1. }
  clearbody mid. destruct Hmid as (Hwfm & Hh & Hc & Hhd & Hhp & Hpc).
  destruct (Py.gtb (current_vol mid) 0) eqn:Egt.
  - rewrite (push_vol_ok mid Hwfm). cbn [bind].
    match goal with |- context [rank ?x] => set (p := x) end.
    assert (Hwfp : wf p).
    { pose proof Hwfm as (? & ? & ? & ? & ? & ? & ? & ?).
      unfold p. apply set_history_wf; [exact Hwfm| | |].
      - unfold Py.len in *. rewrite update_nth_length. assumption.
      - destruct (Z.ltb_spec (vol_count mid) (hist_period mid)); [lia|].
        apply Z.mod_pos_bound. lia.
      - destruct (Z.ltb_spec (vol_count mid) (hist_period mid)); lia. }
    rewrite (rank_ok p Hwfp).
    eexists. split; [reflexivity|]. split.
    + destruct (2 <=? vol_count p)%Z; exact Hwfp.
    + intros _ _ _. unfold pushed.
      assert (Hs : slot mid = slot self) by (unfold slot; rewrite Hc, Hhp, Hhd; reflexivity).
      assert (Hpv : vol_history p =
                Py.update_nth (vol_history self) (Z.to_nat (slot self)) (current_vol mid))
        by (unfold p; cbn; rewrite Hh, Hs; reflexivity).
      assert (Hpc' : vol_count p =
                if (vol_count self <? hist_period self)%Z
                then (vol_count self + 1)%Z else vol_count self)
        by (unfold p; cbn; rewrite Hc, Hhp; reflexivity).
      assert (Hpp : percentile p = percentile self) by exact Hpc.
      assert (Hpcv : current_vol p = current_vol mid) by reflexivity.
      clearbody p.
      destruct (Z.leb_spec 2 (vol_count p));
        cbn [vol_history vol_count percentile current_vol set_percentile];
        unfold count_below;
        cbn [vol_history vol_count percentile current_vol set_percentile];
        rewrite ?Hpcv; repeat split; auto; lia.
  - exists mid. split; [reflexivity|]. split; [exact Hwfm|].
    intros _ _ Hpos. apply gtb_le in Egt. lra.
Qed.


End VolUpdate.






(** ** TrendStrengthEstimator *)

Definition in_unit (h : Q) : Prop := 0 <= h /\ h <= 1.

Lemma half_in_unit : in_unit (1 # 2).
Proof. split; discriminate. Qed.

Lemma clamp_in_unit H : in_unit (Py.max 0 (Py.min 1 H)).
Proof.
  unfold Py.max, Py.min, in_unit.
  destruct (Py.ltb H 1) eqn:E1.
  - apply ltb_lt in E1.
    destruct (Py.gtb H 0) eqn:E0.
    + apply gtb_lt in E0. lra.
    + lra.
  - destruct (Py.gtb 1 0) eqn:E0; lra.
Qed.

Module HurstFacts.
Import HurstExponent.

Lemma regress_cases log_n log_rs h :
  regress log_n log_rs = Ok h ->
  h = 1 # 2 \/ exists H, h = Py.max 0 (Py.min 1 H).
Proof.
  unfold regress.
  destruct (Py.len log_n <? 2)%Z; [intros [= <-]; auto|].
  intros Hb. apply bind_Ok in Hb.
  destruct Hb as ([[[sum_x sum_y] sum_xy] sum_x2] & _ & Hb).
  destruct (Py.ltb _ tiny); [injection Hb as <-; auto|].
  apply bind_Ok in Hb. destruct Hb as (H & _ & [= <-]). eauto.
Qed.

Section Calc.
Variables sqrt ln : Q -> Q.

Lemma calculate_cases self h :
  _calculate_hurst sqrt ln self = Ok h ->
  h = 1 # 2 \/ exists H, h = Py.max 0 (Py.min 1 H).
Proof.
  unfold _calculate_hurst. intros Hb.
  apply bind_Ok in Hb. destruct Hb as (linear & _ & Hb).
  destruct (Py.len linear <? 20)%Z; [injection Hb as <-; auto|].
  apply bind_Ok in Hb. destruct Hb as ([log_n log_rs] & _ & Hb).
  apply regress_cases in Hb. exact Hb.
Qed.

Lemma calculate_in_unit self h :
  _calculate_hurst sqrt ln self = Ok h -> in_unit h.
Proof.
  intros H. apply calculate_cases in H.
  destruct H as [->|(H & ->)]; [apply half_in_unit|apply clamp_in_unit].
Qed.

Lemma push_hurst self ret self' :
  push self ret = Ok self' -> hurst self' = hurst self.
Proof.
  unfold push. destruct (count self <? period self)%Z; intros Hb.
  - apply bind_Ok in Hb. destruct Hb as (rs & _ & [= <-]). reflexivity.
  - apply bind_Ok in Hb. destruct Hb as (rs & _ & Hb).
    apply bind_Ok in Hb. destruct Hb as (hd & _ & [= <-]). reflexivity.
Qed.

Lemma update_in_unit self close prev_close self' :
  update sqrt ln self close prev_close = Ok self' ->
  in_unit (hurst self) -> in_unit (hurst self').
Proof.
  unfold update. destruct (_ || _); [intros [= <-]; auto|].
  intros Hb Hu.
  apply bind_Ok in Hb. destruct Hb as (ratio & _ & Hb).
  apply bind_Ok in Hb. destruct Hb as (ret & _ & Hb).
  apply bind_Ok in Hb. destruct Hb as (s1 & Hp & Hb).
  apply push_hurst in Hp.
  destruct (20 <=? count s1)%Z.
  - apply bind_Ok in Hb. destruct Hb as (h & Hc & [= <-]).
    cbn. apply (calculate_in_unit _ _ Hc).
  - injection Hb as <-. rewrite Hp. exact Hu.
Qed.

(** The estimator after any sequence of [init] and [update] calls on a
    fresh object. *)
Inductive reachable : t -> Prop :=
| reach_new : reachable new
| reach_init self period :
    reachable self -> reachable (init self period)
| reach_update self close prev_close self' :
    reachable self ->
    update sqrt ln self close prev_close = Ok self' ->
    reachable self'.

End Calc.

End HurstFacts.

(** C8.  The exponent starts at 0.5; a recomputation returns 0.5 on every
    early exit (fewer than 20 samples, fewer than 2 regression points,
    degenerate denominator) and the regression slope clamped to [0, 1]
    otherwise; hence after every sequence of [init] and [update] calls the
    exposed value lies in [0, 1]. *)
Theorem C8_exponent_in_unit_interval (sqrt ln : Q -> Q) :
  HurstExponent.get_hurst HurstExponent.new = 1 # 2 /\
  (forall self period,
     HurstExponent.get_hurst (HurstExponent.init self period) = 1 # 2) /\
  (forall self linear,
     HurstExponent._linearize self = Ok linear -> (Py.len linear < 20)%Z ->
     HurstExponent._calculate_hurst sqrt ln self = Ok (1 # 2)) /\
  (forall log_n log_rs,
     (Py.len log_n < 2)%Z -> HurstExponent.regress log_n log_rs = Ok (1 # 2)) /\
  (forall log_n log_rs sum_x sum_y sum_xy sum_x2,
     HurstExponent.regression_sums log_n log_rs (Py.len log_n)
       = Ok (sum_x, sum_y, sum_xy, sum_x2) ->
     Qabs (Py.float (Py.len log_n) * sum_x2 - sum_x * sum_x) < HurstExponent.tiny ->
     HurstExponent.regress log_n log_rs = Ok (1 # 2)) /\
  (forall log_n log_rs h,
     HurstExponent.regress log_n log_rs = Ok h ->
     h = 1 # 2 \/ exists H, h = Py.max 0 (Py.min 1 H)) /\
  (forall self h,
     HurstExponent._calculate_hurst sqrt ln self = Ok h -> 0 <= h /\ h <= 1) /\
  (forall self,
     HurstFacts.reachable sqrt ln self ->
     0 <= HurstExponent.get_hurst self /\ HurstExponent.get_hurst self <= 1).
Proof.
  split; [reflexivity|]. split; [reflexivity|]. split.
  { intros self linear Hl Hlen. unfold HurstExponent._calculate_hurst.
    rewrite Hl. cbn [bind].
    destruct (Z.ltb_spec (Py.len linear) 20); [reflexivity|lia]. }
  split.
  { intros log_n log_rs Hlen. unfold HurstExponent.regress.
    destruct (Z.ltb_spec (Py.len log_n) 2); [reflexivity|lia]. }
  split.
  { intros log_n log_rs sum_x sum_y sum_xy sum_x2 Hs Hd.
    unfold HurstExponent.regress.
    destruct (Py.len log_n <? 2)%Z; [reflexivity|].
    rewrite Hs. cbn [bind]. apply ltb_lt in Hd. rewrite Hd. reflexivity. }
  split; [apply HurstFacts.regress_cases|].
  split; [apply HurstFacts.calculate_in_unit|].
  intros self Hr. induction Hr.
  - apply half_in_unit.
  - apply half_in_unit.
  - eapply HurstFacts.update_in_unit; eauto.
Qed.

Lemma C8_exponent_in_unit_interval_witness :
  exists self,
    HurstExponent.update sqrt6 ln5
      (HurstExponent.init HurstExponent.new 200) 101 100 = Ok self /\
    HurstFacts.reachable sqrt6 ln5 self /\
    0 <= HurstExponent.get_hurst self /\ HurstExponent.get_hurst self <= 1.
Proof.
  eexists. split; [vm_compute; reflexivity|].
  match goal with |- HurstFacts.reachable _ _ ?s /\ _ =>
    assert (Hr : HurstFacts.reachable sqrt6 ln5 s)
  end.
  { apply (HurstFacts.reach_update sqrt6 ln5
             (HurstExponent.init HurstExponent.new 200) 101 100);
      [apply HurstFacts.reach_init, HurstFacts.reach_new|].
    vm_compute. reflexivity. }
  split; [exact Hr|].
  destruct (C8_exponent_in_unit_interval sqrt6 ln5)
    as (_ & _ & _ & _ & _ & _ & _ & H).
  exact (H _ Hr).
Defined.


(** ** RiskManager *)

Module RiskFacts.
Import RiskManager.

(** Margin, used margin and free margin as plain formulas. *)
Definition margin (self : t) (lots price : Q) : Q :=
  lots * contract_size (inst self) * price / Py.float (leverage (ea self)).

Definition used_margin (self : t) (positions : list Position) : Q :=
  fold_left (fun total pos => total + margin self (lots pos) (open_price pos))
            positions 0.

Definition free_margin (self : t) (equity : Q) (positions : list Position) : Q :=
  equity - used_margin self positions.

Section Leverage.
Variable self : t.
Hypothesis leverage_nonzero : (leverage (ea self) <> 0)%Z.

Lemma calc_margin_ok lots price :
  calc_margin self lots price = Ok (margin self lots price).
Proof.
  unfold calc_margin, margin. apply div_ok, float_nonzero, leverage_nonzero.
Qed.

Lemma get_used_margin_ok positions :
  get_used_margin self positions = Ok (used_margin self positions).
Proof.
  unfold get_used_margin, used_margin. generalize 0.
  induction positions as [|p ps IH]; intros total; cbn [foldM fold_left].
  - reflexivity.
  - rewrite calc_margin_ok. cbn [bind]. apply IH.
Qed.

Lemma get_free_margin_ok equity positions :
  get_free_margin self equity positions = Ok (free_margin self equity positions).
Proof.
  unfold get_free_margin. rewrite get_used_margin_ok. reflexivity.
Qed.

End Leverage.

(** The gates of [can_open_trade] other than the daily drawdown. *)
Definition other_gates (self : t) (positions : list Position)
    (equity spread_points new_lots new_price : Q) : result bool :=
  if (max_positions (ea self) <=? Py.len positions)%Z then Ok false
  else if Py.gtb spread_points (max_spread_points (ea self)) then Ok false
  else
    required <- calc_margin self new_lots new_price ;;
    free <- get_free_margin self equity positions ;;
    Ok (negb (Py.ltb free required)).

Lemma can_open_trade_total (self : t) positions equity spread_points new_lots new_price :
  (leverage (ea self) <> 0)%Z ->
  exists b,
    can_open_trade self positions equity spread_points new_lots new_price = Ok b.
Proof.
  intros Hl. unfold can_open_trade.
  destruct (_ <=? _)%Z; [eauto|].
  assert (Hrest : exists b,
            (if Py.gtb spread_points (max_spread_points (ea self)) then Ok false
             else required <- calc_margin self new_lots new_price ;;
                  free <- get_free_margin self equity positions ;;
                  if Py.ltb free required then Ok false else Ok true) = Ok b).
  { destruct (Py.gtb spread_points _); [eauto|].
    rewrite calc_margin_ok, get_free_margin_ok by exact Hl.
    cbn [bind]. destruct (Py.ltb _ _); eauto. }
  destruct (Py.gtb (day_start_equity self) 0) eqn:Ed; [|exact Hrest].
  destruct (Py.ltb _ 0); [|exact Hrest].
  apply gtb_lt in Ed. rewrite div_ok by lra. cbn [bind].
  destruct (Py.gtb _ (max_daily_dd _)); [eauto|exact Hrest].
Qed.

Lemma normalize_total step lots : exists l, normalize step lots = Ok l.
Proof.
  unfold normalize. destruct (Py.gtb step 0) eqn:E; [|eauto].
  apply gtb_lt in E. rewrite div_ok by lra. cbn [bind]. eauto.
Qed.

Lemma calc_lots_total (self : t) stop_points regime equity positions entry_price :
  (leverage (ea self) <> 0)%Z ->
  exists l,
    calc_lots self stop_points regime equity positions entry_price = Ok l.
Proof.
  intros Hl. unfold calc_lots.
  destruct (Py.leb stop_points 0) eqn:Es; [eauto|].
  destruct (Py.leb (point_value (inst self)) 0) eqn:Ep; [eauto|].
  apply leb_gt in Es, Ep.
  assert (Hsp : 0 < stop_points * point_value (inst self))
    by (apply Qmult_lt_0_compat; assumption).
  rewrite div_ok by lra. cbn [bind].
  match goal with |- context [normalize ?s ?l] =>
    destruct (normalize_total s l) as (l1 & ->)
  end. cbn [bind].
  rewrite get_free_margin_ok by exact Hl. cbn [bind].
  rewrite calc_margin_ok by exact Hl. cbn [bind].
  destruct (Py.gtb _ _) eqn:Ereq; [|eauto].
  destruct (Py.leb _ 0) eqn:Efree; [eauto|].
  apply gtb_lt in Ereq. apply leb_gt in Efree.
  rewrite div_ok.
  - cbn [bind].
    match goal with |- context [normalize ?s ?l] =>
      destruct (normalize_total s l) as (l2 & ->)
    end. cbn [bind]. destruct (Py.ltb l2 _); eauto.
  - intros E. unfold margin in Ereq.
    match type of Ereq with _ < ?a * ?c * ?p / _ =>
      assert (E' : a * c * p == 0) by (rewrite <- Qmult_assoc, E; ring)
    end.
    rewrite E' in Ereq. unfold Qdiv in Ereq. rewrite Qmult_0_l in Ereq. lra.
Qed.

End RiskFacts.

(** C10.  With [dayStartEquity <= 0] the drawdown gate is skipped: the
    answer of [can_open_trade], exceptions included, is that of the
    position-count, spread and free-margin gates alone, so nothing is
    divided by [dayStartEquity].  And whatever [dayStartEquity] is, the
    call returns a boolean (the margin formula divides by the leverage,
    which is taken non-zero). *)
Theorem C10_drawdown_gate_skipped (self : RiskManager.t)
    (positions : list Position) (equity spread_points new_lots new_price : Q) :
  (RiskManager.day_start_equity self <= 0 ->
   RiskManager.can_open_trade self positions equity spread_points new_lots new_price
   = RiskFacts.other_gates self positions equity spread_points new_lots new_price) /\
  ((leverage (RiskManager.ea self) <> 0)%Z ->
   exists b,
     RiskManager.can_open_trade self positions equity spread_points new_lots new_price
     = Ok b).
Proof.
  split.
  - intros Hd. unfold RiskManager.can_open_trade, RiskFacts.other_gates.
    destruct (_ <=? _)%Z; [reflexivity|].
    apply gtb_le in Hd. rewrite Hd. cbn [bind].
    destruct (Py.gtb spread_points _); [reflexivity|].
    destruct (RiskManager.calc_margin _ _ _); cbn [bind]; [|reflexivity].
    destruct (RiskManager.get_free_margin _ _ _); cbn [bind]; [|reflexivity].
    destruct (Py.ltb _ _); reflexivity.
  - apply RiskFacts.can_open_trade_total.
Qed.

(** A manager whose day started with no equity. *)
Definition broke_manager : RiskManager.t :=
  RiskManager.on_new_day (RiskManager.new default_EAConfig EURUSD) 0.

Lemma C10_drawdown_gate_skipped_witness :
  RiskManager.day_start_equity broke_manager <= 0 /\
  (leverage (RiskManager.ea broke_manager) <> 0)%Z /\
  RiskManager.can_open_trade broke_manager [] (-50) 15 (1 # 100) (11 # 10)
  = RiskFacts.other_gates broke_manager [] (-50) 15 (1 # 100) (11 # 10) /\
  exists b,
    RiskManager.can_open_trade broke_manager [] (-50) 15 (1 # 100) (11 # 10) = Ok b.
Proof.
  assert (Hd : RiskManager.day_start_equity broke_manager <= 0) by apply Qle_refl.
  assert (Hl : (leverage (RiskManager.ea broke_manager) <> 0)%Z) by discriminate.
  split; [exact Hd|]. split; [exact Hl|].
  destruct (C10_drawdown_gate_skipped broke_manager [] (-50) 15 (1 # 100) (11 # 10))
    as [H1 H2].
  split; [exact (H1 Hd)|exact (H2 Hl)].
Defined.

(** *** Position sizing, in the words of the specification *)

Module Sizing.
Import PrimFloat Binary64 Binary64.RiskManager.




(** The margin a size requires, and the margin that is free. *)
Definition margin (self : t) (size price : float) : result float :=
  lev <- float_of_int (leverage (ea self)) ;;
  div (size * contract_size (inst self) * price)%float lev.



End Sizing.

Section SizingRefines.
Import PrimFloat.



End SizingRefines.


(** ** SimulationLoop: the stop-loss check *)

Lemma remove_nth_last {A} (l : list A) (p : A) :
  Py.remove_nth (l ++ [p]) (List.length l) = l.
Proof. induction l as [|h t IH]; cbn; [reflexivity|]. rewrite IH. reflexivity. Qed.

Lemma remove_nth_app {A} (l q : list A) k :
  (k < List.length l)%nat ->
  Py.remove_nth (l ++ q) k = Py.remove_nth l k ++ q.
Proof.
  revert k. induction l as [|h t IH]; intros k Hk; cbn in *; [lia|].
  destruct k as [|k]; [reflexivity|]. rewrite IH by lia. reflexivity.
Qed.

Lemma pop_ok {A} (l : list A) i :
  (0 <= i < Py.len l)%Z -> Py.pop l i = Ok (Py.remove_nth l (Z.to_nat i)).
Proof.
  intros H. unfold Py.pop. rewrite norm_index_nonneg by exact H. reflexivity.
Qed.

Lemma pop_inv {A} (l l' : list A) i :
  (0 <= i)%Z -> Py.pop l i = Ok l' ->
  (i < Py.len l)%Z /\ l' = Py.remove_nth l (Z.to_nat i).
Proof.
  intros Hi. unfold Py.pop, Py.norm_index, Py.len.
  destruct (Z.leb_spec 0 i); [|lia].
  destruct (Z.ltb_spec i (Z.of_nat (List.length l))); cbn [andb].
  - intros [= <-]. split; [assumption|reflexivity].
  - destruct (Z.ltb_spec i 0); [lia|]. cbn [andb]. discriminate.
Qed.

(** Popping valid indices does not see what follows in the list. *)
Lemma pops_app {A} (idxs : list Z) (l q r : list A) :
  Forall (fun i => 0 <= i)%Z idxs ->
  foldM (fun ps idx => Py.pop ps idx) idxs l = Ok r ->
  foldM (fun ps idx => Py.pop ps idx) idxs (l ++ q) = Ok (r ++ q).
Proof.
  revert l. induction idxs as [|i idxs IH]; intros l Hn; cbn.
  - intros [= <-]. reflexivity.
  - intros H. apply bind_Ok in H. destruct H as (l1 & Hp & H).
    inversion Hn as [|? ? Hi Hn']; subst.
    apply pop_inv in Hp; [|exact Hi]. destruct Hp as (Hlt & ->).
    rewrite pop_ok by (unfold Py.len in *; rewrite length_app; lia).
    cbn [bind]. rewrite remove_nth_app by (unfold Py.len in Hlt; lia).
    apply IH; assumption.
Qed.

Lemma insert_desc_greater x l :
  Forall (fun y => y < x)%Z l -> Backtester.insert_desc x l = x :: l.
Proof.
  destruct l as [|y l]; cbn; [reflexivity|].
  intros H. inversion H; subst.
  destruct (Z.ltb_spec y x); [reflexivity|lia].
Qed.

(** On an increasing list, [sorted(l, reverse=True)] is the list reversed. *)
Lemma sorted_reverse_increasing l :
  StronglySorted Z.lt l -> Backtester.sorted_reverse l = rev l.
Proof.
  unfold Backtester.sorted_reverse.
  assert (G : forall acc, StronglySorted Z.lt l ->
                Forall (fun y => Forall (fun x => y < x)%Z l) acc ->
                fold_left (fun acc x => Backtester.insert_desc x acc) l acc
                = rev l ++ acc).
  { induction l as [|x l IH]; intros acc Hs Hacc; cbn; [reflexivity|].
    inversion Hs as [|? ? Hs' Hx]; subst.
    rewrite insert_desc_greater.
    - rewrite IH; [rewrite <- app_assoc; reflexivity|exact Hs'|].
      constructor; [exact Hx|].
      eapply Forall_impl; [|exact Hacc]. intros y Hy. inversion Hy; assumption.
    - eapply Forall_impl; [|exact Hacc]. intros y Hy. inversion Hy; assumption. }
  intros Hs. rewrite G; [apply app_nil_r|exact Hs|constructor].
Qed.

Module StopLoss.
Import Backtester.

Section Check.
Variable inst_ : InstrumentConfig.
Variables (i : Z) (current_date : stamp) (bar_high bar_low : Q).

Local Abbreviation hit := (sl_hit bar_high bar_low).

(** The profit booked when [pos] is stopped out. *)
Definition sl_profit (pos : Position) : Q :=
  match type pos with
  | PositionType.BUY =>
      (stop_loss pos - open_price pos) * lots pos * contract_size inst_
  | PositionType.SELL =>
      (open_price pos - stop_loss pos) * lots pos * contract_size inst_
  end.

(** The trade recorded when [pos] is stopped out. *)
Definition sl_trade (pos : Position) : ClosedTrade :=
  mk_closed pos current_date (stop_loss pos) (sl_profit pos) "stop_loss" i.

(** The indices [sl_closed] collects, counting from [k]. *)
Fixpoint hit_indices (k : Z) (ps : list Position) : list Z :=
  match ps with
  | [] => []
  | p :: ps' =>
      if hit p then k :: hit_indices (k + 1) ps' else hit_indices (k + 1) ps'
  end.

Lemma sl_scan_step acc idx pos :
  sl_scan inst_ i current_date bar_high bar_low acc (idx, pos) =
  let '(realized_pnl, closed_trades, sl_closed, bars_since_close) := acc in
  if hit pos
  then (realized_pnl + sl_profit pos, closed_trades ++ [sl_trade pos],
        sl_closed ++ [idx], 0%Z)
  else acc.
Proof.
  destruct acc as [[[pnl cts] sl] bsc].
  unfold sl_scan, sl_hit, sl_trade, sl_profit.
  destruct (type pos); cbn [PositionType.eqb andb];
    [destruct (Py.leb _ _)|destruct (Py.geb _ _)]; reflexivity.
Qed.

Lemma scan_fold ps : forall k pnl cts sl bsc,
  fold_left (sl_scan inst_ i current_date bar_high bar_low)
            (combine (Py.range k (k + Py.len ps)) ps) (pnl, cts, sl, bsc)
  = (fold_left (fun acc p => acc + sl_profit p) (filter hit ps) pnl,
     cts ++ map sl_trade (filter hit ps),
     sl ++ hit_indices k ps,
     if existsb hit ps then 0%Z else bsc).
Proof.
  induction ps as [|p ps IH]; intros k pnl cts sl bsc.
  - cbn. rewrite !app_nil_r. unfold Py.len. cbn.
    rewrite range_empty by lia. reflexivity.
  - rewrite range_cons by (unfold Py.len; cbn [List.length]; lia).
    cbn [combine fold_left]. rewrite sl_scan_step.
    replace (k + Py.len (p :: ps))%Z with (k + 1 + Py.len ps)%Z
      by (unfold Py.len; cbn [List.length]; lia).
    cbn [filter existsb hit_indices].
    destruct (hit p) eqn:E; rewrite IH; cbn [fold_left map orb].
    + rewrite <- !app_assoc. cbn [app].
      destruct (existsb hit ps); reflexivity.
    + reflexivity.
Qed.

Lemma hit_indices_app k a b :
  hit_indices k (a ++ b) = hit_indices k a ++ hit_indices (k + Py.len a) b.
Proof.
  revert k. induction a as [|p a IH]; intros k; cbn [app hit_indices].
  - unfold Py.len. cbn. rewrite Z.add_0_r. reflexivity.
  - rewrite IH.
    replace (k + 1 + Py.len a)%Z with (k + Py.len (p :: a))%Z
      by (unfold Py.len; cbn [List.length]; lia).
    destruct (hit p); reflexivity.
Qed.

Lemma hit_indices_bounds k ps :
  Forall (fun j => k <= j < k + Py.len ps)%Z (hit_indices k ps).
Proof.
  revert k. induction ps as [|p ps IH]; intros k; cbn [hit_indices].
  - constructor.
  - assert (H : Forall (fun j => k <= j < k + Py.len (p :: ps))%Z
                       (hit_indices (k + 1) ps)).
    { eapply Forall_impl; [|apply IH]. unfold Py.len. cbn [List.length].
      intros j Hj. cbn beta in Hj. lia. }
    destruct (hit p); [constructor|]; try exact H.
    unfold Py.len. cbn [List.length]. lia.
Qed.

Lemma hit_indices_sorted k ps : StronglySorted Z.lt (hit_indices k ps).
Proof.
  revert k. induction ps as [|p ps IH]; intros k; cbn [hit_indices].
  - constructor.
  - destruct (hit p); [|apply IH].
    constructor; [apply IH|].
    eapply Forall_impl; [|apply hit_indices_bounds]. cbn beta. intros j Hj. lia.
Qed.

(** Removing the collected indices, largest first, keeps exactly the
    positions that were not hit. *)
Lemma pops_filter ps :
  foldM (fun ps idx => Py.pop ps idx) (rev (hit_indices 0 ps)) ps
  = Ok (filter (fun p => negb (hit p)) ps).
Proof.
  induction ps as [|p ps IH] using rev_ind; [reflexivity|].
  rewrite hit_indices_app, filter_app. cbn [hit_indices filter].
  destruct (hit p) eqn:E; cbn [negb].
  - rewrite rev_app_distr. cbn [rev app foldM].
    rewrite pop_ok by (unfold Py.len; rewrite length_app; cbn; lia).
    cbn [bind]. replace (Z.to_nat (0 + Py.len ps)) with (List.length ps)
      by (unfold Py.len; lia).
    rewrite remove_nth_last, app_nil_r. exact IH.
  - rewrite app_nil_r. apply pops_app; [|exact IH].
    apply Forall_rev. eapply Forall_impl; [|apply hit_indices_bounds].
    cbn beta. intros j Hj. lia.
Qed.

Lemma stop_loss_check_ok st :
  stop_loss_check inst_ i current_date bar_high bar_low st =
  Ok (set_book st
        (filter (fun p => negb (hit p)) (positions st))
        (closed_trades st ++ map sl_trade (filter hit (positions st)))
        (fold_left (fun acc p => acc + sl_profit p)
                   (filter hit (positions st)) (realized_pnl st))
        (if existsb hit (positions st) then 0%Z else bars_since_close st)).
Proof.
  unfold stop_loss_check, enumerate.
  rewrite (scan_fold (positions st) 0). cbn [app].
  rewrite sorted_reverse_increasing by apply hit_indices_sorted.
  rewrite pops_filter. reflexivity.
Qed.

End Check.

End StopLoss.

(** C1.  The stop-loss check of a bar never raises.  A long whose stop is
    touched by the bar's low, and a short whose stop is touched by the
    bar's high, leaves the open positions; for each of them exactly one
    trade is appended to the trade log, in the order of the open
    positions, closed at exactly the stop price, with reason
    ["stop_loss"] and profit [(stop - open) * lots * contractSize] (the
    opposite for a short), its profit is added to the realized profit, and
    the bars-since-close counter is 0.  The positions that are not touched
    stay, unchanged and in order, and with no touched position the trade
    log, the realized profit and the counter are unchanged. *)
Theorem C1_stop_loss_check (inst_ : InstrumentConfig) (i : Z)
    (current_date : stamp) (bar_high bar_low : Q) (st : Backtester.state) :
  let touched pos :=
    match type pos with
    | PositionType.BUY => bar_low <= stop_loss pos
    | PositionType.SELL => stop_loss pos <= bar_high
    end in
  let hit := Backtester.sl_hit bar_high bar_low in
  let trade_of := StopLoss.sl_trade inst_ i current_date in
  let stopped := filter hit (Backtester.positions st) in
  exists st',
    Backtester.stop_loss_check inst_ i current_date bar_high bar_low st = Ok st' /\
    (forall pos, hit pos = true <-> touched pos) /\
    Backtester.closed_trades st'
    = Backtester.closed_trades st ++ map trade_of stopped /\
    Backtester.positions st'
    = filter (fun pos => negb (hit pos)) (Backtester.positions st) /\
    Backtester.realized_pnl st'
    = fold_left (fun acc pos => acc + profit (trade_of pos)) stopped
                (Backtester.realized_pnl st) /\
    (forall pos, In pos stopped <-> In pos (Backtester.positions st) /\ touched pos) /\
    (forall pos, In pos (Backtester.positions st') <->
                 In pos (Backtester.positions st) /\ ~ touched pos) /\
    (forall pos,
       ct_ticket (trade_of pos) = ticket pos /\
       ct_type (trade_of pos) = type pos /\
       ct_open_time (trade_of pos) = open_time pos /\
       close_time (trade_of pos) = current_date /\
       ct_open_price (trade_of pos) = open_price pos /\
       ct_lots (trade_of pos) = lots pos /\
       ct_entry_bar_index (trade_of pos) = entry_bar_index pos /\
       close_price (trade_of pos) = stop_loss pos /\
       close_reason (trade_of pos) = "stop_loss"%string /\
       exit_bar_index (trade_of pos) = i /\
       match type pos with
       | PositionType.BUY =>
           profit (trade_of pos)
           = (stop_loss pos - open_price pos) * lots pos * contract_size inst_
       | PositionType.SELL =>
           profit (trade_of pos)
           = (open_price pos - stop_loss pos) * lots pos * contract_size inst_ /\
           profit (trade_of pos)
           == - ((stop_loss pos - open_price pos) * lots pos * contract_size inst_)
       end) /\
    (stopped <> [] -> Backtester.bars_since_close st' = 0%Z) /\
    (stopped = [] ->
     Backtester.bars_since_close st' = Backtester.bars_since_close st /\
     Backtester.closed_trades st' = Backtester.closed_trades st /\
     Backtester.realized_pnl st' = Backtester.realized_pnl st).
Proof.
  cbv zeta.
  assert (Hhit : forall pos,
            Backtester.sl_hit bar_high bar_low pos = true <->
            match type pos with
            | PositionType.BUY => bar_low <= stop_loss pos
            | PositionType.SELL => stop_loss pos <= bar_high
            end).
  { intros pos. unfold Backtester.sl_hit.
    destruct (type pos); [apply leb_le|apply geb_le]. }
  eexists.
  split; [apply StopLoss.stop_loss_check_ok|].
  cbn [Backtester.closed_trades Backtester.positions Backtester.bars_since_close
       Backtester.realized_pnl Backtester.set_book].
  split; [exact Hhit|].
  split; [reflexivity|]. split; [reflexivity|]. split; [reflexivity|]. split.
  { intros pos. rewrite filter_In, Hhit. reflexivity. }
  split.
  { intros pos. rewrite filter_In, negb_true_iff, <- Hhit.
    destruct (Backtester.sl_hit bar_high bar_low pos); split; intros [H1 H2];
      split; auto; congruence. }
  split.
  { intros pos. unfold StopLoss.sl_trade, StopLoss.sl_profit. cbn.
    repeat split; try reflexivity.
    destruct (type pos); [reflexivity|split; [reflexivity|ring]]. }
  assert (Hex : forall ps,
            existsb (Backtester.sl_hit bar_high bar_low) ps = true <->
            filter (Backtester.sl_hit bar_high bar_low) ps <> []).
  { induction ps as [|p ps IH]; cbn; [split; congruence|].
    destruct (Backtester.sl_hit bar_high bar_low p); cbn;
      [split; congruence|exact IH]. }
  split; intros H.
  - apply Hex in H. rewrite H. reflexivity.
  - rewrite H. cbn [map fold_left]. rewrite app_nil_r.
    split; [|split; reflexivity].
    destruct (existsb _ _) eqn:E; [|reflexivity].
    apply Hex in E. contradiction.
Qed.

(** The scenario of the specification: a long with its stop at 1.0950, on
    a bar whose low dips to 1.0940. *)
Definition long_1_0950 : Position := {|
  ticket := 1; type := PositionType.BUY; open_time := Timestamp 19000 0;
  open_price := 11000 # 10000; lots := 1 # 10;
  stop_loss := 10950 # 10000; entry_bar_index := 550
|}.

Lemma C1_stop_loss_check_witness :
  exists st',
    Backtester.stop_loss_check EURUSD 560 (Timestamp 19001 0)
      (11010 # 10000) (10940 # 10000)
      (Backtester.set_book
         (Backtester.init_state default_EAConfig EURUSD SignalEngine.new)
         [long_1_0950] [] 0 7)
    = Ok st' /\
    Backtester.positions st' = [] /\
    map close_price (Backtester.closed_trades st') = [10950 # 10000] /\
    map close_reason (Backtester.closed_trades st') = ["stop_loss"%string] /\
    Backtester.bars_since_close st' = 0%Z.
Proof.
  destruct (C1_stop_loss_check EURUSD 560 (Timestamp 19001 0)
              (11010 # 10000) (10940 # 10000)
              (Backtester.set_book
                 (Backtester.init_state default_EAConfig EURUSD SignalEngine.new)
                 [long_1_0950] [] 0 7))
    as (st' & Hrun & _).
  exists st'. split; [exact Hrun|].
  vm_compute in Hrun. injection Hrun as <-.
  repeat split; reflexivity.
Defined.


(** ** SimulationLoop: what each stage of a bar does to the open positions *)

Module Stages.
Import Backtester.

(** [p'] is [p] with its stop possibly moved, and then only in the
    favorable direction and from a positive stop. *)
Definition tightened (p p' : Position) : Prop :=
  ticket p' = ticket p /\ type p' = type p /\ open_time p' = open_time p /\
  open_price p' = open_price p /\ lots p' = lots p /\
  entry_bar_index p' = entry_bar_index p /\
  match type p with
  | PositionType.BUY => stop_loss p <= stop_loss p'
  | PositionType.SELL => stop_loss p' <= stop_loss p
  end /\
  (stop_loss p' <> stop_loss p -> 0 < stop_loss p).

(** All long or all short. *)
Definition homogeneous (ps : list Position) : Prop :=
  forall p q, In p ps -> In q ps -> type p = type q.

Lemma tightened_refl p : tightened p p.
Proof.
  unfold tightened. repeat split; try reflexivity.
  - destruct (type p); apply Qle_refl.
  - congruence.
Qed.

Lemma homogeneous_incl ps ps' :
  incl ps' ps -> homogeneous ps -> homogeneous ps'.
Proof. intros Hi Hh p q Hp Hq. apply Hh; apply Hi; assumption. Qed.

Lemma homogeneous_nil : homogeneous [].
Proof. intros p q []. Qed.

Lemma any_type_false ty ps :
  any_type ty ps = false <-> forall p, In p ps -> type p <> ty.
Proof.
  unfold any_type. split.
  - intros H p Hp E.
    assert (existsb (fun p => PositionType.eqb (type p) ty) ps = true).
    { apply existsb_exists. exists p. split; [exact Hp|].
      rewrite E. destruct ty; reflexivity. }
    congruence.
  - intros H. destruct (existsb _ ps) eqn:E; [|reflexivity].
    apply existsb_exists in E. destruct E as (p & Hp & E).
    exfalso. apply (H p Hp). destruct (type p), ty; try discriminate; reflexivity.
Qed.

Lemma homogeneous_snoc ps pos :
  homogeneous ps ->
  (forall p, In p ps -> type p = type pos) ->
  homogeneous (ps ++ [pos]).
Proof.
  intros Hh Hn p q Hp Hq.
  apply in_app_or in Hp, Hq.
  destruct Hp as [Hp|[<-|[]]], Hq as [Hq|[<-|[]]]; auto.
  symmetry. auto.
Qed.

Lemma list_remove_incl pos l l' : list_remove pos l = Ok l' -> incl l' l.
Proof.
  revert l'. induction l as [|p l IH]; intros l'; cbn; [discriminate|].
  destruct (Position_eqb p pos).
  - intros [= <-]. apply incl_tl, incl_refl.
  - intros H. apply bind_Ok in H. destruct H as (l1 & H1 & [= <-]).
    apply incl_cons; [left; reflexivity|]. apply incl_tl. apply IH. exact H1.
Qed.

Section Stage.
Variables sqrt ln : Q -> Q.
Variable ea_ : EAConfig.
Variable inst_ : InstrumentConfig.
Variables (i : Z) (current_date : stamp) (bar_close : Q).

Lemma stop_loss_check_incl bar_high bar_low st st' :
  stop_loss_check inst_ i current_date bar_high bar_low st = Ok st' ->
  incl (positions st') (positions st) /\ next_ticket st' = next_ticket st.
Proof.
  rewrite StopLoss.stop_loss_check_ok. intros [= <-]. cbn. split; [|reflexivity].
  intros p Hp. apply filter_In in Hp. apply Hp.
Qed.

Lemma exit_buy_incl st st' :
  exit_buy ea_ inst_ i current_date bar_close st = Ok st' ->
  incl (positions st') (positions st) /\ next_ticket st' = next_ticket st.
Proof.
  unfold exit_buy. destruct (_ && _); [|intros [= <-]; split; [apply incl_refl|reflexivity]].
  intros H. apply bind_Ok in H. destruct H as ([[pnl cts] ps] & Hf & [= <-]).
  cbn. split; [|reflexivity].
  revert Hf.
  apply (foldM_preserves
           (fun acc : Q * list ClosedTrade * list Position =>
              incl (snd acc) (positions st))).
  - intros [[pnl0 cts0] ps0] pos [[pnl1 cts1] ps1] _ Hi Hs. cbn in *.
    apply bind_Ok in Hs. destruct Hs as (ps2 & Hr & [= <- <- <-]).
    apply list_remove_incl in Hr. eapply incl_tran; eassumption.
  - apply incl_refl.
Qed.

Lemma exit_sell_incl st st' :
  exit_sell ea_ inst_ i current_date bar_close st = Ok st' ->
  incl (positions st') (positions st) /\ next_ticket st' = next_ticket st.
Proof.
  unfold exit_sell. destruct (_ && _); [|intros [= <-]; split; [apply incl_refl|reflexivity]].
  intros H. apply bind_Ok in H. destruct H as ([[pnl cts] ps] & Hf & [= <-]).
  cbn. split; [|reflexivity].
  revert Hf.
  apply (foldM_preserves
           (fun acc : Q * list ClosedTrade * list Position =>
              incl (snd acc) (positions st))).
  - intros [[pnl0 cts0] ps0] pos [[pnl1 cts1] ps1] _ Hi Hs. cbn in *.
    apply bind_Ok in Hs. destruct Hs as (ps2 & Hr & [= <- <- <-]).
    apply list_remove_incl in Hr. eapply incl_tran; eassumption.
  - apply incl_refl.
Qed.

Lemma get_entry_signal_cases se price s :
  SignalEngine.get_entry_signal sqrt se price = Ok s ->
  s = NONE \/ s = BUY \/ s = SELL.
Proof.
  unfold SignalEngine.get_entry_signal.
  destruct (_ || _); [intros [= <-]; auto|].
  intros H. apply bind_Ok in H. destruct H as (u & _ & H).
  apply bind_Ok in H. destruct H as (l & _ & H).
  destruct (_ && _ && _); [injection H as <-; auto|].
  destruct (_ && _ && _); injection H as <-; auto.
Qed.

(** Reverse position protection: a signal that survives the gate has no
    position of the opposite side against it. *)
Lemma gate_signal_protects s ps bsc :
  (gate_signal ea_ s ps bsc = BUY -> any_type PositionType.SELL ps = false) /\
  (gate_signal ea_ s ps bsc = SELL -> any_type PositionType.BUY ps = false).
Proof.
  unfold gate_signal.
  destruct s, (any_type PositionType.SELL ps), (any_type PositionType.BUY ps),
    (bsc <? close_cooldown ea_)%Z; cbn; split; congruence.
Qed.

Lemma gate_signal_cases s ps bsc :
  gate_signal ea_ s ps bsc = s \/ gate_signal ea_ s ps bsc = NONE.
Proof.
  unfold gate_signal.
  destruct s, (any_type PositionType.SELL ps), (any_type PositionType.BUY ps),
    (bsc <? close_cooldown ea_)%Z; cbn; auto.
Qed.

Lemma entry_positions st st' s etb :
  entry sqrt ea_ inst_ i current_date bar_close st = Ok (st', s, etb) ->
  (st' = st /\ etb = false) \/
  (exists pos,
     positions st' = positions st ++ [pos] /\ etb = true /\
     ticket pos = next_ticket st /\ entry_bar_index pos = i /\
     forall p, In p (positions st) -> type p = type pos).
Proof.
  unfold entry. intros H.
  apply bind_Ok in H. destruct H as (s0 & Hs0 & H).
  apply get_entry_signal_cases in Hs0.
  pose proof (gate_signal_protects s0 (positions st) (bars_since_close st)) as [Hb Hs].
  pose proof (gate_signal_cases s0 (positions st) (bars_since_close st)) as Hc.
  set (g := gate_signal ea_ s0 (positions st) (bars_since_close st)) in *.
  destruct (negb (Signal_eqb g NONE)) eqn:Eg;
    [|injection H as <- <- <-; left; split; reflexivity].
  apply bind_Ok in H. destruct H as (err & _ & H).
  apply bind_Ok in H. destruct H as (sp & _ & H).
  apply bind_Ok in H. destruct H as (l & _ & H).
  destruct (Py.gtb l 0); [|injection H as <- <- <-; left; split; reflexivity].
  apply bind_Ok in H. destruct H as (ok & _ & H).
  destruct ok; [|injection H as <- <- <-; left; split; reflexivity].
  injection H as <- <- <-. right. eexists. split; [reflexivity|].
  split; [reflexivity|]. split; [reflexivity|]. split; [reflexivity|].
  cbn [type]. intros p Hp.
  assert (Hg : g = BUY \/ g = SELL).
  { destruct Hc as [Hc|Hc]; rewrite Hc in *; [|discriminate].
    destruct Hs0 as [ -> | [ -> | -> ] ]; auto. discriminate. }
  destruct Hg as [Hg|Hg]; rewrite Hg in *; cbn [Signal_eqb].
  - specialize (Hb eq_refl). rewrite any_type_false in Hb.
    specialize (Hb p Hp). destruct (type p); congruence.
  - specialize (Hs eq_refl). rewrite any_type_false in Hs.
    specialize (Hs p Hp). destruct (type p); congruence.
Qed.

Lemma trail_tightened tb ts p : tightened p (trail ea_ i tb ts p).
Proof.
  unfold trail.
  destruct (_ =? _)%Z; [apply tightened_refl|].
  destruct (_ <? _)%Z; [apply tightened_refl|].
  destruct (type p) eqn:Et; cbn [PositionType.eqb andb].
  - destruct (Py.gtb tb 0); [|apply tightened_refl].
    destruct (Py.gtb (stop_loss p) 0) eqn:E0; [|apply tightened_refl].
    destruct (Py.gtb tb (stop_loss p)) eqn:E1; [|apply tightened_refl].
    apply gtb_lt in E0, E1. unfold tightened. cbn. rewrite Et.
    repeat split; auto. apply Qlt_le_weak, E1.
  - destruct (Py.gtb ts 0); [|apply tightened_refl].
    destruct (Py.gtb (stop_loss p) 0) eqn:E0; [|apply tightened_refl].
    destruct (Py.ltb ts (stop_loss p)) eqn:E1; [|apply tightened_refl].
    apply gtb_lt in E0. apply ltb_lt in E1. unfold tightened. cbn. rewrite Et.
    repeat split; auto. apply Qlt_le_weak, E1.
Qed.

Lemma trailing_stop_positions etb st st' :
  trailing_stop sqrt ea_ i etb st = Ok st' ->
  next_ticket st' = next_ticket st /\
  exists f, (forall p, tightened p (f p)) /\
            positions st' = map f (positions st).
Proof.
  unfold trailing_stop.
  destruct (_ && _).
  - intros H. apply bind_Ok in H. destruct H as (err & _ & [= <-]).
    cbn. split; [reflexivity|]. eexists. split; [|reflexivity].
    apply trail_tightened.
  - intros [= <-]. split; [reflexivity|]. exists (fun p => p).
    split; [apply tightened_refl|]. symmetry. apply map_id.
Qed.

End Stage.

End Stages.

Module BarFacts.
Import Backtester Stages.

Section Bar.
Variables sqrt ln : Q -> Q.
Variable ea_ : EAConfig.
Variable inst_ : InstrumentConfig.
Variable data : list Bar.

Lemma begin_bar_positions i st st1 d :
  begin_bar sqrt ln data i st = Ok (st1, d) ->
  positions st1 = positions st /\ next_ticket st1 = next_ticket st.
Proof.
  unfold begin_bar. intros H.
  apply bind_Ok in H. destruct H as (cd & _ & H).
  destruct (day_differs _ _);
    apply bind_Ok in H; destruct H as (c & _ & H);
    apply bind_Ok in H; destruct H as (cp & _ & H);
    apply bind_Ok in H; destruct H as (se & _ & [= <- <-]);
    split; reflexivity.
Qed.

Lemma end_bar_positions d c s etb st st' :
  end_bar sqrt ea_ inst_ d c s etb st = Ok st' -> positions st' = positions st.
Proof.
  unfold end_bar. intros H.
  apply bind_Ok in H. destruct H as (r & _ & [= <-]). reflexivity.
Qed.

(** One bar: some positions are closed, the stops of the others may be
    tightened, and at most one position is opened, on the side of those
    that are kept. *)
Lemma bar_positions st i st' :
  bar sqrt ln ea_ inst_ data st i = Ok st' ->
  exists kept f opened,
    incl kept (positions st) /\
    (forall p, tightened p (f p)) /\
    positions st' = map f kept ++ opened /\
    (opened = [] \/
     exists pos, opened = [pos] /\ ticket pos = next_ticket st /\
                 entry_bar_index pos = i /\
                 forall p, In p kept -> type p = type pos).
Proof.
  unfold bar. intros H.
  apply bind_Ok in H. destruct H as ([st1 d] & H1 & H).
  apply begin_bar_positions in H1. destruct H1 as [Hp1 Ht1].
  apply bind_Ok in H. destruct H as (bc & _ & H).
  apply bind_Ok in H. destruct H as (bh & _ & H).
  apply bind_Ok in H. destruct H as (bl & _ & H).
  apply bind_Ok in H. destruct H as (st2 & H2 & H).
  apply stop_loss_check_incl in H2. destruct H2 as [Hp2 Ht2].
  apply bind_Ok in H. destruct H as (st3 & H3 & H).
  apply exit_buy_incl in H3. destruct H3 as [Hp3 Ht3].
  apply bind_Ok in H. destruct H as (st4 & H4 & H).
  apply exit_sell_incl in H4. destruct H4 as [Hp4 Ht4].
  apply bind_Ok in H. destruct H as ([[st5 s] etb] & H5 & H).
  apply entry_positions in H5.
  apply bind_Ok in H. destruct H as (st6 & H6 & H).
  apply trailing_stop_positions in H6. destruct H6 as (Ht6 & f & Hf & Hp6).
  apply end_bar_positions in H. rewrite H, Hp6.
  assert (Hincl : incl (positions st4) (positions st)).
  { rewrite <- Hp1. eapply incl_tran; [exact Hp4|].
    eapply incl_tran; [exact Hp3|exact Hp2]. }
  destruct H5 as [[-> _]|(pos & Hp5 & _ & Htk & Hidx & Hty)].
  - exists (positions st4), f, []. rewrite app_nil_r. auto.
  - exists (positions st4), f, [f pos]. rewrite Hp5, map_app. cbn [map].
    split; [exact Hincl|]. split; [exact Hf|]. split; [reflexivity|].
    right. exists (f pos).
    destruct (Hf pos) as (Hk & Hy & _ & _ & _ & He & _).
    rewrite Hk, Hy, He. repeat split; auto. congruence.
Qed.

Lemma bar_homogeneous st i st' :
  bar sqrt ln ea_ inst_ data st i = Ok st' ->
  homogeneous (positions st) -> homogeneous (positions st').
Proof.
  intros H Hh. apply bar_positions in H.
  destruct H as (kept & f & opened & Hincl & Hf & -> & Hop).
  assert (Hk : homogeneous kept) by (eapply homogeneous_incl; eassumption).
  assert (Hty : forall p, type (f p) = type p) by (intros p; apply (Hf p)).
  assert (Hm : homogeneous (map f kept)).
  { intros p q Hp Hq. apply in_map_iff in Hp, Hq.
    destruct Hp as (p0 & <- & Hp), Hq as (q0 & <- & Hq).
    rewrite !Hty. apply Hk; assumption. }
  destruct Hop as [->|(pos & -> & _ & _ & Hpos)].
  - rewrite app_nil_r. exact Hm.
  - apply homogeneous_snoc; [exact Hm|].
    intros p Hp. apply in_map_iff in Hp. destruct Hp as (p0 & <- & Hp).
    rewrite Hty. apply Hpos, Hp.
Qed.

Lemma trade_homogeneous bars : forall st st',
  trade sqrt ln ea_ inst_ data bars st = Ok st' ->
  homogeneous (positions st) -> homogeneous (positions st').
Proof.
  unfold trade. intros st st' H Hh. revert H.
  apply (foldM_preserves (fun s => homogeneous (positions s))); [|exact Hh].
  intros s x s' _ Hs Hb. eapply bar_homogeneous; eassumption.
Qed.

End Bar.

End BarFacts.

(** C6.  The open positions are all long or all short at every point of a
    run: the loop starts with none, every stage of a bar (stop-loss check,
    signal exits, entry, trailing stop) keeps them so, an entry signal
    against an open position of the opposite side is forced to NONE, and
    so the positions after any number of bars, from the initial state or
    from any one-sided state, are one-sided. *)
Theorem C6_positions_one_sided (sqrt ln : Q -> Q) (ea_ : EAConfig)
    (inst_ : InstrumentConfig) (data : list Backtester.Bar) :
  (forall se, Stages.homogeneous
                (Backtester.positions (Backtester.init_state ea_ inst_ se))) /\
  (forall ps bsc,
     (Backtester.any_type PositionType.SELL ps = true ->
      Backtester.gate_signal ea_ BUY ps bsc = NONE) /\
     (Backtester.any_type PositionType.BUY ps = true ->
      Backtester.gate_signal ea_ SELL ps bsc = NONE)) /\
  (forall i d bar_close bar_high bar_low st st' s etb,
     Stages.homogeneous (Backtester.positions st) ->
     (Backtester.stop_loss_check inst_ i d bar_high bar_low st = Ok st' ->
      Stages.homogeneous (Backtester.positions st')) /\
     (Backtester.exit_buy ea_ inst_ i d bar_close st = Ok st' ->
      Stages.homogeneous (Backtester.positions st')) /\
     (Backtester.exit_sell ea_ inst_ i d bar_close st = Ok st' ->
      Stages.homogeneous (Backtester.positions st')) /\
     (Backtester.entry sqrt ea_ inst_ i d bar_close st = Ok (st', s, etb) ->
      Stages.homogeneous (Backtester.positions st')) /\
     (Backtester.trailing_stop sqrt ea_ i etb st = Ok st' ->
      Stages.homogeneous (Backtester.positions st'))) /\
  (forall bars st st',
     Stages.homogeneous (Backtester.positions st) ->
     Backtester.trade sqrt ln ea_ inst_ data bars st = Ok st' ->
     Stages.homogeneous (Backtester.positions st')) /\
  (forall se bars st',
     Backtester.trade sqrt ln ea_ inst_ data bars
       (Backtester.init_state ea_ inst_ se) = Ok st' ->
     forall p q, In p (Backtester.positions st') ->
                 In q (Backtester.positions st') -> type p = type q).
Proof.
  split; [intros se; apply Stages.homogeneous_nil|]. split.
  { intros ps bsc. unfold Backtester.gate_signal. cbn [Signal_eqb andb negb].
    split; intros ->; reflexivity. }
  split.
  { intros i d bar_close bar_high bar_low st st' s etb Hh.
    split; [|split; [|split; [|split]]]; intros H.
    - apply Stages.stop_loss_check_incl in H.
      eapply Stages.homogeneous_incl; [apply H|exact Hh].
    - apply Stages.exit_buy_incl in H.
      eapply Stages.homogeneous_incl; [apply H|exact Hh].
    - apply Stages.exit_sell_incl in H.
      eapply Stages.homogeneous_incl; [apply H|exact Hh].
    - apply Stages.entry_positions in H.
      destruct H as [[-> _]|(pos & -> & _ & _ & _ & Hty)]; [exact Hh|].
      apply Stages.homogeneous_snoc; assumption.
    - apply Stages.trailing_stop_positions in H.
      destruct H as (_ & f & Hf & ->).
      intros p q Hp Hq. apply in_map_iff in Hp, Hq.
      destruct Hp as (p0 & <- & Hp), Hq as (q0 & <- & Hq).
      destruct (Hf p0) as (_ & -> & _), (Hf q0) as (_ & -> & _).
      apply Hh; assumption. }
  split.
  { intros bars st st' Hh H. eapply BarFacts.trade_homogeneous; eassumption. }
  intros se bars st' H.
  eapply BarFacts.trade_homogeneous; [exact H|apply Stages.homogeneous_nil].
Qed.

(** Seven flat bars around 1.1000, and a loop state holding one long opened
    on bar 1 with its stop at 1.0500. *)
Definition seven_bars : list Backtester.Bar :=
  map (fun k => {| Backtester.date := Timestamp 19000 (Z.of_nat k);
                   Backtester.high := 11010 # 10000;
                   Backtester.low := 10960 # 10000;
                   Backtester.close := 11000 # 10000 |})
      (seq 0 7).

Definition long_1_0500 : Position := {|
  ticket := 1; type := PositionType.BUY; open_time := Timestamp 19000 1;
  open_price := 11000 # 10000; lots := 1 # 10;
  stop_loss := 10500 # 10000; entry_bar_index := 1
|}.

Definition holding_long : Backtester.state :=
  Backtester.open_position
    (Backtester.init_state default_EAConfig EURUSD
       (Backtester.init_engine default_EAConfig))
    long_1_0500.

Lemma C6_positions_one_sided_witness :
  Stages.homogeneous (Backtester.positions holding_long) /\
  exists st',
    Backtester.trade sqrt6 ln5 default_EAConfig EURUSD seven_bars [6%Z] holding_long
    = Ok st' /\
    map type (Backtester.positions st') = [PositionType.BUY] /\
    Stages.homogeneous (Backtester.positions st').
Proof.
  assert (Hh : Stages.homogeneous (Backtester.positions holding_long)).
  { intros p q [<-|[]] [<-|[]]. reflexivity. }
  split; [exact Hh|].
  eexists. split; [vm_compute; reflexivity|]. split; [reflexivity|].
  destruct (C6_positions_one_sided sqrt6 ln5 default_EAConfig EURUSD seven_bars)
    as (_ & _ & _ & H & _).
  apply (H [6%Z] holding_long); [exact Hh|].
  vm_compute. reflexivity.
Defined.

(** C7.  Over one bar of the loop, every position open afterwards is either
    the one opened on this bar or a position that was open before, the same
    in every field but possibly its stop; and its stop has then only moved
    in the favorable direction (not down for a long, not up for a short),
    and only from a positive stop.  The trailing ratchet itself has this
    property for every position and every trail value. *)
Theorem C7_stop_only_tightens (sqrt ln : Q -> Q) (ea_ : EAConfig)
    (inst_ : InstrumentConfig) (data : list Backtester.Bar)
    (st : Backtester.state) (i : Z) (st' : Backtester.state) :
  Backtester.bar sqrt ln ea_ inst_ data st i = Ok st' ->
  (forall p', In p' (Backtester.positions st') ->
     (exists p, In p (Backtester.positions st) /\
        ticket p' = ticket p /\ type p' = type p /\
        open_time p' = open_time p /\ open_price p' = open_price p /\
        lots p' = lots p /\ entry_bar_index p' = entry_bar_index p /\
        match type p with
        | PositionType.BUY => stop_loss p <= stop_loss p'
        | PositionType.SELL => stop_loss p' <= stop_loss p
        end /\
        (stop_loss p' <> stop_loss p -> 0 < stop_loss p)) \/
     (ticket p' = Backtester.next_ticket st /\ entry_bar_index p' = i)) /\
  (forall trail_buy trail_sell p,
     let p' := Backtester.trail ea_ i trail_buy trail_sell p in
     match type p with
     | PositionType.BUY => stop_loss p <= stop_loss p'
     | PositionType.SELL => stop_loss p' <= stop_loss p
     end /\
     (stop_loss p' <> stop_loss p -> 0 < stop_loss p)).
Proof.
  intros H. split.
  - apply BarFacts.bar_positions in H.
    destruct H as (kept & f & opened & Hincl & Hf & -> & Hop).
    intros p' Hp'. apply in_app_or in Hp'. destruct Hp' as [Hp'|Hp'].
    + left. apply in_map_iff in Hp'. destruct Hp' as (p & <- & Hp).
      exists p. split; [apply Hincl, Hp|]. apply Hf.
    + right. destruct Hop as [->|(pos & -> & Htk & Hidx & _)]; [destruct Hp'|].
      destruct Hp' as [<-|[]]. split; assumption.
  - intros tb ts p. cbv zeta.
    destruct (Stages.trail_tightened ea_ i tb ts p) as (_ & _ & _ & _ & _ & _ & H1 & H2).
    split; assumption.
Qed.

Lemma C7_stop_only_tightens_witness :
  exists st',
    Backtester.bar sqrt6 ln5 default_EAConfig EURUSD seven_bars holding_long 6
    = Ok st' /\
    map (fun p => Qred (stop_loss p)) (Backtester.positions st') = [1067 # 1000] /\
    forall p', In p' (Backtester.positions st') ->
      exists p, In p (Backtester.positions holding_long) /\
                ticket p' = ticket p /\ stop_loss p <= stop_loss p'.
Proof.
  eexists. split; [vm_compute; reflexivity|]. split; [reflexivity|].
  intros p' Hp'.
  destruct (C7_stop_only_tightens sqrt6 ln5 default_EAConfig EURUSD seven_bars
              holding_long 6 _ ltac:(vm_compute; reflexivity)) as [H _].
  destruct (H p' Hp') as [(p & Hp & Htk & _ & _ & _ & _ & _ & Hs & _)|[Htk _]].
  - exists p. split; [exact Hp|]. split; [exact Htk|].
    destruct Hp as [<-|[]]. exact Hs.
  - destruct Hp' as [<-|[]]. discriminate Htk.
Defined.


(** ** The loop never raises, in exact arithmetic

    The lemmas of this part are about the exact embedding: without
    rounding the filter's covariance stays symmetric and positive
    semi-definite and no quotient of positive prices vanishes, so that the
    estimators, the loop and the run return.  They serve to exhibit
    executions; what is claimed of the program is stated with the
    hypotheses under which it also holds in binary64. *)

(** *** TrendFilter: the covariance stays positive semi-definite, so the
    innovation variance stays positive *)

Lemma mul_nonneg a b : 0 <= a -> 0 <= b -> 0 <= a * b.
Proof. apply Qmult_le_0_compat. Qed.

Lemma psd_sum a b c : 0 <= a -> 0 <= c -> b * b <= a * c -> 0 <= a + b + b + c.
Proof.
  intros Ha Hc Hd.
  destruct (Qlt_le_dec (a + b + b + c) 0) as [H|H]; [|exact H].
  exfalso.
  pose proof (square_nonneg (a - c)) as H1.
  assert (H2 : 0 <= (a + c) * (- (a + b + b + c))) by (apply mul_nonneg; lra).
  assert (H3 : 0 < (- (a + b + b + c)) * (- (a + b + b + c)))
    by (apply Qmult_lt_0_compat; lra).
  assert (H4 : 0 <= (- (b + b)) * (- (a + b + b + c))) by (apply mul_nonneg; lra).
  lra.
Qed.

Lemma psd_predict a b c q0 q1 :
  0 <= a -> 0 <= c -> b * b <= a * c -> 0 <= q0 -> 0 <= q1 ->
  (b + c) * (b + c) <= (a + b + b + c + q0) * (c + q1).
Proof.
  intros Ha Hc Hd Hq0 Hq1. pose proof (psd_sum a b c Ha Hc Hd) as Hs.
  pose proof (mul_nonneg _ _ Hs Hq1). pose proof (mul_nonneg _ _ Hq0 Hc).
  pose proof (mul_nonneg _ _ Hq0 Hq1). lra.
Qed.

Lemma psd_correct a b b' c R r :
  b == b' -> 0 <= a -> 0 <= c -> b * b <= a * c -> 0 < R -> 0 < r ->
  (a + R) * r == 1 ->
  let K0 := a * r in
  let K1 := b' * r in
  (1 - K0) * b == - K1 * a + b' /\
  0 <= (1 - K0) * a /\
  0 <= - K1 * b + c /\
  ((1 - K0) * b) * ((1 - K0) * b) <= ((1 - K0) * a) * (- K1 * b + c).
Proof.
  intros Hb Ha Hc Hd HR Hr HS. cbv zeta. rewrite <- Hb.
  assert (E : 1 - a * r == R * r) by (rewrite <- HS; ring).
  assert (HRr : 0 < R * r) by (apply Qmult_lt_0_compat; assumption).
  split; [ring|].
  split; [rewrite E; apply mul_nonneg; lra|].
  assert (Hc' : - (b * r) * b + c == (a * c - b * b) * r + c * (R * r)).
  { setoid_replace c with (c * ((a + R) * r)) at 1 by (rewrite HS; ring). ring. }
  assert (Hd' : 0 <= (a * c - b * b) * r) by (apply mul_nonneg; lra).
  assert (Hc2 : 0 <= c * (R * r)) by (apply mul_nonneg; lra).
  split.
  - rewrite Hc'. lra.
  - rewrite Hc', E.
    setoid_replace (R * r * b * (R * r * b))
      with ((R * r) * ((R * r) * (b * b))) by ring.
    setoid_replace (R * r * a * ((a * c - b * b) * r + c * (R * r)))
      with ((R * r) * (a * ((a * c - b * b) * r) + (R * r) * (a * c))) by ring.
    apply Qmult_le_l; [exact HRr|].
    assert (0 <= a * ((a * c - b * b) * r)) by (apply mul_nonneg; lra).
    assert ((R * r) * (b * b) <= (R * r) * (a * c))
      by (apply Qmult_le_l; assumption).
    lra.
Qed.

Module KalmanFacts.
Import KalmanFilter.

(** Symmetric and positive semi-definite. *)
Definition psd (p00 p01 p10 p11 : Q) : Prop :=
  p01 == p10 /\ 0 <= p00 /\ 0 <= p11 /\ p01 * p01 <= p00 * p11.

(** The filter as [init] with a sound noise setting leaves it, and as
    [update] keeps it. *)
Definition sound (self : t) : Prop :=
  0 < R self /\ Q01 self == 0 /\ Q10 self == 0 /\
  0 <= Q00 self /\ 0 <= Q11 self /\
  (initialized self = true -> psd (P00 self) (P01 self) (P10 self) (P11 self)).

Lemma init_sound self process_noise observ_noise :
  0 <= process_noise -> 0 < observ_noise ->
  sound (init self process_noise observ_noise).
Proof.
  intros Hq Hr. unfold sound, init; cbn.
  repeat split; try assumption; try reflexivity; discriminate.
Qed.

Lemma predict_psd self :
  sound self -> initialized self = true ->
  psd (P_pred00 self) (P_pred01 self) (P_pred10 self) (P_pred11 self).
Proof.
  intros (HR & Hq01 & Hq10 & Hq00 & Hq11 & Hp) Hi.
  destruct (Hp Hi) as (Hs & H0 & H1 & Hd).
  unfold psd, P_pred00, P_pred01, P_pred10, P_pred11, FP00, FP01, FP10, FP11.
  rewrite Hq01, Hq10, <- Hs.
  pose proof (psd_sum _ _ _ H0 H1 Hd).
  pose proof (psd_predict _ _ _ _ _ H0 H1 Hd Hq00 Hq11).
  repeat split; lra.
Qed.

Section Update.
Variable sqrt : Q -> Q.

Lemma update_sound self price :
  sound self ->
  exists self', update sqrt self price = Ok self' /\ sound self' /\
                initialized self' = true.
Proof.
  intros Hs. pose proof Hs as (HR & Hq01 & Hq10 & Hq00 & Hq11 & Hp).
  unfold update. destruct (initialized self) eqn:Hi; cbn [negb].
  - destruct (predict_psd self Hs Hi) as (Hsym & H0 & H1 & Hd).
    assert (HS : 0 < S self) by (unfold S; lra).
    rewrite math_sqrt_ok by lra. cbn [bind].
    destruct (Py.gtb _ _).
    + eexists. split; [reflexivity|]. split; [|reflexivity].
      unfold sound, commit; cbn. repeat split; assumption.
    + rewrite !div_ok by lra. cbn [bind].
      eexists. split; [reflexivity|]. split; [|reflexivity].
      unfold sound, commit; cbn.
      split; [assumption|]. split; [assumption|]. split; [assumption|].
      split; [assumption|]. split; [assumption|]. intros _.
      assert (Hr : 0 < / S self) by (apply Qinv_lt_0_compat, HS).
      assert (HSr : (P_pred00 self + R self) * / S self == 1)
        by (change (S self * / S self == 1); apply Qmult_inv_r; lra).
      destruct (psd_correct (P_pred00 self) (P_pred01 self) (P_pred10 self)
                  (P_pred11 self) (R self) (/ S self)
                  Hsym H0 H1 Hd HR Hr HSr) as (E1 & E2 & E3 & E4).
      unfold psd, Qdiv. repeat split; assumption.
  - eexists. split; [reflexivity|]. split; [|reflexivity].
    unfold sound, commit; cbn.
    split; [assumption|]. split; [assumption|]. split; [assumption|].
    split; [assumption|]. split; [assumption|]. intros _.
    unfold psd. split; [reflexivity|].
    pose proof (square_nonneg (price * (1 # 100))) as Hsq.
    split; [exact Hsq|]. split.
    + apply mul_nonneg; [exact Hsq|discriminate].
    + rewrite Qmult_0_l. apply mul_nonneg; [exact Hsq|].
      apply mul_nonneg; [exact Hsq|discriminate].
Qed.

End Update.

End KalmanFacts.

(** *** TrendStrengthEstimator *)

Module HurstTotal.
Import HurstExponent.

Definition wf (self : t) : Prop :=
  (1 <= period self)%Z /\ Py.len (returns self) = period self /\
  (0 <= count self <= period self)%Z /\ (0 <= head self < period self)%Z.

Lemma hurst_init_wf self p : (1 <= p)%Z -> wf (init self p).
Proof.
  intros Hp. unfold wf, init; cbn. rewrite replicate_len. lia.
Qed.

Lemma push_ok self ret :
  wf self -> exists self', push self ret = Ok self' /\ wf self'.
Proof.
  intros (Hp & Hr & Hc & Hh). unfold push.
  destruct (Z.ltb_spec (count self) (period self)).
  - rewrite setitem_ok by lia. cbn [bind].
    eexists. split; [reflexivity|].
    unfold wf, Py.len in *; cbn. rewrite update_nth_length. lia.
  - rewrite setitem_ok by lia. cbn [bind].
    unfold Py.mod_. destruct (Z.eqb_spec (period self) 0); [lia|]. cbn [bind].
    eexists. split; [reflexivity|].
    pose proof (Z.mod_pos_bound (head self + 1) (period self)).
    unfold wf, Py.len in *; cbn. rewrite update_nth_length. lia.
Qed.

Lemma linearize_ok self : wf self -> exists linear, _linearize self = Ok linear.
Proof.
  intros (Hp & Hr & Hc & Hh). unfold _linearize.
  destruct (count self <? period self)%Z; [eauto|].
  destruct (foldM_invariant (fun _ : list Q => True)
              (fun acc i =>
                 k <- Py.mod_ (head self + i) (period self) ;;
                 x <- Py.getitem (returns self) k ;; Ok (acc ++ [x]))
              (Py.range 0 (Z.min (count self) (period self)))) with (s := @nil Q)
    as (l & Hl & _); [|exact I|eauto].
  intros s i _ _. unfold Py.mod_.
  destruct (Z.eqb_spec (period self) 0); [lia|]. cbn [bind].
  destruct (getitem_nth (returns self) ((head self + i) mod period self))
    as (x & -> & _).
  { pose proof (Z.mod_pos_bound (head self + i) (period self)). lia. }
  cbn [bind]. eauto.
Qed.

Lemma tiny_pos : 0 < tiny.
Proof. reflexivity. Qed.

Section Calc.
Variables sqrt ln : Q -> Q.

Lemma calc_rs_ok data start length :
  (0 <= start)%Z -> (start + length <= Py.len data)%Z ->
  exists rs, _calc_rs sqrt data start length = Ok rs.
Proof.
  intros Hs Hl. unfold _calc_rs.
  destruct (Z.ltb_spec length 2); [eauto|].
  assert (Hget : forall i, In i (Py.range start (start + length)) ->
                   exists x, Py.getitem data i = Ok x).
  { intros i Hi. apply range_In in Hi.
    destruct (getitem_nth data i) as (x & Hx & _); [lia|eauto]. }
  match goal with |- context [foldM ?f ?xs ?s0] =>
    destruct (foldM_invariant (fun _ : Q => True) f xs) with (s := s0)
      as (m & -> & _); [|exact I|]
  end.
  { intros s i Hi _. destruct (Hget i Hi) as (x & ->). cbn [bind]. eauto. }
  cbn [bind]. rewrite div_ok by (apply float_nonzero; lia). cbn [bind].
  match goal with |- context [foldM ?f ?xs ?s0] =>
    destruct (foldM_invariant (fun s : Q => 0 <= s) f xs) with (s := s0)
      as (ss & -> & Hss); [|apply Qle_refl|]
  end.
  { intros s i Hi Hs0. destruct (Hget i Hi) as (x & ->). cbn [bind].
    eexists. split; [reflexivity|]. cbv zeta.
    pose proof (square_nonneg (x - m / Py.float length)). lra. }
  cbn [bind]. rewrite div_ok by (apply float_nonzero; lia). cbn [bind].
  rewrite math_sqrt_ok
    by (apply Qle_shift_div_l; [apply float_pos; lia|lra]).
  cbn [bind].
  destruct (Py.ltb (sqrt _) tiny) eqn:Esd; [eauto|].
  apply ltb_ge in Esd. pose proof tiny_pos.
  match goal with |- context [foldM ?f ?xs ?s0] =>
    destruct (foldM_invariant (fun _ : Q * Q * Q => True) f xs) with (s := s0)
      as ([[cd mx] mn] & -> & _); [|exact I|]
  end.
  { intros [[cd mx] mn] i Hi _. destruct (Hget i Hi) as (x & ->). cbn [bind].
    eauto. }
  cbn [bind]. rewrite div_ok by lra. eauto.
Qed.

Lemma window_ok linear n logs :
  (1 <= n)%Z -> Py.len (fst logs) = Py.len (snd logs) ->
  exists o, window sqrt ln linear (Py.len linear) n logs = Ok o /\
            forall logs', o = Some logs' ->
                          Py.len (fst logs') = Py.len (snd logs').
Proof.
  intros Hn Hlen. unfold window, Py.floordiv.
  destruct (Z.eqb_spec n 0); [lia|]. cbn [bind].
  destruct (Z.ltb_spec (Py.len linear / n) 1).
  { eexists. split; [reflexivity|]. discriminate. }
  match goal with |- context [foldM ?f ?xs ?s0] =>
    destruct (foldM_invariant
                (fun acc : Q * Z => 0 <= fst acc /\ (0 <= snd acc)%Z /\
                                    ((0 < snd acc)%Z -> 0 < fst acc))
                f xs) with (s := s0)
      as ([s v] & -> & Hs & Hv & Hsv)
  end.
  { intros [s v] seg Hseg (Hs & Hv & Hsv). cbn [fst snd] in *.
    apply range_In in Hseg.
    destruct (calc_rs_ok linear (seg * n) n) as (rs & ->).
    - nia.
    - pose proof (Z.mul_div_le (Py.len linear) n ltac:(lia)). nia.
    - cbn [bind]. destruct (Py.gtb rs 0) eqn:E.
      + apply gtb_lt in E. eexists. split; [reflexivity|].
        cbn [fst snd]. repeat split; try lra; lia.
      + eexists. split; [reflexivity|]. cbn [fst snd]. auto. }
  { cbn. repeat split; try lia. apply Qle_refl. }
  cbn [bind fst snd] in *.
  destruct (Z.ltb_spec 0 v).
  - specialize (Hsv ltac:(assumption)).
    rewrite div_ok by (apply float_nonzero; lia). cbn [bind].
    rewrite math_log_ok by (apply float_pos; lia). cbn [bind].
    rewrite math_log_ok
      by (apply Qlt_shift_div_l; [apply float_pos; lia|lra]).
    cbn [bind]. eexists. split; [reflexivity|].
    intros logs' [= <-]. cbn [fst snd]. unfold Py.len in *.
    rewrite !length_app. cbn [List.length]. lia.
  - eexists. split; [reflexivity|]. intros logs' [= <-]. exact Hlen.
Qed.

Lemma window_loop_ok linear prev_n n logs :
  (1 <= n)%Z -> Py.len (fst logs) = Py.len (snd logs) ->
  exists logs', window_loop sqrt ln linear prev_n n logs = Ok logs' /\
                Py.len (fst logs') = Py.len (snd logs').
Proof.
  funelim (window_loop sqrt ln linear prev_n n logs); intros Hn Hlen.
  - eauto.
  - match goal with IH : (1 <= _)%Z -> _ |- _ => apply IH; [lia|exact Hlen] end.
  - match goal with Hw : window _ _ _ _ _ _ = Ok (Some _) |- _ =>
      pose proof Hw as Hw'
    end.
    destruct (window_ok linear n logs Hn Hlen) as (o & Ho & Hlogs).
    rewrite Ho in Hw'. injection Hw' as ->.
    match goal with IH : (1 <= _)%Z -> _ |- _ => apply IH end.
    + pose proof (next_n_ge Hn). lia.
    + apply Hlogs. reflexivity.
  - eauto.
  - match goal with Hw : window _ _ _ _ _ _ = Raise _ |- _ =>
      pose proof Hw as Hw'
    end.
    destruct (window_ok linear n logs Hn Hlen) as (o & Ho & _).
    rewrite Ho in Hw'. discriminate Hw'.
Qed.

Lemma regress_ok log_n log_rs :
  Py.len log_n = Py.len log_rs -> exists h, regress log_n log_rs = Ok h.
Proof.
  intros Hlen. unfold regress, regression_sums.
  destruct (Py.len log_n <? 2)%Z; [eauto|].
  match goal with |- context [foldM ?f ?xs ?s0] =>
    destruct (foldM_invariant (fun _ : Q * Q * Q * Q => True) f xs) with (s := s0)
      as ([[[sx sy] sxy] sx2] & -> & _); [|exact I|]
  end.
  { intros [[[sx sy] sxy] sx2] i Hi _. apply range_In in Hi.
    destruct (getitem_nth log_n i) as (x & -> & _); [lia|].
    destruct (getitem_nth log_rs i) as (y & -> & _); [lia|].
    cbn [bind]. eauto. }
  cbn [bind].
  destruct (Py.ltb (Qabs _) tiny) eqn:E; [eauto|].
  apply ltb_ge in E. pose proof tiny_pos.
  rewrite div_ok; [cbn [bind]; eauto|].
  intros E0. rewrite E0 in E. cbn in E. lra.
Qed.

Lemma calculate_ok self :
  wf self -> exists h, _calculate_hurst sqrt ln self = Ok h.
Proof.
  intros Hwf. unfold _calculate_hurst.
  destruct (linearize_ok self Hwf) as (linear & ->). cbn [bind].
  destruct (Py.len linear <? 20)%Z; [eauto|].
  destruct (window_loop_ok linear 0 8 ([], [])) as ([log_n log_rs] & -> & Hl);
    [lia|reflexivity|].
  cbn [bind]. apply regress_ok. exact Hl.
Qed.

Lemma update_total self close prev_close :
  wf self ->
  exists self', update sqrt ln self close prev_close = Ok self' /\ wf self'.
Proof.
  intros Hwf. unfold update.
  destruct (Py.leb prev_close 0 || Py.leb close 0) eqn:Eskip; [eauto|].
  apply orb_false_iff in Eskip. destruct Eskip as [Ep Ec].
  apply leb_gt in Ep, Ec.
  rewrite div_ok by lra. cbn [bind].
  rewrite math_log_ok by (apply ratio_pos; assumption). cbn [bind].
  destruct (push_ok self (ln (close / prev_close)) Hwf) as (s1 & -> & Hwf1).
  cbn [bind]. destruct (20 <=? count s1)%Z; [|eauto].
  destruct (calculate_ok s1 Hwf1) as (h & ->). cbn [bind].
  eexists. split; [reflexivity|]. exact Hwf1.
Qed.

End Calc.

End HurstTotal.

(** *** SignalEngine *)

Module EngineFacts.
Import SignalEngine.

Definition engine_ok (se : t) : Prop :=
  KalmanFacts.sound (kalman se) /\ HurstTotal.wf (hurst se) /\
  VolFacts.wf (vol_regime se).

Section Engine.
Variables sqrt ln : Q -> Q.

Lemma on_new_bar_total se close prev_close :
  engine_ok se ->
  exists se', on_new_bar sqrt ln se close prev_close = Ok se' /\ engine_ok se'.
Proof.
  intros (Hk & Hh & Hv). unfold on_new_bar.
  destruct (KalmanFacts.update_sound sqrt _ close Hk) as (k & -> & Hk' & _).
  destruct (HurstTotal.update_total sqrt ln _ close prev_close Hh) as (h & -> & Hh').
  destruct (vol_update_total sqrt ln _ close prev_close Hv) as (v & -> & Hv' & _).
  cbn [bind]. eexists. split; [reflexivity|].
  unfold engine_ok; cbn. auto.
Qed.

Lemma get_estimation_error_ok se :
  get_estimation_error sqrt se
  = Ok (sqrt (Qabs (KalmanFilter.P00 (kalman se)))).
Proof. apply math_sqrt_abs. Qed.

Lemma get_entry_signal_total se price :
  exists s, get_entry_signal sqrt se price = Ok s.
Proof.
  unfold get_entry_signal, KalmanFilter.get_upper_band,
    KalmanFilter.get_lower_band, KalmanFilter.get_estimation_error.
  destruct (_ || _); [eauto|].
  rewrite math_sqrt_abs. cbn [bind].
  destruct (_ && _ && _); [eauto|]. destruct (_ && _ && _); eauto.
Qed.

Lemma bands_total se :
  exists u l, get_upper_band sqrt se = Ok u /\ get_lower_band sqrt se = Ok l.
Proof.
  unfold get_upper_band, get_lower_band, KalmanFilter.get_upper_band,
    KalmanFilter.get_lower_band, KalmanFilter.get_estimation_error.
  rewrite math_sqrt_abs. cbn [bind]. eauto.
Qed.

End Engine.

Lemma init_engine_ok ea_ :
  (1 <= hurst_period ea_)%Z -> (1 <= vol_period ea_)%Z ->
  (1 <= vol_hist_period ea_)%Z ->
  0 <= kf_process_noise ea_ -> 0 < kf_observ_noise ea_ ->
  engine_ok (Backtester.init_engine ea_).
Proof.
  intros Hh Hv Hvh Hq Hr. unfold engine_ok, Backtester.init_engine, init; cbn.
  split; [apply KalmanFacts.init_sound; assumption|].
  split; [apply HurstTotal.hurst_init_wf; assumption|].
  apply VolFacts.vol_init_wf; assumption.
Qed.

End EngineFacts.

(** *** Signal exits: every position to close is still in the list *)

Module ExitFacts.
Import Backtester.

Lemma PositionType_eqb_eq a b : PositionType.eqb a b = true <-> a = b.
Proof. destruct a, b; cbn; split; congruence. Qed.

Lemma stamp_eqb_refl a : stamp_eqb a a = true.
Proof. destruct a; cbn; rewrite ?Z.eqb_refl; reflexivity. Qed.

Lemma Position_eqb_refl p : Position_eqb p p = true.
Proof.
  unfold Position_eqb, Py.eqb.
  rewrite !Z.eqb_refl, stamp_eqb_refl, !Qeq_bool_refl.
  destruct (type p); reflexivity.
Qed.

Lemma Position_eqb_same p q :
  Position_eqb p q = true ->
  type p = type q /\ entry_bar_index p = entry_bar_index q.
Proof.
  unfold Position_eqb. intros H.
  repeat (apply andb_prop in H; destruct H as [H ?]).
  split; [apply PositionType_eqb_eq; assumption|apply Z.eqb_eq; assumption].
Qed.

(** [xs] can be removed from [ps] one after the other. *)
Inductive covers : list Position -> list Position -> Prop :=
| covers_nil ps : covers ps []
| covers_cons ps x xs ps' :
    list_remove x ps = Ok ps' -> covers ps' xs -> covers ps (x :: xs).

Lemma covers_skip p ps xs :
  covers ps xs -> (forall x, In x xs -> Position_eqb p x = false) ->
  covers (p :: ps) xs.
Proof.
  induction 1 as [|ps x xs ps' Hr Hc IH]; intros Hne; [constructor|].
  apply covers_cons with (ps' := p :: ps').
  - cbn. rewrite (Hne x (or_introl eq_refl)), Hr. reflexivity.
  - apply IH. intros y Hy. apply Hne. right. exact Hy.
Qed.

Lemma covers_filter (g : Position -> bool) l :
  (forall p x, Position_eqb p x = true -> g p = g x) ->
  covers l (filter g l).
Proof.
  intros Hg. induction l as [|p l IH]; cbn [filter]; [constructor|].
  destruct (g p) eqn:E.
  - apply covers_cons with (ps' := l); [|exact IH].
    cbn. rewrite Position_eqb_refl. reflexivity.
  - apply covers_skip; [exact IH|].
    intros x Hx. apply filter_In in Hx. destruct Hx as [_ Hx].
    destruct (Position_eqb p x) eqn:Ex; [|reflexivity].
    apply Hg in Ex. congruence.
Qed.

Lemma covers_fold (f : Position -> Q) (mk : Position -> Q -> ClosedTrade) xs :
  forall ps, covers ps xs -> forall pnl cts,
  exists r,
    foldM (fun '(realized_pnl, closed_trades, positions) pos =>
             let pnl := f pos in
             positions <- list_remove pos positions ;;
             Ok (realized_pnl + pnl, closed_trades ++ [mk pos pnl], positions))
          xs (pnl, cts, ps) = Ok r.
Proof.
  induction xs as [|x xs IH]; intros ps Hc pnl cts; cbn [foldM]; [eauto|].
  inversion Hc as [|? ? ? ps' Hr Hc']; subst.
  rewrite Hr. cbn [bind]. apply IH. exact Hc'.
Qed.

Section Exit.
Variable ea_ : EAConfig.
Variable inst_ : InstrumentConfig.
Variables (i : Z) (current_date : stamp) (bar_close : Q).

Lemma held_respects ty p x :
  Position_eqb p x = true ->
  PositionType.eqb (type p) ty && held_enough ea_ i p
  = PositionType.eqb (type x) ty && held_enough ea_ i x.
Proof.
  intros H. apply Position_eqb_same in H. destruct H as [Ht He].
  unfold held_enough. rewrite Ht, He. reflexivity.
Qed.

Lemma exit_buy_total st :
  exists st', exit_buy ea_ inst_ i current_date bar_close st = Ok st' /\
    signal_engine st' = signal_engine st /\ risk_mgr st' = risk_mgr st /\
    equity st' = equity st /\ result_ st' = result_ st.
Proof.
  unfold exit_buy. destruct (_ && _); [|eauto 6].
  match goal with |- context [foldM _ (filter ?g ?l) (?a, ?b, _)] =>
    destruct (covers_fold
                (fun pos => (bar_close - half_spread inst_ - open_price pos)
                            * lots pos * contract_size inst_)
                (fun pos pnl => mk_closed pos current_date
                                  (bar_close - half_spread inst_) pnl "signal" i)
                (filter g l) l
                (covers_filter g l (held_respects PositionType.BUY)) a b)
      as ([[pnl cts] ps] & Hr)
  end.
  cbv zeta in Hr |- *. rewrite Hr. cbn [bind]. eexists. split; [reflexivity|].
  cbn. auto.
Qed.

Lemma exit_sell_total st :
  exists st', exit_sell ea_ inst_ i current_date bar_close st = Ok st' /\
    signal_engine st' = signal_engine st /\ risk_mgr st' = risk_mgr st /\
    equity st' = equity st /\ result_ st' = result_ st.
Proof.
  unfold exit_sell. destruct (_ && _); [|eauto 6].
  match goal with |- context [foldM _ (filter ?g ?l) (?a, ?b, _)] =>
    destruct (covers_fold
                (fun pos => (open_price pos - (bar_close + half_spread inst_))
                            * lots pos * contract_size inst_)
                (fun pos pnl => mk_closed pos current_date
                                  (bar_close + half_spread inst_) pnl "signal" i)
                (filter g l) l
                (covers_filter g l (held_respects PositionType.SELL)) a b)
      as ([[pnl cts] ps] & Hr)
  end.
  cbv zeta in Hr |- *. rewrite Hr. cbn [bind]. eexists. split; [reflexivity|].
  cbn. auto.
Qed.

End Exit.

End ExitFacts.

(** *** The bar, the trading loop and the run *)

Module RunFacts.
Import Backtester EngineFacts.

(** What the stages of a bar need of the loop state. *)
Definition state_ok (st : state) : Prop :=
  engine_ok (signal_engine st) /\
  (leverage (RiskManager.ea (risk_mgr st)) <> 0)%Z.

(** Every per-bar record array holds [k] entries. *)
Definition rows (r : BacktestResult) (k : nat) : Prop :=
  List.length (equity_curve r) = k /\ List.length (kalman_levels r) = k /\
  List.length (kalman_upper r) = k /\ List.length (kalman_lower r) = k /\
  List.length (hurst_values r) = k /\ List.length (vol_regimes r) = k /\
  List.length (signals r) = k /\ List.length (dates r) = k.

(** The calls of [on_new_bar] the warmup makes: [(close, prev_close)]. *)
Definition warmup_calls (closes : list Q) (warmup_bars : Z) : list (Q * Q) :=
  (nth 0 closes 0, nth 0 closes 0)
  :: map (fun i => (nth (Z.to_nat i) closes 0, nth (Z.to_nat (i - 1)) closes 0))
         (Py.range 1 warmup_bars).

Lemma getitem_default {A} (l : list A) (d : A) i :
  (0 <= i < Py.len l)%Z -> Py.getitem l i = Ok (nth (Z.to_nat i) l d).
Proof.
  intros H. destruct (getitem_nth l i H) as (x & -> & Hn).
  f_equal. symmetry. apply nth_error_nth. exact Hn.
Qed.

Section Run.
Variables sqrt ln : Q -> Q.
Variable ea_ : EAConfig.
Variable inst_ : InstrumentConfig.
Variable data : list Bar.

Hypothesis point_nonzero : ~ point inst_ == 0.

Lemma lens :
  Py.len (closes data) = n_bars data /\ Py.len (highs data) = n_bars data /\
  Py.len (lows data) = n_bars data /\ Py.len (dates_ data) = n_bars data.
Proof.
  unfold n_bars, closes, highs, lows, dates_, Py.len.
  rewrite !length_map. auto.
Qed.

Lemma entry_total i current_date bar_close st :
  state_ok st ->
  exists st' s etb,
    entry sqrt ea_ inst_ i current_date bar_close st = Ok (st', s, etb) /\
    signal_engine st' = signal_engine st /\ risk_mgr st' = risk_mgr st /\
    equity st' = equity st /\ result_ st' = result_ st.
Proof.
  intros [_ Hl]. unfold entry.
  destruct (get_entry_signal_total sqrt (signal_engine st) bar_close) as (s0 & ->).
  cbn [bind]. destruct (negb _); [|eauto 8].
  rewrite get_estimation_error_ok. cbn [bind].
  unfold RiskManager.get_stop_points. rewrite div_ok by exact point_nonzero.
  cbn [bind].
  match goal with |- context [RiskManager.calc_lots ?m ?a ?b ?c ?d ?e] =>
    destruct (RiskFacts.calc_lots_total m a b c d e Hl) as (l & ->)
  end. cbn [bind].
  destruct (Py.gtb l 0); [|eauto 8].
  match goal with |- context [RiskManager.can_open_trade ?m ?a ?b ?c ?d ?e] =>
    destruct (RiskFacts.can_open_trade_total m a b c d e Hl) as (ok & ->)
  end. cbn [bind].
  destruct ok; [|eauto 8].
  do 3 eexists. split; [reflexivity|]. cbn. auto.
Qed.

Lemma trailing_stop_total i etb st :
  exists st', trailing_stop sqrt ea_ i etb st = Ok st' /\
    signal_engine st' = signal_engine st /\ risk_mgr st' = risk_mgr st /\
    equity st' = equity st /\ result_ st' = result_ st.
Proof.
  unfold trailing_stop. destruct (_ && _); [|eauto 6].
  rewrite get_estimation_error_ok. cbn [bind].
  eexists. split; [reflexivity|]. cbn. auto.
Qed.

Lemma begin_bar_total i st :
  (1 <= i < n_bars data)%Z -> state_ok st ->
  exists st' d, begin_bar sqrt ln data i st = Ok (st', d) /\ state_ok st' /\
                result_ st' = result_ st.
Proof.
  intros Hi [He Hl]. destruct lens as (Hc & _ & _ & Hd). unfold begin_bar.
  destruct (getitem_nth (dates_ data) i) as (d & -> & _); [lia|]. cbn [bind].
  destruct (getitem_nth (closes data) i) as (c & -> & _); [lia|].
  destruct (getitem_nth (closes data) (i - 1)) as (cp & -> & _); [lia|].
  destruct (on_new_bar_total sqrt ln _ c cp He) as (se & Hse & He').
  destruct (day_differs _ _); cbn [bind]; rewrite Hse; cbn [bind];
    do 2 eexists; (split; [reflexivity|]); split; try reflexivity;
    split; cbn; assumption.
Qed.

Lemma end_bar_total d c s etb st k :
  rows (result_ st) k ->
  exists st', end_bar sqrt ea_ inst_ d c s etb st = Ok st' /\
    signal_engine st' = signal_engine st /\ risk_mgr st' = risk_mgr st /\
    rows (result_ st') (S k).
Proof.
  intros Hr. unfold end_bar, record.
  destruct (bands_total sqrt (signal_engine st)) as (u & l & -> & ->).
  cbn [bind]. eexists. split; [reflexivity|]. cbn.
  split; [reflexivity|]. split; [reflexivity|].
  destruct Hr as (H1 & H2 & H3 & H4 & H5 & H6 & H7 & H8).
  unfold rows; cbn. rewrite !length_app; cbn [List.length].
  repeat split; lia.
Qed.

Lemma bar_total st i k :
  (1 <= i < n_bars data)%Z -> state_ok st -> rows (result_ st) k ->
  exists st', bar sqrt ln ea_ inst_ data st i = Ok st' /\ state_ok st' /\
              rows (result_ st') (S k).
Proof.
  intros Hi Hok Hr. destruct lens as (Hc & Hh & Hlo & Hd). unfold bar.
  destruct (begin_bar_total i st Hi Hok) as (st1 & d & -> & Hok1 & Hr1).
  cbn [bind].
  destruct (getitem_nth (closes data) i) as (bc & -> & _); [lia|].
  destruct (getitem_nth (highs data) i) as (bh & -> & _); [lia|].
  destruct (getitem_nth (lows data) i) as (bl & -> & _); [lia|].
  cbn [bind]. rewrite StopLoss.stop_loss_check_ok. cbn [bind].
  match goal with |- context [exit_buy _ _ _ _ _ ?s] =>
    destruct (ExitFacts.exit_buy_total ea_ inst_ i d bc s)
      as (st3 & -> & Hs3 & Hm3 & _ & Hr3)
  end. cbn [bind].
  destruct (ExitFacts.exit_sell_total ea_ inst_ i d bc st3)
    as (st4 & -> & Hs4 & Hm4 & _ & Hr4). cbn [bind].
  assert (Hok4 : state_ok st4).
  { unfold state_ok. rewrite Hs4, Hm4, Hs3, Hm3. exact Hok1. }
  destruct (entry_total i d bc st4 Hok4)
    as (st5 & s & etb & -> & Hs5 & Hm5 & _ & Hr5). cbn [bind].
  destruct (trailing_stop_total i etb st5)
    as (st6 & -> & Hs6 & Hm6 & _ & Hr6). cbn [bind].
  destruct (end_bar_total d bc s etb st6 k) as (st7 & -> & Hs7 & Hm7 & Hr7).
  { rewrite Hr6, Hr5, Hr4, Hr3. cbn. rewrite Hr1. exact Hr. }
  eexists. split; [reflexivity|]. split; [|exact Hr7].
  unfold state_ok. rewrite Hs7, Hm7, Hs6, Hm6, Hs5, Hm5. exact Hok4.
Qed.

Lemma trade_total bars : forall st k,
  (forall i, In i bars -> (1 <= i < n_bars data)%Z) ->
  state_ok st -> rows (result_ st) k ->
  exists st', trade sqrt ln ea_ inst_ data bars st = Ok st' /\ state_ok st' /\
              rows (result_ st') (k + List.length bars).
Proof.
  unfold trade. induction bars as [|i bars IH]; intros st k Hb Hok Hr.
  - cbn. rewrite Nat.add_0_r. eauto.
  - cbn [foldM List.length].
    destruct (bar_total st i k (Hb i (or_introl eq_refl)) Hok Hr)
      as (st1 & -> & Hok1 & Hr1). cbn [bind].
    replace (k + S (List.length bars))%nat with (S k + List.length bars)%nat by lia.
    apply IH; auto. intros j Hj. apply Hb. right. exact Hj.
Qed.

End Run.

End RunFacts.

Lemma foldM_map {A B S} (f : S -> B -> result S) (g : A -> B) xs s :
  foldM f (map g xs) s = foldM (fun s x => f s (g x)) xs s.
Proof.
  revert s. induction xs as [|x xs IH]; intros s; cbn; [reflexivity|].
  destruct (f s (g x)); cbn; auto.
Qed.

Lemma foldM_ext_in {A S} (f g : S -> A -> result S) xs :
  (forall s x, In x xs -> f s x = g s x) ->
  forall s, foldM f xs s = foldM g xs s.
Proof.
  induction xs as [|x xs IH]; intros H s; cbn; [reflexivity|].
  rewrite (H s x (or_introl eq_refl)).
  destruct (g s x); cbn; [|reflexivity].
  apply IH. intros s0 y Hy. apply H. right. exact Hy.
Qed.

Module WarmupFacts.
Import Backtester EngineFacts RunFacts.

Section Warmup.
Variables sqrt ln : Q -> Q.
Variable ea_ : EAConfig.
Variable inst_ : InstrumentConfig.
Variable data : list Bar.

(** Feeding a list of [(close, prev_close)] calls to the engine. *)
Definition feed (calls : list (Q * Q)) (se : SignalEngine.t)
  : result SignalEngine.t :=
  foldM (fun se '(c, c_prev) => SignalEngine.on_new_bar sqrt ln se c c_prev)
        calls se.

Lemma warmup_bars_bound : (warmup_bars ea_ data <= n_bars data - 1)%Z.
Proof. unfold warmup_bars. lia. Qed.

Lemma warmup_as_feed se :
  (1 <= n_bars data)%Z ->
  warmup sqrt ln ea_ data se
  = feed (warmup_calls (closes data) (warmup_bars ea_ data)) se.
Proof.
  intros Hn. pose proof warmup_bars_bound as Hw.
  unfold warmup, feed, warmup_calls.
  rewrite (getitem_default (closes data) 0 0) by (unfold n_bars in Hn; lia).
  cbn [bind foldM Z.to_nat].
  destruct (SignalEngine.on_new_bar sqrt ln se _ _) as [se1|e]; cbn [bind];
    [|reflexivity].
  rewrite foldM_map. apply foldM_ext_in.
  intros s i Hi. apply range_In in Hi. unfold warmup_feed.
  rewrite (getitem_default (closes data) 0 i) by (unfold n_bars in *; lia).
  rewrite (getitem_default (closes data) 0 (i - 1)) by (unfold n_bars in *; lia).
  reflexivity.
Qed.

Lemma warmup_calls_length closes w :
  (1 <= w)%Z -> Z.of_nat (List.length (warmup_calls closes w)) = w.
Proof.
  intros H. unfold warmup_calls. cbn [List.length].
  rewrite length_map, range_length. lia.
Qed.

Lemma feed_total calls : forall se,
  engine_ok se -> exists se', feed calls se = Ok se' /\ engine_ok se'.
Proof.
  unfold feed. induction calls as [|[c p] calls IH]; intros se Hse; cbn [foldM].
  - eauto.
  - destruct (on_new_bar_total sqrt ln se c p Hse) as (se1 & -> & H1).
    cbn [bind]. apply IH. exact H1.
Qed.

Lemma close_remaining_total st :
  (1 <= n_bars data)%Z ->
  exists cts, close_remaining inst_ data st = Ok cts.
Proof.
  intros Hn. unfold close_remaining.
  destruct (negb _); [|eauto].
  destruct (getitem_last (closes data)) as (c & ->).
  { unfold n_bars, Py.len in Hn. destruct (closes data); [cbn in Hn; lia|congruence]. }
  destruct (getitem_last (dates_ data)) as (d & ->).
  { unfold n_bars, closes, dates_, Py.len in *. rewrite length_map in Hn.
    destruct data; [cbn in Hn; lia|cbn; congruence]. }
  cbn [bind]. eauto.
Qed.

End Warmup.

End WarmupFacts.

(** Six hundred hourly bars, flat at 1.1000. *)
Definition flat_bars (n : nat) : list Backtester.Bar :=
  map (fun k => {| Backtester.date :=
                     Timestamp (19000 + Z.of_nat (k / 24)) (Z.of_nat (k mod 24));
                   Backtester.high := 11010 # 10000;
                   Backtester.low := 10990 # 10000;
                   Backtester.close := 11000 # 10000 |})
      (seq 0 n).


(** * Further properties of the loop *)

(** ** Signal exits, exactly *)

Module ExitExact.
Import Backtester ExitFacts.

Section Removal.
Variable f : Position -> Q.
Variable mk : Position -> Q -> ClosedTrade.

(** The body of the closing loops of the signal exits. *)
Definition close_one
  : Q * list ClosedTrade * list Position -> Position ->
    result (Q * list ClosedTrade * list Position) :=
  fun '(realized_pnl, closed_trades, positions) pos =>
    let pnl := f pos in
    positions <- list_remove pos positions ;;
    Ok (realized_pnl + pnl, closed_trades ++ [mk pos pnl], positions).

Lemma close_all_other p xs : forall pnl cts l,
  (forall x, In x xs -> Position_eqb p x = false) ->
  foldM close_one xs (pnl, cts, p :: l)
  = ('(pnl', cts', l') <- foldM close_one xs (pnl, cts, l) ;;
     Ok (pnl', cts', p :: l')).
Proof.
  induction xs as [|x xs IH]; intros pnl cts l Hne; cbn [foldM bind].
  - reflexivity.
  - unfold close_one at 1 3. cbn [list_remove].
    rewrite (Hne x (or_introl eq_refl)).
    destruct (list_remove x l) as [l1|e]; cbn [bind]; [|reflexivity].
    apply IH. intros y Hy. apply Hne. right. exact Hy.
Qed.

(** Removing every position selected by [g], one [remove] at a time, leaves
    the positions [g] rejects, in order. *)
Lemma close_all_filter (g : Position -> bool) l : forall pnl cts,
  (forall p x, Position_eqb p x = true -> g p = g x) ->
  foldM close_one (filter g l) (pnl, cts, l)
  = Ok (fold_left (fun a p => a + f p) (filter g l) pnl,
        cts ++ map (fun p => mk p (f p)) (filter g l),
        filter (fun p => negb (g p)) l).
Proof.
  intros pnl cts Hg. revert pnl cts.
  induction l as [|p l IH]; intros pnl cts; cbn [filter].
  - cbn. rewrite app_nil_r. reflexivity.
  - destruct (g p) eqn:E; cbn [negb].
    + cbn [foldM]. unfold close_one at 1. cbn [list_remove].
      rewrite Position_eqb_refl. cbn [bind]. rewrite IH.
      cbn [fold_left map]. rewrite <- app_assoc. reflexivity.
    + rewrite close_all_other.
      * rewrite IH. reflexivity.
      * intros x Hx. apply filter_In in Hx. destruct Hx as [_ Hx].
        destruct (Position_eqb p x) eqn:Ex; [|reflexivity].
        apply Hg in Ex. congruence.
Qed.

End Removal.

Section Exit.
Variable ea_ : EAConfig.
Variable inst_ : InstrumentConfig.
Variables (i : Z) (current_date : stamp) (bar_close : Q).

(** The longs (shorts) a signal exit closes on bar [i]. *)
Definition due (ty : PositionType.t) (p : Position) : bool :=
  PositionType.eqb (type p) ty && held_enough ea_ i p.

Definition bid : Q := bar_close - half_spread inst_.
Definition ask : Q := bar_close + half_spread inst_.

Definition buy_profit (pos : Position) : Q :=
  (bid - open_price pos) * lots pos * contract_size inst_.
Definition sell_profit (pos : Position) : Q :=
  (open_price pos - ask) * lots pos * contract_size inst_.

Definition buy_trade (pos : Position) : ClosedTrade :=
  mk_closed pos current_date bid (buy_profit pos) "signal" i.
Definition sell_trade (pos : Position) : ClosedTrade :=
  mk_closed pos current_date ask (sell_profit pos) "signal" i.

Lemma exit_buy_ok st :
  exit_buy ea_ inst_ i current_date bar_close st =
  Ok (if any_type PositionType.BUY (positions st)
         && SignalEngine.should_close_buy (signal_engine st)
      then set_book st
             (filter (fun p => negb (due PositionType.BUY p)) (positions st))
             (closed_trades st
              ++ map buy_trade (filter (due PositionType.BUY) (positions st)))
             (fold_left (fun a p => a + buy_profit p)
                        (filter (due PositionType.BUY) (positions st))
                        (realized_pnl st))
             0%Z
      else st).
Proof.
  unfold exit_buy. destruct (_ && _); [|reflexivity].
  pose proof (close_all_filter buy_profit
                (fun pos pnl => mk_closed pos current_date bid pnl "signal" i)
                (due PositionType.BUY) (positions st)
                (realized_pnl st) (closed_trades st)
                (held_respects ea_ i PositionType.BUY)) as H.
  cbv zeta.
  match goal with |- bind ?m _ = _ =>
    match type of H with _ = ?r => assert (Hm : m = r) by exact H end
  end.
  rewrite Hm. reflexivity.
Qed.

Lemma exit_sell_ok st :
  exit_sell ea_ inst_ i current_date bar_close st =
  Ok (if any_type PositionType.SELL (positions st)
         && SignalEngine.should_close_sell (signal_engine st)
      then set_book st
             (filter (fun p => negb (due PositionType.SELL p)) (positions st))
             (closed_trades st
              ++ map sell_trade (filter (due PositionType.SELL) (positions st)))
             (fold_left (fun a p => a + sell_profit p)
                        (filter (due PositionType.SELL) (positions st))
                        (realized_pnl st))
             0%Z
      else st).
Proof.
  unfold exit_sell. destruct (_ && _); [|reflexivity].
  pose proof (close_all_filter sell_profit
                (fun pos pnl => mk_closed pos current_date ask pnl "signal" i)
                (due PositionType.SELL) (positions st)
                (realized_pnl st) (closed_trades st)
                (held_respects ea_ i PositionType.SELL)) as H.
  cbv zeta.
  match goal with |- bind ?m _ = _ =>
    match type of H with _ = ?r => assert (Hm : m = r) by exact H end
  end.
  rewrite Hm. reflexivity.
Qed.

End Exit.

End ExitExact.

(** ** The ledger: tickets, trade log and realized profit *)

Lemma sorted_map_filter {A} (t : A -> Z) (g : A -> bool) l :
  StronglySorted Z.lt (map t l) -> StronglySorted Z.lt (map t (filter g l)).
Proof.
  induction l as [|a l IH]; cbn; [auto|].
  intros H. apply StronglySorted_inv in H. destruct H as [Hs Ha].
  destruct (g a); [|auto]. cbn. constructor; [auto|].
  rewrite Forall_map in Ha |- *. rewrite Forall_forall in Ha |- *.
  intros x Hx. apply filter_In in Hx. apply Ha, Hx.
Qed.

Lemma sorted_NoDup l : StronglySorted Z.lt l -> NoDup l.
Proof.
  induction 1 as [|a l Hs IH Ha]; constructor; [|exact IH].
  intros Hin. rewrite Forall_forall in Ha. specialize (Ha a Hin). lia.
Qed.

Lemma sorted_snoc l x :
  StronglySorted Z.lt l -> Forall (fun y => y < x)%Z l ->
  StronglySorted Z.lt (l ++ [x]).
Proof.
  induction 1 as [|a l Hs IH Ha]; intros Hx; cbn.
  - constructor; constructor.
  - inversion Hx; subst. constructor; [auto|].
    apply Forall_app. split; [exact Ha|]. constructor; [assumption|constructor].
Qed.

Lemma sum_profit_app (f : ClosedTrade -> Q) l l' a :
  fold_left (fun a t => a + f t) (l ++ l') a
  = fold_left (fun a t => a + f t) l' (fold_left (fun a t => a + f t) l a).
Proof. apply fold_left_app. Qed.

Lemma fold_left_map {A B S} (f : S -> B -> S) (g : A -> B) l s :
  fold_left f (map g l) s = fold_left (fun s x => f s (g x)) l s.
Proof. revert s. induction l as [|x l IH]; intros s; cbn; auto. Qed.

Lemma filter_len_le {A} (g : A -> bool) l : (Py.len (filter g l) <= Py.len l)%Z.
Proof.
  unfold Py.len. induction l as [|a l IH]; cbn [filter]; [lia|].
  destruct (g a); cbn [List.length]; lia.
Qed.

Module Ledger.
Import Backtester.

Section Book.
Variable ea_ : EAConfig.

(** The ledger when every open position was opened before bar [a] and
    every logged trade was closed before bar [b]: open positions carry
    strictly increasing tickets below [next_ticket]; the trade log holds
    each ticket once, none of them still open, each trade exiting after the
    bar it entered on and for a reason other than the end of the data; the
    realized profit is the sum of the logged
    profits; and no more than [max_positions] positions are open. *)
Record book_ok (a b : Z) (st : state) : Prop := {
  bk_sorted : StronglySorted Z.lt (map ticket (positions st));
  bk_open : Forall (fun p => (1 <= ticket p < next_ticket st)%Z /\
                             (entry_bar_index p < a)%Z) (positions st);
  bk_nodup : NoDup (map ct_ticket (closed_trades st));
  bk_closed : Forall (fun t => (1 <= ct_ticket t < next_ticket st)%Z /\
                               (ct_entry_bar_index t < exit_bar_index t)%Z /\
                               (exit_bar_index t < b)%Z /\
                               close_reason t <> "end_of_data"%string)
                     (closed_trades st);
  bk_apart : forall p t, In p (positions st) -> In t (closed_trades st) ->
                         ticket p <> ct_ticket t;
  bk_pnl : realized_pnl st
           = fold_left (fun a t => a + profit t) (closed_trades st) 0;
  bk_count : (Py.len (positions st) <= Z.max 0 (max_positions ea_))%Z;
  bk_total : (Py.len (positions st) + Py.len (closed_trades st)
              = next_ticket st - 1)%Z;
  bk_cfg : RiskManager.ea (risk_mgr st) = ea_
}.

Lemma book_ok_mono a b a' b' st :
  (a <= a')%Z -> (b <= b')%Z -> book_ok a b st -> book_ok a' b' st.
Proof.
  intros Ha Hb [H1 H2 H3 H4 H5 H6 H7 H9 H8]. constructor; auto.
  - eapply Forall_impl; [|exact H2]. cbn beta. intros p [? ?]. split; lia.
  - eapply Forall_impl; [|exact H4]. cbn beta. intros p (? & ? & ? & ?).
    repeat split; auto; lia.
Qed.

(** A stage of bar [i] that closes the positions selected by [g], logging
    [mk p] for each, and changes nothing else of the ledger. *)
Definition closes (i : Z) (g : Position -> bool) (mk : Position -> ClosedTrade)
    (st st' : state) : Prop :=
  positions st' = filter (fun p => negb (g p)) (positions st) /\
  closed_trades st' = closed_trades st ++ map mk (filter g (positions st)) /\
  realized_pnl st'
  = fold_left (fun a p => a + profit (mk p)) (filter g (positions st))
              (realized_pnl st) /\
  next_ticket st' = next_ticket st /\ risk_mgr st' = risk_mgr st /\
  forall p, ct_ticket (mk p) = ticket p /\
            ct_entry_bar_index (mk p) = entry_bar_index p /\
            exit_bar_index (mk p) = i /\
            close_reason (mk p) <> "end_of_data"%string.

Lemma sorted_same_ticket l p q :
  StronglySorted Z.lt (map ticket l) -> In p l -> In q l ->
  ticket p = ticket q -> p = q.
Proof.
  induction l as [|x l IH]; cbn; [tauto|].
  intros H. apply StronglySorted_inv in H. destruct H as [Hs Ha].
  rewrite Forall_map, Forall_forall in Ha.
  intros [<-|Hp] [<-|Hq] E; auto.
  - specialize (Ha q Hq). lia.
  - specialize (Ha p Hp). lia.
Qed.

Lemma closes_book i g mk st st' :
  closes i g mk st st' -> book_ok i (i + 1) st -> book_ok i (i + 1) st'.
Proof.
  intros (Hp & Hc & Hr & Hn & Hm & Hmk) [H1 H2 H3 H4 H5 H6 H7 H9 H8].
  assert (Hsel : forall p, In p (filter g (positions st)) -> In p (positions st))
    by (intros p Hp'; apply filter_In in Hp'; apply Hp').
  rewrite Forall_forall in H2, H4.
  constructor; rewrite ?Hp, ?Hc, ?Hr, ?Hn, ?Hm.
  - apply sorted_map_filter. exact H1.
  - apply Forall_forall. intros p Hp'. apply filter_In in Hp'. apply H2, Hp'.
  - rewrite map_app, map_map.
    rewrite (map_ext (fun p => ct_ticket (mk p)) ticket)
      by (intros p; apply Hmk).
    apply NoDup_app; [exact H3| |].
    + apply sorted_NoDup, sorted_map_filter, H1.
    + intros k Hk Hk'. apply in_map_iff in Hk, Hk'.
      destruct Hk as (t & <- & Ht), Hk' as (p & E & Hp').
      apply (H5 p t (Hsel p Hp') Ht E).
  - apply Forall_app. split.
    + apply Forall_forall. intros t Ht. destruct (H4 t Ht) as (? & ? & ? & ?).
      repeat split; auto; lia.
    + apply Forall_forall. intros t Ht. apply in_map_iff in Ht.
      destruct Ht as (p & <- & Hp'). destruct (Hmk p) as (-> & -> & -> & Hr').
      destruct (H2 p (Hsel p Hp')). repeat split; auto; lia.
  - intros p t Hp' Ht E. apply filter_In in Hp'. destruct Hp' as [Hp' Hg].
    apply in_app_or in Ht. destruct Ht as [Ht|Ht]; [apply (H5 p t Hp' Ht E)|].
    apply in_map_iff in Ht. destruct Ht as (q & <- & Hq).
    destruct (Hmk q) as (Eq & _). rewrite Eq in E.
    apply filter_In in Hq. destruct Hq as [Hq Hgq].
    assert (p = q) by (eapply sorted_same_ticket; eassumption).
    subst q. rewrite Hgq in Hg. discriminate.
  - rewrite sum_profit_app, <- H6, fold_left_map. reflexivity.
  - pose proof (filter_len_le (fun p => negb (g p)) (positions st)). lia.
  - unfold Py.len in *. rewrite length_app, length_map.
    pose proof (filter_length g (positions st)). lia.
  - exact H8.
Qed.

Section Stage.
Variables sqrt ln : Q -> Q.
Variable inst_ : InstrumentConfig.
Variables (i : Z) (current_date : stamp) (bar_close : Q).

Lemma stop_loss_check_closes bar_high bar_low st :
  exists st',
    stop_loss_check inst_ i current_date bar_high bar_low st = Ok st' /\
    closes i (sl_hit bar_high bar_low) (StopLoss.sl_trade inst_ i current_date)
           st st'.
Proof.
  eexists. split; [apply StopLoss.stop_loss_check_ok|].
  unfold closes. cbn. repeat split; try reflexivity. discriminate.
Qed.

Lemma stop_loss_check_book bar_high bar_low st st' :
  stop_loss_check inst_ i current_date bar_high bar_low st = Ok st' ->
  book_ok i (i + 1) st -> book_ok i (i + 1) st'.
Proof.
  destruct (stop_loss_check_closes bar_high bar_low st) as (s & -> & Hc).
  intros [= <-]. eapply closes_book, Hc.
Qed.

Lemma exit_buy_book st st' :
  exit_buy ea_ inst_ i current_date bar_close st = Ok st' ->
  book_ok i (i + 1) st -> book_ok i (i + 1) st'.
Proof.
  rewrite ExitExact.exit_buy_ok. intros [= <-] Hb.
  destruct (_ && _).
  - eapply closes_book; [|exact Hb].
    unfold closes. cbn. repeat split; try reflexivity. discriminate.
  - exact Hb.
Qed.

Lemma exit_sell_book st st' :
  exit_sell ea_ inst_ i current_date bar_close st = Ok st' ->
  book_ok i (i + 1) st -> book_ok i (i + 1) st'.
Proof.
  rewrite ExitExact.exit_sell_ok. intros [= <-] Hb.
  destruct (_ && _).
  - eapply closes_book; [|exact Hb].
    unfold closes. cbn. repeat split; try reflexivity. discriminate.
  - exact Hb.
Qed.

(** What an entry does: nothing, or one position appended under the next
    ticket, of positive size, after the count gate and the cooldown let it
    through. *)
Lemma entry_opens st st' s etb :
  entry sqrt ea_ inst_ i current_date bar_close st = Ok (st', s, etb) ->
  (st' = st /\ etb = false) \/
  (exists pos,
     st' = open_position st pos /\ etb = true /\
     ticket pos = next_ticket st /\ entry_bar_index pos = i /\
     open_time pos = current_date /\ 0 < lots pos /\
     (Py.len (positions st) < max_positions (RiskManager.ea (risk_mgr st)))%Z /\
     (close_cooldown ea_ <= bars_since_close st)%Z /\
     (s = BUY \/ s = SELL) /\
     type pos = (if Signal_eqb s BUY then PositionType.BUY else PositionType.SELL) /\
     open_price pos = (if Signal_eqb s BUY
                       then bar_close + half_spread inst_ + slippage ea_ inst_
                       else bar_close - half_spread inst_ - slippage ea_ inst_) /\
     SignalEngine.get_entry_signal sqrt (signal_engine st) bar_close = Ok s /\
     RiskManager.can_open_trade (risk_mgr st) (positions st) (equity st)
       (spread_points inst_) (lots pos) (open_price pos) = Ok true /\
     stop_loss pos
     = RiskManager.get_stop_loss s
         (SignalEngine.get_kalman_level (signal_engine st))
         (sqrt (Qabs (KalmanFilter.P00 (SignalEngine.kalman (signal_engine st)))))
         (kf_conf_band ea_)).
Proof.
  unfold entry. intros H.
  apply bind_Ok in H. destruct H as (s0 & Hs0 & H).
  pose proof Hs0 as Hsig.
  apply Stages.get_entry_signal_cases in Hs0.
  set (g := gate_signal ea_ s0 (positions st) (bars_since_close st)) in *.
  destruct (negb (Signal_eqb g NONE)) eqn:Eg;
    [|injection H as <- <- <-; left; split; reflexivity].
  apply bind_Ok in H. destruct H as (err & Herr & H).
  rewrite EngineFacts.get_estimation_error_ok in Herr. injection Herr as <-.
  apply bind_Ok in H. destruct H as (sp & _ & H).
  apply bind_Ok in H. destruct H as (l & _ & H).
  destruct (Py.gtb l 0) eqn:El; [|injection H as <- <- <-; left; split; reflexivity].
  apply bind_Ok in H. destruct H as (ok & Hok & H).
  destruct ok; [|injection H as <- <- <-; left; split; reflexivity].
  injection H as <- <- <-. right. eexists. split; [reflexivity|].
  cbn [ticket entry_bar_index open_time lots type].
  split; [reflexivity|]. split; [reflexivity|]. split; [reflexivity|].
  split; [reflexivity|]. split; [apply gtb_lt, El|]. split.
  { unfold RiskManager.can_open_trade in Hok.
    destruct (Z.leb_spec (max_positions (RiskManager.ea (risk_mgr st)))
                         (Py.len (positions st))); [discriminate|lia]. }
  split.
  { subst g. unfold gate_signal in Eg.
    destruct (Z.ltb_spec (bars_since_close st) (close_cooldown ea_)); [|lia].
    rewrite andb_true_r in Eg.
    match type of Eg with
    | context [if negb (Signal_eqb ?e NONE) then _ else _] =>
        destruct (negb (Signal_eqb e NONE)) eqn:E; [discriminate|congruence]
    end. }
  pose proof (Stages.gate_signal_cases ea_ s0 (positions st) (bars_since_close st))
    as Hc.
  fold g in Hc.
  assert (Hg : g = s0).
  { destruct Hc as [Hc|Hc]; [exact Hc|]. rewrite Hc in Eg. discriminate. }
  split.
  { rewrite Hg in *. destruct Hs0 as [ -> | [ -> | -> ] ]; auto. discriminate. }
  split; [reflexivity|]. split; [reflexivity|].
  split; [rewrite Hg; exact Hsig|]. split; [exact Hok|reflexivity].
Qed.

Lemma entry_book st st' s etb :
  entry sqrt ea_ inst_ i current_date bar_close st = Ok (st', s, etb) ->
  book_ok i (i + 1) st -> book_ok (i + 1) (i + 1) st'.
Proof.
  intros H Hb. apply entry_opens in H.
  destruct H as [[-> _]|(pos & -> & _ & Htk & Hidx & _ & _ & Hn & _)].
  { eapply book_ok_mono; [| |exact Hb]; lia. }
  destruct Hb as [H1 H2 H3 H4 H5 H6 H7 H9 H8].
  constructor; cbn [open_position positions closed_trades next_ticket
                    realized_pnl risk_mgr].
  - rewrite map_app. cbn [map]. apply sorted_snoc; [exact H1|].
    rewrite Forall_map. eapply Forall_impl; [|exact H2]. cbn beta. lia.
  - apply Forall_app. split.
    + eapply Forall_impl; [|exact H2]. cbn beta. lia.
    + constructor; [unfold Py.len in H9; lia|constructor].
  - exact H3.
  - eapply Forall_impl; [|exact H4]. cbn beta. intros t (? & ? & ? & ?).
    repeat split; auto; lia.
  - intros p t Hp Ht. apply in_app_or in Hp. destruct Hp as [Hp|[<-|[]]].
    + apply H5; assumption.
    + rewrite Forall_forall in H4. specialize (H4 t Ht). lia.
  - exact H6.
  - rewrite H8 in Hn. unfold Py.len in *. rewrite length_app. cbn [List.length]. lia.
  - unfold Py.len in *. rewrite length_app. cbn [List.length]. lia.
  - exact H8.
Qed.

Lemma trail_keeps tb ts p :
  ticket (trail ea_ i tb ts p) = ticket p /\
  entry_bar_index (trail ea_ i tb ts p) = entry_bar_index p.
Proof.
  destruct (Stages.trail_tightened ea_ i tb ts p) as (H1 & _ & _ & _ & _ & H2 & _).
  split; assumption.
Qed.

Lemma trailing_stop_book a etb st st' :
  trailing_stop sqrt ea_ i etb st = Ok st' ->
  book_ok a (i + 1) st -> book_ok a (i + 1) st'.
Proof.
  unfold trailing_stop. destruct (_ && _); [|intros [= <-]; auto].
  intros H. apply bind_Ok in H. destruct H as (err & _ & [= <-]).
  set (f := trail ea_ i _ _).
  assert (Hf : forall p, ticket (f p) = ticket p /\
                         entry_bar_index (f p) = entry_bar_index p)
    by (intros p; apply trail_keeps).
  intros [H1 H2 H3 H4 H5 H6 H7 H9 H8].
  constructor; cbn [set_book positions closed_trades next_ticket
                    realized_pnl risk_mgr]; auto.
  - rewrite map_map, (map_ext (fun p => ticket (f p)) ticket)
      by (intros p; apply Hf). exact H1.
  - rewrite Forall_map. eapply Forall_impl; [|exact H2]. cbn beta.
    intros p. destruct (Hf p) as [-> ->]. auto.
  - intros p t Hp Ht. apply in_map_iff in Hp. destruct Hp as (q & <- & Hq).
    destruct (Hf q) as [-> _]. apply H5; assumption.
  - unfold Py.len in *. rewrite length_map. exact H7.
  - unfold Py.len in *. rewrite length_map. exact H9.
Qed.

End Stage.

Section Bars.
Variables sqrt ln : Q -> Q.
Variable inst_ : InstrumentConfig.
Variable data : list Bar.

Lemma begin_bar_book a b i st st1 d :
  begin_bar sqrt ln data i st = Ok (st1, d) ->
  book_ok a b st -> book_ok a b st1.
Proof.
  unfold begin_bar. intros H [H1 H2 H3 H4 H5 H6 H7 H9 H8].
  apply bind_Ok in H. destruct H as (cd & _ & H).
  destruct (day_differs _ _);
    apply bind_Ok in H; destruct H as (c & _ & H);
    apply bind_Ok in H; destruct H as (cp & _ & H);
    apply bind_Ok in H; destruct H as (se & _ & [= <- <-]);
    constructor; auto.
Qed.

Lemma end_bar_book a b d c s etb st st' :
  end_bar sqrt ea_ inst_ d c s etb st = Ok st' ->
  book_ok a b st -> book_ok a b st'.
Proof.
  unfold end_bar. intros H [H1 H2 H3 H4 H5 H6 H7 H9 H8].
  apply bind_Ok in H. destruct H as (r & _ & [= <-]). constructor; auto.
Qed.

Lemma bar_book st i st' :
  bar sqrt ln ea_ inst_ data st i = Ok st' ->
  book_ok i i st -> book_ok (i + 1) (i + 1) st'.
Proof.
  unfold bar. intros H Hb.
  apply bind_Ok in H. destruct H as ([st1 d] & H1 & H).
  apply (begin_bar_book i i) in H1; [|exact Hb].
  apply (book_ok_mono i i i (i + 1)) in H1; [|lia|lia].
  apply bind_Ok in H. destruct H as (bc & _ & H).
  apply bind_Ok in H. destruct H as (bh & _ & H).
  apply bind_Ok in H. destruct H as (bl & _ & H).
  apply bind_Ok in H. destruct H as (st2 & H2 & H).
  apply stop_loss_check_book in H2; [|exact H1].
  apply bind_Ok in H. destruct H as (st3 & H3 & H).
  apply exit_buy_book in H3; [|exact H2].
  apply bind_Ok in H. destruct H as (st4 & H4 & H).
  apply exit_sell_book in H4; [|exact H3].
  apply bind_Ok in H. destruct H as ([[st5 s] etb] & H5 & H).
  apply entry_book in H5; [|exact H4].
  apply bind_Ok in H. destruct H as (st6 & H6 & H).
  apply trailing_stop_book with (a := (i + 1)%Z) in H6; [|exact H5].
  eapply end_bar_book; eassumption.
Qed.

(** The main loop over bars [a .. b-1]. *)
Lemma trade_book b : forall n a st st',
  Z.to_nat (b - a) = n ->
  trade sqrt ln ea_ inst_ data (Py.range a b) st = Ok st' ->
  book_ok a a st -> book_ok (Z.max a b) (Z.max a b) st'.
Proof.
  unfold trade. induction n as [|n IH]; intros a st st' Hn H Hb.
  - rewrite range_empty in H by lia. injection H as <-.
    replace (Z.max a b) with a by lia. exact Hb.
  - rewrite range_cons in H by lia. cbn [foldM] in H.
    apply bind_Ok in H. destruct H as (st1 & H1 & H).
    apply bar_book in H1; [|exact Hb].
    apply IH in H; [|lia|exact H1].
    replace (Z.max a b) with (Z.max (a + 1) b) by lia. exact H.
Qed.

Lemma init_state_book se a : book_ok a a (init_state ea_ inst_ se).
Proof.
  constructor; cbn; try constructor.
  - intros p t [].
  - lia.
Qed.

(** The trade logged for a position still open after the last bar. *)
Definition end_trade (last_close : Q) (last_date : stamp) (pos : Position)
  : ClosedTrade :=
  let cp := match type pos with
            | PositionType.BUY => last_close - half_spread inst_
            | PositionType.SELL => last_close + half_spread inst_
            end in
  let pnl := match type pos with
             | PositionType.BUY =>
                 (cp - open_price pos) * lots pos * contract_size inst_
             | PositionType.SELL =>
                 (open_price pos - cp) * lots pos * contract_size inst_
             end in
  mk_closed pos last_date cp pnl "end_of_data" (n_bars data - 1).

Lemma snoc_fold {A B} (mk : A -> B) l : forall acc,
  fold_left (fun acc x => acc ++ [mk x]) l acc = acc ++ map mk l.
Proof.
  induction l as [|x l IH]; intros acc; cbn; [symmetry; apply app_nil_r|].
  rewrite IH, <- app_assoc. reflexivity.
Qed.

Lemma close_remaining_ok st cts :
  close_remaining inst_ data st = Ok cts ->
  exists c d,
    cts = closed_trades st ++ map (end_trade c d) (positions st) /\
    (positions st <> [] ->
     Py.getitem (Backtester.closes data) (-1) = Ok c /\
     Py.getitem (dates_ data) (-1) = Ok d).
Proof.
  unfold close_remaining. destruct (is_empty (positions st)) eqn:E; cbn [negb].
  - intros [= <-]. exists 0, (Label 0).
    destruct (positions st); [|discriminate]. cbn.
    split; [symmetry; apply app_nil_r|congruence].
  - intros H.
    apply bind_Ok in H. destruct H as (c & Hc & H).
    apply bind_Ok in H. destruct H as (d & Hd & [= <-]).
    exists c, d. split; [apply (snoc_fold (end_trade c d))|auto].
Qed.

(** The loop state behind a returned result. *)
Lemma run_book r :
  run sqrt ln ea_ inst_ data = Ok r ->
  exists se st c d,
    trade sqrt ln ea_ inst_ data
      (Py.range (warmup_bars ea_ data) (n_bars data)) (init_state ea_ inst_ se)
    = Ok st /\
    book_ok (n_bars data) (n_bars data) st /\
    trades r = closed_trades st ++ map (end_trade c d) (positions st) /\
    (positions st <> [] -> Py.getitem (Backtester.closes data) (-1) = Ok c) /\
    equity_curve r = equity_curve (result_ st) /\
    signals r = signals (result_ st).
Proof.
  unfold run. intros H.
  apply bind_Ok in H. destruct H as (se & _ & H).
  apply bind_Ok in H. destruct H as (st & Ht & H).
  apply bind_Ok in H. destruct H as (cts & Hc & [= <-]).
  pose proof Ht as Hb.
  apply (trade_book (n_bars data) _ _ _ _ eq_refl) in Hb;
    [|apply init_state_book].
  replace (Z.max (warmup_bars ea_ data) (n_bars data)) with (n_bars data) in Hb
    by (unfold warmup_bars; lia).
  apply close_remaining_ok in Hc. destruct Hc as (c & d & -> & Hcd).
  exists se, st, c, d. cbn.
  split; [exact Ht|]. split; [exact Hb|]. split; [reflexivity|].
  split; [intros Hp; apply Hcd, Hp|]. split; reflexivity.
Qed.

(** Closing what is still open completes the log: each ticket once, and
    the tickets are exactly [1 .. len]. *)
Lemma final_log a b st mk :
  book_ok a b st ->
  (forall p, ct_ticket (mk p) = ticket p) ->
  let log := closed_trades st ++ map mk (positions st) in
  NoDup (map ct_ticket log) /\
  Py.len log = (next_ticket st - 1)%Z /\
  forall t, In t log -> (1 <= ct_ticket t <= Py.len log)%Z.
Proof.
  intros [H1 H2 H3 H4 H5 H6 H7 H9 H8] Hmk log. subst log.
  assert (Hlen : Py.len (closed_trades st ++ map mk (positions st))
                 = (next_ticket st - 1)%Z).
  { unfold Py.len in *. rewrite length_app, length_map. lia. }
  split; [|split; [exact Hlen|]].
  - rewrite map_app, map_map, (map_ext (fun p => ct_ticket (mk p)) ticket)
      by exact Hmk.
    apply NoDup_app; [exact H3|apply sorted_NoDup, H1|].
    intros k Hk Hk'. apply in_map_iff in Hk, Hk'.
    destruct Hk as (t & <- & Ht), Hk' as (p & E & Hp).
    apply (H5 p t Hp Ht E).
  - rewrite Hlen. rewrite Forall_forall in H2, H4.
    intros t Ht. apply in_app_or in Ht. destruct Ht as [Ht|Ht].
    + specialize (H4 t Ht). lia.
    + apply in_map_iff in Ht. destruct Ht as (p & <- & Hp).
      rewrite Hmk. specialize (H2 p Hp). lia.
Qed.

End Bars.

End Book.

End Ledger.

(** ** Equity accounting *)

Module Accounting.
Import Backtester.

Section Bars.
Variables sqrt ln : Q -> Q.
Variable ea_ : EAConfig.
Variable inst_ : InstrumentConfig.
Variable data : list Bar.

(** The equity a bar leaves behind and records is the initial equity plus
    the realized profit plus the open positions marked at the bar's
    close. *)
Lemma bar_equity st i st' :
  bar sqrt ln ea_ inst_ data st i = Ok st' ->
  exists c,
    Py.getitem (closes data) i = Ok c /\
    equity st' = initial_equity ea_ + realized_pnl st'
                 + unrealized_of inst_ c (positions st') /\
    equity_curve (result_ st') = equity_curve (result_ st) ++ [equity st'].
Proof.
  unfold bar. intros H.
  apply bind_Ok in H. destruct H as ([st1 d] & H1 & H).
  assert (R1 : result_ st1 = result_ st).
  { unfold begin_bar in H1.
    apply bind_Ok in H1. destruct H1 as (cd & _ & H1).
    destruct (day_differs _ _);
      apply bind_Ok in H1; destruct H1 as (c & _ & H1);
      apply bind_Ok in H1; destruct H1 as (cp & _ & H1);
      apply bind_Ok in H1; destruct H1 as (se & _ & [= <- <-]); reflexivity. }
  apply bind_Ok in H. destruct H as (bc & Hbc & H). exists bc.
  split; [exact Hbc|].
  apply bind_Ok in H. destruct H as (bh & _ & H).
  apply bind_Ok in H. destruct H as (bl & _ & H).
  apply bind_Ok in H. destruct H as (st2 & H2 & H).
  rewrite StopLoss.stop_loss_check_ok in H2. injection H2 as <-.
  apply bind_Ok in H. destruct H as (st3 & H3 & H).
  rewrite ExitExact.exit_buy_ok in H3. injection H3 as <-.
  apply bind_Ok in H. destruct H as (st4 & H4 & H).
  rewrite ExitExact.exit_sell_ok in H4. injection H4 as <-.
  apply bind_Ok in H. destruct H as ([[st5 s] etb] & H5 & H).
  apply bind_Ok in H. destruct H as (st6 & H6 & H).
  match type of H5 with entry _ _ _ _ _ _ ?s4 = _ =>
    assert (R5 : result_ st5 = result_ st1);
    [apply Ledger.entry_opens in H5;
     destruct H5 as [[-> _]|(pos & -> & _)]; cbn [open_position result_];
     repeat (match goal with |- context [if ?b then _ else _] => destruct b end;
             cbn [set_book result_]); reflexivity|]
  end.
  assert (R6 : result_ st6 = result_ st5).
  { destruct (RunFacts.trailing_stop_total sqrt ea_ i etb st5)
      as (x & Hx & _ & _ & _ & R6).
    rewrite Hx in H6. injection H6 as <-. exact R6. }
  unfold end_bar, record in H.
  apply bind_Ok in H. destruct H as (r & Hr & [= <-]).
  apply bind_Ok in Hr. destruct Hr as (u & _ & Hr).
  apply bind_Ok in Hr. destruct Hr as (l & _ & [= <-]).
  cbn. split; [reflexivity|]. rewrite R6, R5, R1. reflexivity.
Qed.

(** After the loop over bars [a .. b-1], at least one of them. *)
Lemma trade_equity b : forall n a st st',
  Z.to_nat (b - a) = S n ->
  trade sqrt ln ea_ inst_ data (Py.range a b) st = Ok st' ->
  exists c,
    Py.getitem (closes data) (b - 1) = Ok c /\
    equity st' = initial_equity ea_ + realized_pnl st'
                 + unrealized_of inst_ c (positions st') /\
    last (equity_curve (result_ st')) 0 = equity st'.
Proof.
  unfold trade. induction n as [|n IH]; intros a st st' Hn H;
    rewrite range_cons in H by lia; cbn [foldM] in H;
    apply bind_Ok in H; destruct H as (st1 & H1 & H).
  - rewrite range_empty in H by lia. injection H as <-.
    apply bar_equity in H1. destruct H1 as (c & Hc & He & Hr).
    exists c. replace (b - 1)%Z with a by lia.
    split; [exact Hc|]. split; [exact He|]. rewrite Hr. apply last_last.
  - apply (IH (a + 1)%Z st1 st'); [lia|exact H].
Qed.

Lemma getitem_minus_1 {A} (l : list A) x :
  Py.getitem l (Py.len l - 1) = Ok x -> Py.getitem l (-1) = Ok x.
Proof.
  unfold Py.getitem, Py.norm_index, Py.len.
  destruct l as [|a l]; [cbn; discriminate|].
  set (n := Z.of_nat (List.length (a :: l))).
  assert (Hn : (1 <= n)%Z) by (subst n; cbn [List.length]; lia).
  replace ((0 <=? n - 1)%Z && (n - 1 <? n)%Z) with true
    by (symmetry; apply andb_true_iff; split; [apply Z.leb_le|apply Z.ltb_lt]; lia).
  replace ((0 <=? -1)%Z && (-1 <? n)%Z) with false by reflexivity.
  replace ((-1 <? 0)%Z && (- n <=? -1)%Z) with true
    by (symmetry; apply andb_true_iff; split; [reflexivity|apply Z.leb_le; lia]).
  replace (Z.to_nat (n + -1)) with (Z.to_nat (n - 1)) by lia. auto.
Qed.

End Bars.

End Accounting.

(** ** A configuration the loop can run on *)

(** In exact arithmetic, where no quotient underflows and the filter's
    covariance stays positive semi-definite, the run returns; this is used
    to exhibit runs, not to claim that the program never raises. *)
Lemma run_returns (sqrt ln : Q -> Q) (ea_ : EAConfig) (inst_ : InstrumentConfig)
    (data : list Backtester.Bar) :
  (1 <= hurst_period ea_)%Z -> (1 <= vol_period ea_)%Z ->
  (1 <= vol_hist_period ea_)%Z ->
  0 <= kf_process_noise ea_ -> 0 < kf_observ_noise ea_ ->
  (leverage ea_ <> 0)%Z -> ~ point inst_ == 0 ->
  (2 <= Backtester.n_bars data)%Z ->
  exists r, Backtester.run sqrt ln ea_ inst_ data = Ok r.
Proof.
  intros Hh Hv Hvh Hq Hr Hl Hp Hn.
  pose proof (WarmupFacts.warmup_bars_bound ea_ data) as Hwb.
  assert (Hw : (1 <= Backtester.warmup_bars ea_ data)%Z)
    by (unfold Backtester.warmup_bars; lia).
  unfold Backtester.run.
  rewrite WarmupFacts.warmup_as_feed by lia.
  destruct (WarmupFacts.feed_total sqrt ln
              (RunFacts.warmup_calls (Backtester.closes data)
                 (Backtester.warmup_bars ea_ data))
              (Backtester.init_engine ea_)) as (se & -> & Hse).
  { apply EngineFacts.init_engine_ok; assumption. }
  cbn [bind].
  destruct (RunFacts.trade_total sqrt ln ea_ inst_ data Hp
              (Py.range (Backtester.warmup_bars ea_ data) (Backtester.n_bars data))
              (Backtester.init_state ea_ inst_ se) 0)
    as (st & -> & _ & Hrows).
  { intros i Hi. apply range_In in Hi. lia. }
  { split; [exact Hse|exact Hl]. }
  { repeat split. }
  cbn [bind].
  destruct (WarmupFacts.close_remaining_total inst_ data st) as (cts & ->); [lia|].
  cbn [bind]. eauto.
Qed.

(** ** What the loop guarantees about its books *)

(** A loop state holding one long opened on bar 1 with its stop at 1.0970,
    inside the range of the seven bars. *)
Definition long_1_0970 : Position := {|
  ticket := 1; type := PositionType.BUY; open_time := Timestamp 19000 1;
  open_price := 11000 # 10000; lots := 1 # 10;
  stop_loss := 10970 # 10000; entry_bar_index := 1
|}.

Definition holding_stopped : Backtester.state :=
  Backtester.open_position
    (Backtester.init_state default_EAConfig EURUSD
       (Backtester.init_engine default_EAConfig))
    long_1_0970.

Lemma one_position_book (pos : Position) (a : Z) :
  ticket pos = 1%Z -> (entry_bar_index pos < a)%Z ->
  Ledger.book_ok default_EAConfig a a
    (Backtester.open_position
       (Backtester.init_state default_EAConfig EURUSD
          (Backtester.init_engine default_EAConfig)) pos).
Proof.
  intros Ht Hi. constructor; cbn.
  - repeat constructor.
  - repeat constructor; lia.
  - constructor.
  - constructor.
  - intros p t _ [].
  - reflexivity.
  - lia.
  - reflexivity.
  - reflexivity.
Qed.

(** X1.  The books of the trading loop stay consistent.  Starting from the
    initial state, or from any consistent state, every bar and every run of
    consecutive bars keeps: the open positions' tickets strictly
    increasing, at least 1 and below the next ticket; the trade log free of
    duplicate tickets and of tickets still open; every logged trade closed
    on a later bar than it was opened; the realized profit equal to the sum
    of the logged profits; open plus logged trades equal to the tickets
    handed out; and no more than [max_positions] positions open. *)
Theorem loop_keeps_ledger (sqrt ln : Q -> Q) (ea_ : EAConfig)
    (inst_ : InstrumentConfig) (data : list Backtester.Bar) :
  (forall se a, Ledger.book_ok ea_ a a (Backtester.init_state ea_ inst_ se)) /\
  (forall st i st',
     Backtester.bar sqrt ln ea_ inst_ data st i = Ok st' ->
     Ledger.book_ok ea_ i i st -> Ledger.book_ok ea_ (i + 1) (i + 1) st') /\
  (forall a b st st',
     Backtester.trade sqrt ln ea_ inst_ data (Py.range a b) st = Ok st' ->
     Ledger.book_ok ea_ a a st ->
     Ledger.book_ok ea_ (Z.max a b) (Z.max a b) st').
Proof.
  split; [intros se a; apply Ledger.init_state_book|].
  split; [intros st i st'; apply Ledger.bar_book|].
  intros a b st st' H Hb.
  eapply Ledger.trade_book; [reflexivity|exact H|exact Hb].
Qed.

Lemma loop_keeps_ledger_witness :
  Ledger.book_ok default_EAConfig 6 6 holding_stopped /\
  exists st',
    Backtester.trade sqrt6 ln5 default_EAConfig EURUSD seven_bars
      (Py.range 6 7) holding_stopped = Ok st' /\
    Backtester.positions st' = [] /\
    map ct_ticket (Backtester.closed_trades st') = [1%Z] /\
    Ledger.book_ok default_EAConfig 7 7 st'.
Proof.
  assert (Hb : Ledger.book_ok default_EAConfig 6 6 holding_stopped)
    by (apply one_position_book; [reflexivity|cbn; lia]).
  split; [exact Hb|].
  eexists. split; [vm_compute; reflexivity|].
  split; [reflexivity|]. split; [reflexivity|].
  destruct (loop_keeps_ledger sqrt6 ln5 default_EAConfig EURUSD seven_bars)
    as (_ & _ & H).
  apply (H 6%Z 7%Z holding_stopped); [vm_compute; reflexivity|exact Hb].
Defined.

(** X2.  Every position ever opened ends up in the returned trade log
    exactly once: the tickets of the log are pairwise distinct and are
    exactly the numbers 1 .. len(trades).  This holds for the log that
    [close_remaining] completes after the loop has run to the last bar from
    any consistent state, and so for the result of [run]. *)
Theorem trade_log_tickets (sqrt ln : Q -> Q) (ea_ : EAConfig)
    (inst_ : InstrumentConfig) (data : list Backtester.Bar) :
  (forall a st st' cts,
     Ledger.book_ok ea_ a a st ->
     Backtester.trade sqrt ln ea_ inst_ data
       (Py.range a (Backtester.n_bars data)) st = Ok st' ->
     Backtester.close_remaining inst_ data st' = Ok cts ->
     NoDup (map ct_ticket cts) /\
     forall t, In t cts -> (1 <= ct_ticket t <= Py.len cts)%Z) /\
  (forall r,
     Backtester.run sqrt ln ea_ inst_ data = Ok r ->
     NoDup (map ct_ticket (Backtester.trades r)) /\
     forall t, In t (Backtester.trades r) ->
               (1 <= ct_ticket t <= Py.len (Backtester.trades r))%Z).
Proof.
  split.
  - intros a st st' cts Hb Ht Hc.
    apply (Ledger.trade_book ea_ sqrt ln inst_ data _ _ _ _ _ eq_refl) in Ht;
      [|exact Hb].
    apply Ledger.close_remaining_ok in Hc. destruct Hc as (c & d & -> & _).
    destruct (Ledger.final_log ea_ _ _ st' (Ledger.end_trade inst_ data c d) Ht)
      as (H1 & _ & H2); [reflexivity|]. split; assumption.
  - intros r H. apply Ledger.run_book in H.
    destruct H as (se & st & c & d & _ & Hb & -> & _).
    destruct (Ledger.final_log ea_ _ _ st (Ledger.end_trade inst_ data c d) Hb)
      as (H1 & _ & H2); [reflexivity|]. split; assumption.
Qed.

Lemma trade_log_tickets_witness :
  Ledger.book_ok default_EAConfig 6 6 holding_long /\
  exists st' cts,
    Backtester.trade sqrt6 ln5 default_EAConfig EURUSD seven_bars
      (Py.range 6 (Backtester.n_bars seven_bars)) holding_long = Ok st' /\
    Backtester.close_remaining EURUSD seven_bars st' = Ok cts /\
    map ct_ticket cts = [1%Z] /\
    NoDup (map ct_ticket cts).
Proof.
  assert (Hb : Ledger.book_ok default_EAConfig 6 6 holding_long)
    by (apply one_position_book; [reflexivity|cbn; lia]).
  split; [exact Hb|].
  eexists. eexists. split; [vm_compute; reflexivity|].
  split; [vm_compute; reflexivity|]. split; [reflexivity|].
  destruct (trade_log_tickets sqrt6 ln5 default_EAConfig EURUSD seven_bars)
    as (H & _).
  refine (proj1 (H 6%Z holding_long _ _ Hb _ _)); vm_compute; reflexivity.
Defined.

(** X3.  Bar indices in the trade log.  A trade closed by a stop or a
    signal exits on a bar strictly after its entry bar: no position is
    stopped out or signalled out on the bar that opened it.  A trade with
    reason ["end_of_data"] exits on the last bar, [n_bars - 1], which may be
    its entry bar.  No exit index lies beyond the last bar. *)
Theorem trade_log_bar_indices (sqrt ln : Q -> Q) (ea_ : EAConfig)
    (inst_ : InstrumentConfig) (data : list Backtester.Bar) :
  let n := Backtester.n_bars data in
  let dated (t : ClosedTrade) :=
    ((ct_entry_bar_index t < exit_bar_index t < n)%Z /\
     close_reason t <> "end_of_data"%string) \/
    ((ct_entry_bar_index t <= exit_bar_index t)%Z /\
     exit_bar_index t = (n - 1)%Z /\
     close_reason t = "end_of_data"%string) in
  (forall a st st' cts,
     Ledger.book_ok ea_ a a st -> (a <= n)%Z ->
     Backtester.trade sqrt ln ea_ inst_ data (Py.range a n) st = Ok st' ->
     Backtester.close_remaining inst_ data st' = Ok cts ->
     forall t, In t cts -> dated t) /\
  (forall r,
     Backtester.run sqrt ln ea_ inst_ data = Ok r ->
     forall t, In t (Backtester.trades r) -> dated t).
Proof.
  cbv zeta.
  assert (Hlog : forall st c d t,
            Ledger.book_ok ea_ (Backtester.n_bars data) (Backtester.n_bars data) st ->
            In t (Backtester.closed_trades st
                  ++ map (Ledger.end_trade inst_ data c d) (Backtester.positions st)) ->
            ((ct_entry_bar_index t < exit_bar_index t < Backtester.n_bars data)%Z /\
             close_reason t <> "end_of_data"%string) \/
            ((ct_entry_bar_index t <= exit_bar_index t)%Z /\
             exit_bar_index t = (Backtester.n_bars data - 1)%Z /\
             close_reason t = "end_of_data"%string)).
  { intros st c d t [_ H2 _ H4 _ _ _ _ _] Ht.
    rewrite Forall_forall in H2, H4.
    apply in_app_or in Ht. destruct Ht as [Ht|Ht].
    - left. destruct (H4 t Ht) as (_ & ? & ? & ?). repeat split; auto.
    - right. apply in_map_iff in Ht. destruct Ht as (p & <- & Hp).
      destruct (H2 p Hp) as [_ ?]. cbn. repeat split; auto. lia. }
  split.
  - intros a st st' cts Hb Ha Ht Hc.
    apply (Ledger.trade_book ea_ sqrt ln inst_ data _ _ _ _ _ eq_refl) in Ht;
      [|exact Hb].
    replace (Z.max a (Backtester.n_bars data)) with (Backtester.n_bars data) in Ht
      by lia.
    apply Ledger.close_remaining_ok in Hc. destruct Hc as (c & d & -> & _).
    intros t. apply Hlog, Ht.
  - intros r H. apply Ledger.run_book in H.
    destruct H as (se & st & c & d & _ & Hb & -> & _).
    intros t. apply Hlog, Hb.
Qed.

Lemma trade_log_bar_indices_witness :
  Ledger.book_ok default_EAConfig 6 6 holding_stopped /\
  (6 <= Backtester.n_bars seven_bars)%Z /\
  exists st' cts,
    Backtester.trade sqrt6 ln5 default_EAConfig EURUSD seven_bars
      (Py.range 6 (Backtester.n_bars seven_bars)) holding_stopped = Ok st' /\
    Backtester.close_remaining EURUSD seven_bars st' = Ok cts /\
    map (fun t => (ct_entry_bar_index t, exit_bar_index t, close_reason t)) cts
    = [(1%Z, 6%Z, "stop_loss"%string)] /\
    forall t, In t cts -> (ct_entry_bar_index t <= exit_bar_index t)%Z.
Proof.
  assert (Hb : Ledger.book_ok default_EAConfig 6 6 holding_stopped)
    by (apply one_position_book; [reflexivity|cbn; lia]).
  assert (Hn : (6 <= Backtester.n_bars seven_bars)%Z) by (vm_compute; discriminate).
  split; [exact Hb|]. split; [exact Hn|].
  eexists. eexists. split; [vm_compute; reflexivity|].
  split; [vm_compute; reflexivity|]. split; [reflexivity|].
  destruct (trade_log_bar_indices sqrt6 ln5 default_EAConfig EURUSD seven_bars)
    as (H & _).
  intros t Ht.
  destruct (H 6%Z holding_stopped _ _ Hb Hn
              ltac:(vm_compute; reflexivity) ltac:(vm_compute; reflexivity) t Ht)
    as [[? _]|[? _]]; lia.
Defined.

(** X4.  The equity of a bar.  After a bar of the loop from a consistent
    state, the account equity is the initial equity plus the profits of all
    trades logged so far plus the open positions marked at the bar's close;
    that value is what the bar appends to the equity curve. *)
Theorem bar_equity_identity (sqrt ln : Q -> Q) (ea_ : EAConfig)
    (inst_ : InstrumentConfig) (data : list Backtester.Bar)
    (st : Backtester.state) (i : Z) (st' : Backtester.state) :
  Backtester.bar sqrt ln ea_ inst_ data st i = Ok st' ->
  Ledger.book_ok ea_ i i st ->
  exists c,
    Py.getitem (Backtester.closes data) i = Ok c /\
    Backtester.equity st'
    = initial_equity ea_
      + fold_left (fun a t => a + profit t) (Backtester.closed_trades st') 0
      + Backtester.unrealized_of inst_ c (Backtester.positions st') /\
    Backtester.equity_curve (Backtester.result_ st')
    = Backtester.equity_curve (Backtester.result_ st) ++ [Backtester.equity st'].
Proof.
  intros H Hb.
  destruct (Accounting.bar_equity sqrt ln ea_ inst_ data st i st' H)
    as (c & Hc & He & Hr).
  apply Ledger.bar_book in H; [|exact Hb].
  destruct H as [_ _ _ _ _ H6 _ _ _].
  exists c. rewrite <- H6. auto.
Qed.

Lemma bar_equity_identity_witness :
  exists st',
    Backtester.bar sqrt6 ln5 default_EAConfig EURUSD seven_bars holding_stopped 6
    = Ok st' /\
    Ledger.book_ok default_EAConfig 6 6 holding_stopped /\
    map (fun t => Qred (profit t)) (Backtester.closed_trades st') = [(-30) # 1] /\
    Backtester.equity st' == 9970 /\
    Backtester.equity_curve (Backtester.result_ st') = [Backtester.equity st'].
Proof.
  assert (Hb : Ledger.book_ok default_EAConfig 6 6 holding_stopped)
    by (apply one_position_book; [reflexivity|cbn; lia]).
  eexists. split; [vm_compute; reflexivity|]. split; [exact Hb|].
  split; [vm_compute; reflexivity|]. split; [vm_compute; reflexivity|].
  destruct (bar_equity_identity sqrt6 ln5 default_EAConfig EURUSD seven_bars
              holding_stopped 6 _ ltac:(vm_compute; reflexivity) Hb)
    as (c & _ & _ & Hr).
  exact Hr.
Defined.

(** X5.  The equity curve against the trade log.  The last equity the loop
    records is the initial equity plus the realized profit plus the open
    positions marked at the last close, and the realized profit is the
    sum, in order, of the profits of the trades logged during the loop,
    none of which has reason ["end_of_data"].  The completed log is that
    log followed by one trade per position still open, in order, with
    reason ["end_of_data"], closed at the last close minus half the spread
    (a long) or plus half the spread (a short), with the profit computed at
    that price: so the last equity and the log value the positions left
    open at different prices, the close against bid or ask. *)
Theorem final_equity_marks_at_close (sqrt ln : Q -> Q) (ea_ : EAConfig)
    (inst_ : InstrumentConfig) (data : list Backtester.Bar) :
  let closed_out (st' : Backtester.state) (curve : list Q)
                 (log : list ClosedTrade) :=
    exists c (end_trade : Position -> ClosedTrade),
      Py.getitem (Backtester.closes data) (Backtester.n_bars data - 1) = Ok c /\
      last curve 0
      = initial_equity ea_ + Backtester.realized_pnl st'
        + Backtester.unrealized_of inst_ c (Backtester.positions st') /\
      Backtester.realized_pnl st'
      = fold_left (fun x t => x + profit t) (Backtester.closed_trades st') 0 /\
      Forall (fun t => close_reason t <> "end_of_data"%string)
             (Backtester.closed_trades st') /\
      log = Backtester.closed_trades st'
            ++ map end_trade (Backtester.positions st') /\
      forall pos,
        ct_ticket (end_trade pos) = ticket pos /\
        ct_type (end_trade pos) = type pos /\
        ct_open_price (end_trade pos) = open_price pos /\
        ct_lots (end_trade pos) = lots pos /\
        close_reason (end_trade pos) = "end_of_data"%string /\
        exit_bar_index (end_trade pos) = (Backtester.n_bars data - 1)%Z /\
        match type pos with
        | PositionType.BUY =>
            close_price (end_trade pos) = c - Backtester.half_spread inst_ /\
            profit (end_trade pos)
            = (c - Backtester.half_spread inst_ - open_price pos)
              * lots pos * contract_size inst_
        | PositionType.SELL =>
            close_price (end_trade pos) = c + Backtester.half_spread inst_ /\
            profit (end_trade pos)
            = (open_price pos - (c + Backtester.half_spread inst_))
              * lots pos * contract_size inst_
        end in
  (forall a st st' cts,
     Ledger.book_ok ea_ a a st -> (a < Backtester.n_bars data)%Z ->
     Backtester.trade sqrt ln ea_ inst_ data
       (Py.range a (Backtester.n_bars data)) st = Ok st' ->
     Backtester.close_remaining inst_ data st' = Ok cts ->
     closed_out st' (Backtester.equity_curve (Backtester.result_ st')) cts) /\
  (forall r,
     Backtester.run sqrt ln ea_ inst_ data = Ok r ->
     exists st',
       closed_out st' (Backtester.equity_curve r) (Backtester.trades r)).
Proof.
  cbv zeta.
  assert (Hgen : forall a st st' cts,
     Ledger.book_ok ea_ a a st -> (a < Backtester.n_bars data)%Z ->
     Backtester.trade sqrt ln ea_ inst_ data
       (Py.range a (Backtester.n_bars data)) st = Ok st' ->
     Backtester.close_remaining inst_ data st' = Ok cts ->
     exists c (end_trade : Position -> ClosedTrade),
      Py.getitem (Backtester.closes data) (Backtester.n_bars data - 1) = Ok c /\
      last (Backtester.equity_curve (Backtester.result_ st')) 0
      = initial_equity ea_ + Backtester.realized_pnl st'
        + Backtester.unrealized_of inst_ c (Backtester.positions st') /\
      Backtester.realized_pnl st'
      = fold_left (fun x t => x + profit t) (Backtester.closed_trades st') 0 /\
      Forall (fun t => close_reason t <> "end_of_data"%string)
             (Backtester.closed_trades st') /\
      cts = Backtester.closed_trades st'
            ++ map end_trade (Backtester.positions st') /\
      forall pos,
        ct_ticket (end_trade pos) = ticket pos /\
        ct_type (end_trade pos) = type pos /\
        ct_open_price (end_trade pos) = open_price pos /\
        ct_lots (end_trade pos) = lots pos /\
        close_reason (end_trade pos) = "end_of_data"%string /\
        exit_bar_index (end_trade pos) = (Backtester.n_bars data - 1)%Z /\
        match type pos with
        | PositionType.BUY =>
            close_price (end_trade pos) = c - Backtester.half_spread inst_ /\
            profit (end_trade pos)
            = (c - Backtester.half_spread inst_ - open_price pos)
              * lots pos * contract_size inst_
        | PositionType.SELL =>
            close_price (end_trade pos) = c + Backtester.half_spread inst_ /\
            profit (end_trade pos)
            = (open_price pos - (c + Backtester.half_spread inst_))
              * lots pos * contract_size inst_
        end).
  { intros a st st' cts Hb Ha Ht Hc.
    destruct (Accounting.trade_equity sqrt ln ea_ inst_ data
                (Backtester.n_bars data)
                (Z.to_nat (Backtester.n_bars data - a) - 1) a st st')
      as (c & Hcl & He & Hl); [lia|exact Ht|].
    apply (Ledger.trade_book ea_ sqrt ln inst_ data (Backtester.n_bars data)
             _ _ _ _ eq_refl) in Ht; [|exact Hb].
    destruct Ht as [_ _ _ H4 _ H6 _ _ _].
    apply Ledger.close_remaining_ok in Hc. destruct Hc as (c' & d & -> & Hcd).
    exists c, (Ledger.end_trade inst_ data c d).
    split; [exact Hcl|]. split; [rewrite Hl; exact He|]. split; [exact H6|].
    split; [eapply Forall_impl; [|exact H4]; cbn beta; tauto|].
    split.
    - destruct (Backtester.positions st') as [|p ps] eqn:Ep; [reflexivity|].
      destruct Hcd as [Hc' _]; [discriminate|].
      apply Accounting.getitem_minus_1 in Hcl. unfold Backtester.n_bars in Hc'.
      rewrite Hcl in Hc'. injection Hc' as <-. reflexivity.
    - intros pos. unfold Ledger.end_trade. cbn.
      destruct (type pos); repeat split; reflexivity. }
  split; [exact Hgen|].
  intros r H. unfold Backtester.run in H.
  apply bind_Ok in H. destruct H as (se & _ & H).
  apply bind_Ok in H. destruct H as (st & Ht & H).
  apply bind_Ok in H. destruct H as (cts & Hc & [= <-]).
  exists st.
  cbn [Backtester.set_trades Backtester.equity_curve Backtester.trades].
  eapply Hgen; [| |exact Ht|exact Hc].
  - apply Ledger.init_state_book.
  - unfold Backtester.warmup_bars. lia.
Qed.

Lemma final_equity_marks_at_close_witness :
  Ledger.book_ok default_EAConfig 6 6 holding_long /\
  (6 < Backtester.n_bars seven_bars)%Z /\
  exists st' cts,
    Backtester.trade sqrt6 ln5 default_EAConfig EURUSD seven_bars
      (Py.range 6 (Backtester.n_bars seven_bars)) holding_long = Ok st' /\
    Backtester.close_remaining EURUSD seven_bars st' = Ok cts /\
    map (fun t => Qred (profit t)) cts = [(-3) # 4] /\
    map close_reason cts = ["end_of_data"%string] /\
    Qred (last (Backtester.equity_curve (Backtester.result_ st')) 0) = 10000 /\
    last (Backtester.equity_curve (Backtester.result_ st')) 0
    = initial_equity default_EAConfig + Backtester.realized_pnl st'
      + Backtester.unrealized_of EURUSD (11000 # 10000) (Backtester.positions st').
Proof.
  assert (Hb : Ledger.book_ok default_EAConfig 6 6 holding_long)
    by (apply one_position_book; [reflexivity|cbn; lia]).
  assert (Hn : (6 < Backtester.n_bars seven_bars)%Z) by (vm_compute; reflexivity).
  split; [exact Hb|]. split; [exact Hn|].
  set (st' := match Backtester.trade sqrt6 ln5 default_EAConfig EURUSD seven_bars
                      (Py.range 6 (Backtester.n_bars seven_bars)) holding_long with
              | Ok s => s
              | Raise _ => holding_long
              end).
  set (cts := match Backtester.close_remaining EURUSD seven_bars st' with
              | Ok l => l
              | Raise _ => []
              end).
  assert (Ht : Backtester.trade sqrt6 ln5 default_EAConfig EURUSD seven_bars
                 (Py.range 6 (Backtester.n_bars seven_bars)) holding_long = Ok st')
    by (vm_compute; reflexivity).
  assert (Hc : Backtester.close_remaining EURUSD seven_bars st' = Ok cts)
    by (vm_compute; reflexivity).
  exists st', cts. split; [exact Ht|]. split; [exact Hc|].
  split; [vm_compute; reflexivity|]. split; [vm_compute; reflexivity|].
  split; [vm_compute; reflexivity|].
  destruct (final_equity_marks_at_close sqrt6 ln5 default_EAConfig EURUSD seven_bars)
    as (H & _).
  destruct (H 6%Z holding_long st' cts Hb Hn Ht Hc) as (c & mk & Hcl & He & _).
  assert (Ec : c = 11000 # 10000).
  { vm_compute in Hcl. injection Hcl as <-. reflexivity. }
  rewrite <- Ec. exact He.
Defined.

(** ** Signal exits and entries *)

(** An engine whose filter reads [level] and [slope] with variance
    [variance], and whose trend-strength estimator has seen twenty returns
    and reads [h]. *)
Definition engine_reading (level slope variance h : Q) : SignalEngine.t :=
  let se := Backtester.init_engine default_EAConfig in
  {| SignalEngine.kalman :=
       KalmanFilter.commit (SignalEngine.kalman se) level slope
                           variance 0 0 variance;
     SignalEngine.hurst :=
       {| HurstExponent.period := 200;
          HurstExponent.returns := Py.replicate 0 200;
          HurstExponent.head := 0; HurstExponent.count := 20;
          HurstExponent.hurst := h |};
     SignalEngine.vol_regime := SignalEngine.vol_regime se;
     SignalEngine.conf_band := SignalEngine.conf_band se;
     SignalEngine.hurst_threshold := SignalEngine.hurst_threshold se;
     SignalEngine.hurst_exit_threshold := SignalEngine.hurst_exit_threshold se |}.

(** A loop state around that engine. *)
Definition state_reading (se : SignalEngine.t) (ps : list Position)
    (next bsc : Z) : Backtester.state := {|
  Backtester.signal_engine := se;
  Backtester.risk_mgr := RiskManager.new default_EAConfig EURUSD;
  Backtester.equity := initial_equity default_EAConfig;
  Backtester.realized_pnl := 0;
  Backtester.positions := ps;
  Backtester.closed_trades := [];
  Backtester.next_ticket := next;
  Backtester.bars_since_close := bsc;
  Backtester.last_day := None;
  Backtester.result_ := Backtester.empty_result
|}.

Definition long_2_0500 : Position := {|
  ticket := 2; type := PositionType.BUY; open_time := Timestamp 19000 4;
  open_price := 11000 # 10000; lots := 1 # 10;
  stop_loss := 10500 # 10000; entry_bar_index := 4
|}.

(** X6.  The signal exits never raise and close exactly the positions that
    are due.  When a long is open and the engine says to close longs, every
    long held for at least [min_hold_bars] bars leaves the open positions
    and is logged at the bid, [close - half_spread], with reason
    ["signal"] and profit [(bid - open) * lots * contract_size]; all other
    positions stay, in order; and the bars-since-close counter is set to 0
    even when no long was old enough to be closed.  Otherwise nothing
    changes.  The same holds for shorts, at the ask. *)
Theorem signal_exit_exact (ea_ : EAConfig) (inst_ : InstrumentConfig) (i : Z)
    (current_date : stamp) (bar_close : Q) (st : Backtester.state) :
  let old_enough p := (min_hold_bars ea_ <=? i - entry_bar_index p)%Z in
  let bid := bar_close - Backtester.half_spread inst_ in
  let ask := bar_close + Backtester.half_spread inst_ in
  let long_due p := PositionType.eqb (type p) PositionType.BUY && old_enough p in
  let short_due p := PositionType.eqb (type p) PositionType.SELL && old_enough p in
  let long_trade p :=
    Backtester.mk_closed p current_date bid
      ((bid - open_price p) * lots p * contract_size inst_) "signal" i in
  let short_trade p :=
    Backtester.mk_closed p current_date ask
      ((open_price p - ask) * lots p * contract_size inst_) "signal" i in
  (exists st',
     Backtester.exit_buy ea_ inst_ i current_date bar_close st = Ok st' /\
     if Backtester.any_type PositionType.BUY (Backtester.positions st)
        && SignalEngine.should_close_buy (Backtester.signal_engine st)
     then
       Backtester.positions st'
       = filter (fun p => negb (long_due p)) (Backtester.positions st) /\
       Backtester.closed_trades st'
       = Backtester.closed_trades st
         ++ map long_trade (filter long_due (Backtester.positions st)) /\
       Backtester.realized_pnl st'
       = fold_left (fun a p => a + profit (long_trade p))
                   (filter long_due (Backtester.positions st))
                   (Backtester.realized_pnl st) /\
       Backtester.bars_since_close st' = 0%Z
     else st' = st) /\
  (exists st',
     Backtester.exit_sell ea_ inst_ i current_date bar_close st = Ok st' /\
     if Backtester.any_type PositionType.SELL (Backtester.positions st)
        && SignalEngine.should_close_sell (Backtester.signal_engine st)
     then
       Backtester.positions st'
       = filter (fun p => negb (short_due p)) (Backtester.positions st) /\
       Backtester.closed_trades st'
       = Backtester.closed_trades st
         ++ map short_trade (filter short_due (Backtester.positions st)) /\
       Backtester.realized_pnl st'
       = fold_left (fun a p => a + profit (short_trade p))
                   (filter short_due (Backtester.positions st))
                   (Backtester.realized_pnl st) /\
       Backtester.bars_since_close st' = 0%Z
     else st' = st).
Proof.
  cbv zeta. split.
  - eexists. split; [apply ExitExact.exit_buy_ok|].
    destruct (_ && _); [|reflexivity]. cbn. repeat split; reflexivity.
  - eexists. split; [apply ExitExact.exit_sell_ok|].
    destruct (_ && _); [|reflexivity]. cbn. repeat split; reflexivity.
Qed.

Lemma signal_exit_exact_witness :
  let st := state_reading (engine_reading (11 # 10) (- (1 # 1000)) (1 # 1000000) (3 # 10))
                          [long_1_0500; long_2_0500] 3 7 in
  exists st',
    Backtester.exit_buy default_EAConfig EURUSD 6 (Timestamp 19000 6) (11 # 10) st
    = Ok st' /\
    Backtester.positions st' = [long_2_0500] /\
    map ct_ticket (Backtester.closed_trades st') = [1%Z] /\
    map close_reason (Backtester.closed_trades st') = ["signal"%string] /\
    Backtester.bars_since_close st' = 0%Z.
Proof.
  cbv zeta.
  destruct (signal_exit_exact default_EAConfig EURUSD 6 (Timestamp 19000 6) (11 # 10)
              (state_reading
                 (engine_reading (11 # 10) (- (1 # 1000)) (1 # 1000000) (3 # 10))
                 [long_1_0500; long_2_0500] 3 7))
    as ((st' & Hrun & H) & _).
  exists st'. split; [exact Hrun|].
  vm_compute in Hrun. injection Hrun as <-.
  repeat split; reflexivity.
Defined.

(** X7.  What an entry needs and what it opens.  The entry stage either
    leaves the state as it is, or appends exactly one position.  It appends
    one only when the engine's entry signal is BUY or SELL, at least
    [close_cooldown] bars have passed since the last close, fewer than
    [max_positions] positions are open, the computed size is positive and
    [can_open_trade] accepts it.  The new position carries the next ticket,
    the bar's index and date, the side of the signal, and the price
    [close + half_spread + slippage] for a long and
    [close - half_spread - slippage] for a short; the next ticket advances
    by one. *)
Theorem entry_gates (sqrt : Q -> Q) (ea_ : EAConfig) (inst_ : InstrumentConfig)
    (i : Z) (current_date : stamp) (bar_close : Q)
    (st st' : Backtester.state) (s : Signal) (etb : bool) :
  Backtester.entry sqrt ea_ inst_ i current_date bar_close st = Ok (st', s, etb) ->
  (st' = st /\ etb = false) \/
  (exists pos,
     etb = true /\
     Backtester.positions st' = Backtester.positions st ++ [pos] /\
     Backtester.next_ticket st' = (Backtester.next_ticket st + 1)%Z /\
     Backtester.closed_trades st' = Backtester.closed_trades st /\
     Backtester.realized_pnl st' = Backtester.realized_pnl st /\
     ticket pos = Backtester.next_ticket st /\
     entry_bar_index pos = i /\ open_time pos = current_date /\
     0 < lots pos /\
     (Py.len (Backtester.positions st)
      < max_positions (RiskManager.ea (Backtester.risk_mgr st)))%Z /\
     (close_cooldown ea_ <= Backtester.bars_since_close st)%Z /\
     SignalEngine.get_entry_signal sqrt (Backtester.signal_engine st) bar_close
     = Ok s /\
     ((s = BUY /\ type pos = PositionType.BUY /\
       open_price pos
       = bar_close + Backtester.half_spread inst_ + Backtester.slippage ea_ inst_) \/
      (s = SELL /\ type pos = PositionType.SELL /\
       open_price pos
       = bar_close - Backtester.half_spread inst_ - Backtester.slippage ea_ inst_)) /\
     RiskManager.can_open_trade (Backtester.risk_mgr st) (Backtester.positions st)
       (Backtester.equity st) (spread_points inst_) (lots pos) (open_price pos)
     = Ok true).
Proof.
  intros H. apply Ledger.entry_opens in H.
  destruct H as [H|(pos & -> & He & Htk & Hidx & Hd & Hl & Hn & Hc & Hs & Hty & Hp
                    & Hsig & Hok & _)]; [left; exact H|].
  right. exists pos. cbn [Backtester.open_position Backtester.positions
    Backtester.next_ticket Backtester.closed_trades Backtester.realized_pnl].
  repeat (split; [first [assumption|reflexivity]|]).
  split; [|exact Hok].
  destruct Hs as [->| ->]; cbn [Signal_eqb] in Hty, Hp; [left|right]; auto.
Qed.

Lemma entry_gates_witness :
  let st := state_reading (engine_reading (11 # 10) (1 # 1000) (1 # 1000000) (7 # 10))
                          [] 1 100 in
  exists st',
    Backtester.entry sqrt6 default_EAConfig EURUSD 6 (Timestamp 19000 6)
      (1105 # 1000) st = Ok (st', BUY, true) /\
    map ticket (Backtester.positions st') = [1%Z] /\
    map (fun p => Qred (open_price p)) (Backtester.positions st') = [44207 # 40000] /\
    Backtester.next_ticket st' = 2%Z.
Proof.
  cbv zeta. eexists. split; [vm_compute; reflexivity|].
  split; [reflexivity|]. split; [vm_compute; reflexivity|].
  destruct (entry_gates sqrt6 default_EAConfig EURUSD 6 (Timestamp 19000 6)
              (1105 # 1000)
              (state_reading
                 (engine_reading (11 # 10) (1 # 1000) (1 # 1000000) (7 # 10))
                 [] 1 100)
              _ BUY true ltac:(vm_compute; reflexivity))
    as [[_ Hf]|(pos & _ & _ & Hn & _)]; [discriminate Hf|exact Hn].
Defined.

(** ** A trend-strength period below twenty *)

Module Idle.
Import Backtester.

(** The estimator cannot become ready: [is_ready] needs twenty buffered
    returns and the buffer holds at most [period]. *)
Definition unready (se : SignalEngine.t) : Prop :=
  (HurstExponent.period (SignalEngine.hurst se) < 20)%Z /\
  (HurstExponent.count (SignalEngine.hurst se) < 20)%Z.

Section Run.
Variables sqrt ln : Q -> Q.
Variable ea_ : EAConfig.
Variable inst_ : InstrumentConfig.
Variable data : list Bar.

(** A loop state that has never traded. *)
Definition idle (st : state) : Prop :=
  positions st = [] /\ closed_trades st = [] /\ realized_pnl st = 0 /\
  unready (signal_engine st) /\
  Forall (fun s => s = NONE) (signals (result_ st)) /\
  Forall (fun e => e = initial_equity ea_ + 0 + 0) (equity_curve (result_ st)).

Lemma hurst_update_unready h close prev_close h' :
  (HurstExponent.period h < 20)%Z -> (HurstExponent.count h < 20)%Z ->
  HurstExponent.update sqrt ln h close prev_close = Ok h' ->
  (HurstExponent.period h' < 20)%Z /\ (HurstExponent.count h' < 20)%Z.
Proof.
  intros Hp Hc. unfold HurstExponent.update.
  destruct (_ || _); [intros [= <-]; auto|].
  intros H. apply bind_Ok in H. destruct H as (ratio & _ & H).
  apply bind_Ok in H. destruct H as (ret & _ & H).
  apply bind_Ok in H. destruct H as (h1 & H1 & H).
  assert (H1' : (HurstExponent.period h1 < 20)%Z /\ (HurstExponent.count h1 < 20)%Z).
  { unfold HurstExponent.push in H1.
    destruct (Z.ltb_spec (HurstExponent.count h) (HurstExponent.period h)).
    - apply bind_Ok in H1. destruct H1 as (rs & _ & [= <-]). cbn. lia.
    - apply bind_Ok in H1. destruct H1 as (rs & _ & H1).
      apply bind_Ok in H1. destruct H1 as (hd & _ & [= <-]). cbn. lia. }
  destruct (20 <=? HurstExponent.count h1)%Z; [|injection H as <-; exact H1'].
  apply bind_Ok in H. destruct H as (v & _ & [= <-]). exact H1'.
Qed.

Lemma on_new_bar_unready se close prev_close se' :
  unready se ->
  SignalEngine.on_new_bar sqrt ln se close prev_close = Ok se' -> unready se'.
Proof.
  intros [Hp Hc]. unfold SignalEngine.on_new_bar. intros H.
  apply bind_Ok in H. destruct H as (k & _ & H).
  apply bind_Ok in H. destruct H as (h & Hh & H).
  apply bind_Ok in H. destruct H as (v & _ & [= <-]).
  unfold unready. cbn. eapply hurst_update_unready; eassumption.
Qed.

Lemma entry_unready i current_date bar_close st :
  unready (signal_engine st) ->
  entry sqrt ea_ inst_ i current_date bar_close st = Ok (st, NONE, false).
Proof.
  intros [_ Hc]. unfold entry, SignalEngine.get_entry_signal, HurstExponent.is_ready.
  replace (20 <=? _)%Z with false by (symmetry; apply Z.leb_gt; exact Hc).
  cbn [negb]. rewrite orb_true_r. cbn [bind]. reflexivity.
Qed.

Lemma bar_idle st i st' :
  bar sqrt ln ea_ inst_ data st i = Ok st' -> idle st -> idle st'.
Proof.
  unfold bar. intros H (Hp & Hc & Hr & Hu & Hs & He).
  apply bind_Ok in H. destruct H as ([st1 d] & H1 & H).
  assert (I1 : idle st1).
  { unfold begin_bar in H1.
    apply bind_Ok in H1. destruct H1 as (cd & _ & H1).
    destruct (day_differs _ _);
      apply bind_Ok in H1; destruct H1 as (c & _ & H1);
      apply bind_Ok in H1; destruct H1 as (cp & _ & H1);
      apply bind_Ok in H1; destruct H1 as (se & Hse & [= <- <-]);
      unfold idle; cbn; repeat split; auto;
      apply (on_new_bar_unready _ _ _ _ Hu Hse). }
  clear Hp Hc Hr Hu Hs He. destruct I1 as (Hp & Hc & Hr & Hu & Hs & He).
  apply bind_Ok in H. destruct H as (bc & _ & H).
  apply bind_Ok in H. destruct H as (bh & _ & H).
  apply bind_Ok in H. destruct H as (bl & _ & H).
  apply bind_Ok in H. destruct H as (st2 & H2 & H).
  rewrite StopLoss.stop_loss_check_ok, Hp, Hc in H2. cbn in H2.
  apply bind_Ok in H. destruct H as (st3 & H3 & H).
  assert (E2 : exit_buy ea_ inst_ i d bc st2 = Ok st2).
  { rewrite ExitExact.exit_buy_ok. injection H2 as <-. reflexivity. }
  rewrite E2 in H3. injection H3 as <-.
  apply bind_Ok in H. destruct H as (st4 & H4 & H).
  assert (E3 : exit_sell ea_ inst_ i d bc st2 = Ok st2).
  { rewrite ExitExact.exit_sell_ok. injection H2 as <-. reflexivity. }
  rewrite E3 in H4. injection H4 as <-.
  assert (U2 : unready (signal_engine st2)) by (injection H2 as <-; exact Hu).
  apply bind_Ok in H. destruct H as ([[st5 s] etb] & H5 & H).
  rewrite (entry_unready i d bc st2 U2) in H5. injection H5 as <- <- <-.
  apply bind_Ok in H. destruct H as (st6 & H6 & H).
  assert (E6 : trailing_stop sqrt ea_ i false st2 = Ok st2)
    by (injection H2 as <-; reflexivity).
  rewrite E6 in H6. injection H6 as <-.
  unfold end_bar, record in H.
  apply bind_Ok in H. destruct H as (r & Hrec & [= <-]).
  apply bind_Ok in Hrec. destruct Hrec as (u & _ & Hrec).
  apply bind_Ok in Hrec. destruct Hrec as (l & _ & [= <-]).
  injection H2 as <-. unfold idle. cbn.
  split; [reflexivity|]. split; [reflexivity|]. split; [exact Hr|].
  split; [exact Hu|]. split.
  - apply Forall_app. split; [exact Hs|repeat constructor].
  - apply Forall_app. split; [exact He|]. constructor; [|constructor].
    rewrite Hr. reflexivity.
Qed.

Lemma run_idle r :
  (hurst_period ea_ < 20)%Z ->
  run sqrt ln ea_ inst_ data = Ok r ->
  trades r = [] /\ Forall (fun s => s = NONE) (signals r) /\
  Forall (fun e => e = initial_equity ea_ + 0 + 0) (equity_curve r).
Proof.
  intros Hh. unfold run. intros H.
  apply bind_Ok in H. destruct H as (se & Hw & H).
  assert (Hu : unready se).
  { unfold warmup in Hw.
    apply bind_Ok in Hw. destruct Hw as (c0 & _ & Hw).
    apply bind_Ok in Hw. destruct Hw as (se0 & H0 & Hw).
    revert Hw. apply foldM_preserves.
    - intros s x s' _ Hs Hf. unfold warmup_feed in Hf.
      apply bind_Ok in Hf. destruct Hf as (c & _ & Hf).
      apply bind_Ok in Hf. destruct Hf as (cp & _ & Hf).
      eapply on_new_bar_unready; eassumption.
    - eapply on_new_bar_unready; [|exact H0].
      unfold unready, init_engine. cbn. lia. }
  apply bind_Ok in H. destruct H as (st & Ht & H).
  assert (Hi : idle st).
  { revert Ht. unfold trade. apply foldM_preserves.
    - intros s x s' _ Hs Hb. eapply bar_idle; eassumption.
    - unfold idle. cbn. split; [reflexivity|]. split; [reflexivity|].
      split; [reflexivity|]. split; [exact Hu|]. split; constructor. }
  destruct Hi as (Hp & Hc & _ & _ & Hs & He).
  unfold close_remaining in H. rewrite Hp, Hc in H. cbn in H.
  injection H as <-. cbn. auto.
Qed.

End Run.

End Idle.

Definition short_memory_config : EAConfig := {|
  kf_process_noise := 1 # 100; kf_observ_noise := 1; kf_conf_band := 2;
  hurst_period := 19; hurst_threshold := 55 # 100;
  vol_period := 100; vol_hist_period := 500;
  risk_per_trade := 1 # 100; max_positions := 3; max_daily_dd := 3 # 100;
  max_spread_points := 30; hurst_exit_threshold := 40 # 100;
  trail_multiplier := 3; min_hold_bars := 5; slippage_points := 10;
  close_cooldown := 2; initial_equity := 10000; leverage := 100
|}.

(** X8.  A trend-strength period below twenty silently disables trading.
    [is_ready] asks for twenty buffered returns, and the ring buffer never
    holds more than [hurst_period]; so with [hurst_period < 20] a run that
    returns has an empty trade log, records the signal NONE on every bar,
    and its equity curve stays at the initial equity. *)
Theorem short_hurst_period_never_trades (sqrt ln : Q -> Q) (ea_ : EAConfig)
    (inst_ : InstrumentConfig) (data : list Backtester.Bar)
    (r : Backtester.BacktestResult) :
  (hurst_period ea_ < 20)%Z ->
  Backtester.run sqrt ln ea_ inst_ data = Ok r ->
  Backtester.trades r = [] /\
  Forall (fun s => s = NONE) (Backtester.signals r) /\
  Forall (fun e => e == initial_equity ea_) (Backtester.equity_curve r).
Proof.
  intros Hh H.
  destruct (Idle.run_idle sqrt ln ea_ inst_ data r Hh H) as (Ht & Hs & He).
  split; [exact Ht|]. split; [exact Hs|].
  eapply Forall_impl; [|exact He]. cbn beta. intros e ->. ring.
Qed.

Lemma short_hurst_period_never_trades_witness :
  (hurst_period short_memory_config < 20)%Z /\
  exists r,
    Backtester.run sqrt6 ln5 short_memory_config EURUSD (flat_bars 600) = Ok r /\
    Backtester.trades r = [].
Proof.
  assert (Hh : (hurst_period short_memory_config < 20)%Z) by (cbn; lia).
  split; [exact Hh|].
  assert (En : Backtester.n_bars (flat_bars 600) = 600%Z)
    by (vm_compute; reflexivity).
  assert (H1 : (1 <= hurst_period short_memory_config)%Z) by (cbn; lia).
  assert (H2 : (1 <= vol_period short_memory_config)%Z) by (cbn; lia).
  assert (H3 : (1 <= vol_hist_period short_memory_config)%Z) by (cbn; lia).
  assert (H4 : 0 <= kf_process_noise short_memory_config) by discriminate.
  assert (H5 : 0 < kf_observ_noise short_memory_config) by reflexivity.
  assert (H6 : (leverage short_memory_config <> 0)%Z) by discriminate.
  assert (H7 : ~ point EURUSD == 0) by discriminate.
  assert (H8 : (2 <= Backtester.n_bars (flat_bars 600))%Z) by (rewrite En; lia).
  destruct (run_returns sqrt6 ln5 short_memory_config EURUSD (flat_bars 600)
              H1 H2 H3 H4 H5 H6 H7 H8) as (r & Hr).
  exists r. split; [exact Hr|].
  apply (short_hurst_period_never_trades sqrt6 ln5 short_memory_config EURUSD
           (flat_bars 600) r Hh Hr).
Defined.

(** ** The estimators *)

(** X9.  Entry and exit signals never contradict each other.  The entry
    signal is NONE, BUY or SELL, never one of the close signals of the
    enum.  When it is BUY the filter's slope is positive and the engine
    does not ask to close longs; when it is SELL the slope is negative and
    the engine does not ask to close shorts; and the engine never asks to
    close longs and shorts at once. *)
Theorem signals_exclusive (sqrt : Q -> Q) (se : SignalEngine.t) (price : Q)
    (s : Signal) :
  SignalEngine.get_entry_signal sqrt se price = Ok s ->
  (s = NONE \/ s = BUY \/ s = SELL) /\
  (s = BUY -> 0 < SignalEngine.get_kalman_slope se /\
              SignalEngine.should_close_buy se = false) /\
  (s = SELL -> SignalEngine.get_kalman_slope se < 0 /\
               SignalEngine.should_close_sell se = false) /\
  SignalEngine.should_close_buy se && SignalEngine.should_close_sell se = false.
Proof.
  intros H. split; [eapply Stages.get_entry_signal_cases; exact H|].
  unfold SignalEngine.get_entry_signal in H.
  unfold SignalEngine.should_close_buy, SignalEngine.should_close_sell,
    SignalEngine.get_kalman_slope, KalmanFilter.is_initialized in *.
  destruct (KalmanFilter.initialized (SignalEngine.kalman se)); cbn [negb orb] in *.
  2:{ injection H as <-. repeat split; try discriminate; reflexivity. }
  set (slope := KalmanFilter.get_slope (SignalEngine.kalman se)) in *.
  assert (Hx : Py.ltb slope 0 && Py.gtb slope 0 = false).
  { destruct (Py.ltb slope 0) eqn:E1, (Py.gtb slope 0) eqn:E2; try reflexivity.
    apply ltb_lt in E1. apply gtb_lt in E2. lra. }
  split; [|split].
  - intros ->. destruct (negb _); [discriminate|].
    apply bind_Ok in H. destruct H as (u & _ & H).
    apply bind_Ok in H. destruct H as (l & _ & H).
    destruct (Py.gtb slope 0) eqn:E.
    + split; [apply gtb_lt, E|]. rewrite andb_true_r in Hx. rewrite Hx. reflexivity.
    + cbn [andb] in H. destruct (_ && _ && _); discriminate.
  - intros ->. destruct (negb _); [discriminate|].
    apply bind_Ok in H. destruct H as (u & _ & H).
    apply bind_Ok in H. destruct H as (l & _ & H).
    destruct (Py.gtb slope 0 && _ && _); [discriminate|].
    destruct (Py.ltb slope 0) eqn:E.
    + split; [apply ltb_lt, E|]. cbn [andb] in Hx. rewrite Hx. reflexivity.
    + cbn [andb] in H. discriminate.
  - destruct (Py.ltb slope 0), (Py.gtb slope 0); try discriminate; cbn;
      rewrite ?andb_false_r; reflexivity.
Qed.

Lemma signals_exclusive_witness :
  let se := engine_reading (11 # 10) (1 # 1000) (1 # 1000000) (7 # 10) in
  SignalEngine.get_entry_signal sqrt6 se (1105 # 1000) = Ok BUY /\
  SignalEngine.should_close_buy se = false.
Proof.
  cbv zeta. split; [vm_compute; reflexivity|].
  destruct (signals_exclusive sqrt6
              (engine_reading (11 # 10) (1 # 1000) (1 # 1000000) (7 # 10))
              (1105 # 1000) BUY ltac:(vm_compute; reflexivity))
    as (_ & H & _).
  apply (H eq_refl).
Defined.

(** X10.  The covariance does not depend on the prices, except through the
    outlier gate.  Two initialized filters with the same covariance and
    the same noise, whatever their levels and slopes and whatever prices
    they are given, leave an update with the same covariance, and so the
    same estimation error, as soon as both observations are accepted or
    both are rejected; and an update never changes the noise. *)
Theorem kalman_covariance_price_free (sqrt : Q -> Q) (a b : KalmanFilter.t)
    (pa pb : Q) (a' b' : KalmanFilter.t) :
  let cov kf := (KalmanFilter.P00 kf, KalmanFilter.P01 kf,
                 KalmanFilter.P10 kf, KalmanFilter.P11 kf) in
  let noise kf := (KalmanFilter.Q00 kf, KalmanFilter.Q01 kf,
                   KalmanFilter.Q10 kf, KalmanFilter.Q11 kf, KalmanFilter.R kf) in
  let rejected kf p :=
    Py.gtb (Qabs (KalmanFilter.innovation kf p)) (3 * sqrt (KalmanFilter.S kf)) in
  KalmanFilter.initialized a = true -> KalmanFilter.initialized b = true ->
  cov a = cov b -> noise a = noise b ->
  KalmanFilter.update sqrt a pa = Ok a' ->
  KalmanFilter.update sqrt b pb = Ok b' ->
  noise a' = noise a /\ noise b' = noise b /\
  (rejected a pa = rejected b pb ->
   cov a' = cov b' /\
   KalmanFilter.get_estimation_error sqrt a'
   = KalmanFilter.get_estimation_error sqrt b').
Proof.
  cbv zeta. intros Ha Hb Hc Hn Ua Ub.
  injection Hc as E00 E01 E10 E11. injection Hn as F00 F01 F10 F11 FR.
  assert (P0 : KalmanFilter.P_pred00 a = KalmanFilter.P_pred00 b)
    by (unfold KalmanFilter.P_pred00, KalmanFilter.FP00, KalmanFilter.FP01;
        congruence).
  assert (P1 : KalmanFilter.P_pred01 a = KalmanFilter.P_pred01 b)
    by (unfold KalmanFilter.P_pred01, KalmanFilter.FP01; congruence).
  assert (P2 : KalmanFilter.P_pred10 a = KalmanFilter.P_pred10 b)
    by (unfold KalmanFilter.P_pred10, KalmanFilter.FP10, KalmanFilter.FP11;
        congruence).
  assert (P3 : KalmanFilter.P_pred11 a = KalmanFilter.P_pred11 b)
    by (unfold KalmanFilter.P_pred11, KalmanFilter.FP11; congruence).
  assert (PS : KalmanFilter.S a = KalmanFilter.S b)
    by (unfold KalmanFilter.S; congruence).
  unfold KalmanFilter.update in Ua, Ub.
  rewrite Ha in Ua. rewrite Hb in Ub. cbn [negb] in Ua, Ub.
  rewrite <- PS in Ub.
  unfold Py.math_sqrt in Ua, Ub.
  destruct (Py.ltb (KalmanFilter.S a) 0); [discriminate Ua|].
  cbn [bind] in Ua, Ub.
  destruct (Py.gtb (Qabs (KalmanFilter.innovation a pa)) _) eqn:Ga;
    destruct (Py.gtb (Qabs (KalmanFilter.innovation b pb)) _) eqn:Gb.
  - injection Ua as <-. injection Ub as <-.
    split; [reflexivity|]. split; [reflexivity|]. intros _.
    unfold KalmanFilter.get_estimation_error.
    cbn [KalmanFilter.commit KalmanFilter.P00 KalmanFilter.P01
         KalmanFilter.P10 KalmanFilter.P11].
    rewrite P0, P1, P2, P3. split; reflexivity.
  - intros. split; [|split].
    + apply bind_Ok in Ub. destruct Ub as (k0 & _ & Ub).
      apply bind_Ok in Ub. destruct Ub as (k1 & _ & [= <-]).
      injection Ua as <-. reflexivity.
    + apply bind_Ok in Ub. destruct Ub as (k0 & _ & Ub).
      apply bind_Ok in Ub. destruct Ub as (k1 & _ & [= <-]). reflexivity.
    + intros H. try rewrite Ga in H. try rewrite <- PS in H.
      try rewrite Gb in H. discriminate H.
  - intros. split; [|split].
    + apply bind_Ok in Ua. destruct Ua as (k0 & _ & Ua).
      apply bind_Ok in Ua. destruct Ua as (k1 & _ & [= <-]). reflexivity.
    + injection Ub as <-. reflexivity.
    + intros H. try rewrite Ga in H. try rewrite <- PS in H.
      try rewrite Gb in H. discriminate H.
  - rewrite <- P0, <- P2 in Ub.
    apply bind_Ok in Ua. destruct Ua as (k0 & K0 & Ua).
    apply bind_Ok in Ua. destruct Ua as (k1 & K1 & [= <-]).
    rewrite K0 in Ub. cbn [bind] in Ub. rewrite K1 in Ub. cbn [bind] in Ub.
    injection Ub as <-.
    split; [reflexivity|]. split; [reflexivity|]. intros _.
    unfold KalmanFilter.get_estimation_error.
    cbn [KalmanFilter.commit KalmanFilter.P00 KalmanFilter.P01
         KalmanFilter.P10 KalmanFilter.P11].
    rewrite <- P1, <- P3. split; reflexivity.
Qed.

Lemma kalman_covariance_price_free_witness :
  let a := KalmanFilter.commit KalmanFilter.new 100 0 1 0 0 (1 # 100) in
  let b := KalmanFilter.commit KalmanFilter.new 50 2 1 0 0 (1 # 100) in
  exists a' b',
    KalmanFilter.update sqrt6 a 101 = Ok a' /\
    KalmanFilter.update sqrt6 b (105 # 2) = Ok b' /\
    ~ KalmanFilter.state0 a' == KalmanFilter.state0 b' /\
    KalmanFilter.P00 a' = KalmanFilter.P00 b' /\
    KalmanFilter.P11 a' = KalmanFilter.P11 b'.
Proof.
  cbv zeta.
  set (a := KalmanFilter.commit KalmanFilter.new 100 0 1 0 0 (1 # 100)).
  set (b := KalmanFilter.commit KalmanFilter.new 50 2 1 0 0 (1 # 100)).
  set (a' := match KalmanFilter.update sqrt6 a 101 with
             | Ok x => x | Raise _ => a end).
  set (b' := match KalmanFilter.update sqrt6 b (105 # 2) with
             | Ok x => x | Raise _ => b end).
  assert (Ua : KalmanFilter.update sqrt6 a 101 = Ok a') by (vm_compute; reflexivity).
  assert (Ub : KalmanFilter.update sqrt6 b (105 # 2) = Ok b')
    by (vm_compute; reflexivity).
  exists a', b'. split; [exact Ua|]. split; [exact Ub|].
  split; [vm_compute; discriminate|].
  destruct (kalman_covariance_price_free sqrt6 a b 101 (105 # 2) a' b'
              eq_refl eq_refl eq_refl eq_refl Ua Ub) as (_ & _ & H).
  destruct H as (Hc & _); [vm_compute; reflexivity|].
  split.
  - exact (f_equal (fun t => fst (fst (fst t))) Hc).
  - exact (f_equal snd Hc).
Defined.

(** X11.  A correction moves the level toward the observation and only
    shrinks the variance.  For an initialized filter with positive
    observation noise and non-negative predicted variance, [update]
    returns; the innovation variance is positive; the level moves from the
    predicted level in the direction of the innovation, or not at all; the
    level variance after the update is non-negative and at most the
    predicted variance; and the covariance of level and slope keeps its
    sign and does not grow in size. *)
Theorem kalman_update_bounds (sqrt : Q -> Q) (self : KalmanFilter.t) (price : Q) :
  KalmanFilter.initialized self = true ->
  0 < KalmanFilter.R self -> 0 <= KalmanFilter.P_pred00 self ->
  exists self',
    KalmanFilter.update sqrt self price = Ok self' /\
    0 < KalmanFilter.S self /\
    (0 <= KalmanFilter.innovation self price ->
     KalmanFilter.x_pred0 self <= KalmanFilter.state0 self') /\
    (KalmanFilter.innovation self price <= 0 ->
     KalmanFilter.state0 self' <= KalmanFilter.x_pred0 self) /\
    0 <= KalmanFilter.P00 self' /\
    KalmanFilter.P00 self' <= KalmanFilter.P_pred00 self /\
    (0 <= KalmanFilter.P_pred01 self ->
     0 <= KalmanFilter.P01 self' <= KalmanFilter.P_pred01 self) /\
    (KalmanFilter.P_pred01 self <= 0 ->
     KalmanFilter.P_pred01 self <= KalmanFilter.P01 self' <= 0).
Proof.
  intros Hi HR Hp. unfold KalmanFilter.update. rewrite Hi. cbn [negb].
  assert (HS : 0 < KalmanFilter.S self) by (unfold KalmanFilter.S; lra).
  rewrite math_sqrt_ok by lra. cbn [bind].
  destruct (Py.gtb _ _) eqn:Eg.
  - eexists. split; [reflexivity|]. cbn.
    split; [exact HS|]. split; [intros _; apply Qle_refl|].
    split; [intros _; apply Qle_refl|].
    split; [exact Hp|]. split; [apply Qle_refl|].
    split; intros H; split; try exact H; apply Qle_refl.
  - rewrite !div_ok by lra. cbn [bind]. eexists. split; [reflexivity|]. cbn.
    assert (Hk0 : 0 <= KalmanFilter.P_pred00 self / KalmanFilter.S self)
      by (apply Qle_shift_div_l; [exact HS|lra]).
    assert (Hk1 : KalmanFilter.P_pred00 self / KalmanFilter.S self <= 1)
      by (apply Qle_shift_div_r; [exact HS|unfold KalmanFilter.S; lra]).
    set (k := KalmanFilter.P_pred00 self / KalmanFilter.S self) in *.
    clearbody k.
    set (xp := KalmanFilter.x_pred0 self) in *.
    set (pp := KalmanFilter.P_pred00 self) in *.
    set (p1 := KalmanFilter.P_pred01 self) in *.
    set (y := KalmanFilter.innovation self price) in *.
    split; [exact HS|]. split.
    { intros Hy. pose proof (mul_nonneg _ _ Hk0 Hy). lra. }
    split.
    { intros Hy. assert (0 <= k * (- y)) by (apply mul_nonneg; lra). lra. }
    assert (H2 : 0 <= (1 - k) * pp) by (apply mul_nonneg; lra).
    pose proof (mul_nonneg _ _ Hk0 Hp) as H1.
    split; [exact H2|]. split; [lra|].
    split; intros H.
    + assert (0 <= (1 - k) * p1) by (apply mul_nonneg; lra).
      pose proof (mul_nonneg _ _ Hk0 H). split; lra.
    + assert (0 <= (1 - k) * (- p1)) by (apply mul_nonneg; lra).
      assert (0 <= k * (- p1)) by (apply mul_nonneg; lra). split; lra.
Qed.

Lemma kalman_update_bounds_witness :
  let self := KalmanFilter.commit KalmanFilter.new 100 0 1 0 0 (1 # 100) in
  KalmanFilter.initialized self = true /\ 0 < KalmanFilter.R self /\
  0 <= KalmanFilter.P_pred00 self /\
  exists self',
    KalmanFilter.update sqrt6 self 101 = Ok self' /\
    100 <= KalmanFilter.state0 self' /\
    0 <= KalmanFilter.P00 self' /\
    KalmanFilter.P00 self' <= 102 # 100.
Proof.
  cbv zeta.
  assert (H1 : KalmanFilter.initialized
                 (KalmanFilter.commit KalmanFilter.new 100 0 1 0 0 (1 # 100)) = true)
    by reflexivity.
  assert (H2 : 0 < KalmanFilter.R
                     (KalmanFilter.commit KalmanFilter.new 100 0 1 0 0 (1 # 100)))
    by reflexivity.
  assert (H3 : 0 <= KalmanFilter.P_pred00
                      (KalmanFilter.commit KalmanFilter.new 100 0 1 0 0 (1 # 100)))
    by (vm_compute; discriminate).
  split; [exact H1|]. split; [exact H2|]. split; [exact H3|].
  destruct (kalman_update_bounds sqrt6
              (KalmanFilter.commit KalmanFilter.new 100 0 1 0 0 (1 # 100)) 101
              H1 H2 H3) as (self' & E & _ & Ha & _ & Hb & Hc & _).
  exists self'. split; [exact E|]. split; [|split].
  - eapply Qle_trans; [|apply Ha; vm_compute; discriminate].
    vm_compute. discriminate.
  - exact Hb.
  - eapply Qle_trans; [exact Hc|]. vm_compute. discriminate.
Defined.

(** ** The percentile rank stays below one *)



Module VolRank.
Import VolatilityRegime VolFacts.


Section Update.
Variables sqrt ln : Q -> Q.



End Update.

End VolRank.




(** ** Estimators without a buffer *)






(** ** The trend-strength ring buffer *)




Module HurstRing.
Import HurstExponent.







End HurstRing.

Module HurstFeed.
Import HurstExponent HurstRing.

Section Feed.
Variables sqrt ln : Q -> Q.





End Feed.

End HurstFeed.



(** ** The stop of a new position *)

Lemma sqrt6_nonneg x : 0 <= sqrt6 x.
Proof.
  unfold sqrt6, Qle. cbn [Qnum Qden]. rewrite Z.mul_1_r. apply Z.sqrt_nonneg.
Qed.

Lemma entry_signal_bands (sqrt : Q -> Q) (se : SignalEngine.t) (price : Q) (s : Signal) :
  SignalEngine.get_entry_signal sqrt se price = Ok s ->
  let e := sqrt (Qabs (KalmanFilter.P00 (SignalEngine.kalman se))) in
  (s = BUY ->
   SignalEngine.get_kalman_level se + SignalEngine.conf_band se * e < price) /\
  (s = SELL ->
   price < SignalEngine.get_kalman_level se - SignalEngine.conf_band se * e).
Proof.
  unfold SignalEngine.get_entry_signal, KalmanFilter.get_upper_band,
    KalmanFilter.get_lower_band, KalmanFilter.get_estimation_error,
    SignalEngine.get_kalman_level, KalmanFilter.get_level.
  cbv zeta. destruct (_ || _); [intros [= <-]; split; discriminate|].
  rewrite math_sqrt_abs. cbn [bind].
  destruct (Py.gtb _ 0 && _ && Py.gtb price _) eqn:E1.
  - intros [= <-]. split; [intros _|discriminate].
    apply andb_true_iff in E1. destruct E1 as [_ E1]. apply gtb_lt, E1.
  - destruct (Py.ltb _ 0 && _ && Py.ltb price _) eqn:E2.
    + intros [= <-]. split; [discriminate|intros _].
      apply andb_true_iff in E2. destruct E2 as [_ E2]. apply ltb_lt, E2.
    + intros [= <-]. split; discriminate.
Qed.

(** X16.  A new position's stop is on the losing side of its entry price.
    With a non-negative square root, confidence band, spread and slippage,
    and an engine configured with the run's [kf_conf_band], a long opened
    by the entry stage has its stop strictly below its entry price and a
    short strictly above: the signal asks for a close beyond the band
    [level +- conf_band * error], the stop is put at the other band, and
    spread and slippage move the entry price further away. *)
Theorem entry_stop_side (sqrt : Q -> Q) (ea_ : EAConfig) (inst_ : InstrumentConfig)
    (i : Z) (current_date : stamp) (bar_close : Q)
    (st st' : Backtester.state) (s : Signal) :
  (forall x, 0 <= sqrt x) -> 0 <= kf_conf_band ea_ ->
  SignalEngine.conf_band (Backtester.signal_engine st) = kf_conf_band ea_ ->
  0 <= Backtester.half_spread inst_ + Backtester.slippage ea_ inst_ ->
  Backtester.entry sqrt ea_ inst_ i current_date bar_close st = Ok (st', s, true) ->
  exists pos,
    Backtester.positions st' = Backtester.positions st ++ [pos] /\
    match type pos with
    | PositionType.BUY =>
        stop_loss pos <= SignalEngine.get_kalman_level (Backtester.signal_engine st) /\
        stop_loss pos < bar_close /\ bar_close <= open_price pos
    | PositionType.SELL =>
        SignalEngine.get_kalman_level (Backtester.signal_engine st) <= stop_loss pos /\
        bar_close < stop_loss pos /\ open_price pos <= bar_close
    end.
Proof.
  intros Hsq Hk Hcb Hcost H. apply Ledger.entry_opens in H.
  destruct H as [[_ Hf]|(pos & -> & _ & _ & _ & _ & _ & _ & _ & Hs & Hty & Hp
                         & Hsig & _ & Hsl)]; [discriminate Hf|].
  exists pos. split; [reflexivity|].
  apply entry_signal_bands in Hsig. cbv zeta in Hsig. destruct Hsig as [Hb Hse].
  rewrite Hcb in Hb, Hse.
  set (e := sqrt (Qabs (KalmanFilter.P00
                          (SignalEngine.kalman (Backtester.signal_engine st))))) in *.
  assert (He : 0 <= kf_conf_band ea_ * e) by (apply mul_nonneg; [exact Hk|apply Hsq]).
  assert (He' : e * kf_conf_band ea_ == kf_conf_band ea_ * e) by ring.
  unfold RiskManager.get_stop_loss in Hsl.
  destruct Hs as [->| ->]; cbn [Signal_eqb] in Hty, Hp, Hsl; rewrite Hty, Hsl, Hp.
  - specialize (Hb eq_refl). repeat split; lra.
  - specialize (Hse eq_refl). repeat split; lra.
Qed.

Lemma entry_stop_side_witness :
  let st := state_reading (engine_reading (11 # 10) (1 # 1000) (1 # 1000000) (7 # 10))
                          [] 1 100 in
  (forall x, 0 <= sqrt6 x) /\ 0 <= kf_conf_band default_EAConfig /\
  SignalEngine.conf_band (Backtester.signal_engine st)
  = kf_conf_band default_EAConfig /\
  0 <= Backtester.half_spread EURUSD + Backtester.slippage default_EAConfig EURUSD /\
  exists st',
    Backtester.entry sqrt6 default_EAConfig EURUSD 6 (Timestamp 19000 6)
      (1105 # 1000) st = Ok (st', BUY, true) /\
    exists pos, Backtester.positions st' = [pos] /\ stop_loss pos < open_price pos.
Proof.
  cbv zeta.
  assert (H2 : 0 <= kf_conf_band default_EAConfig) by discriminate.
  assert (H4 : 0 <= Backtester.half_spread EURUSD
                    + Backtester.slippage default_EAConfig EURUSD)
    by (vm_compute; discriminate).
  split; [exact sqrt6_nonneg|]. split; [exact H2|]. split; [reflexivity|].
  split; [exact H4|].
  eexists. split; [vm_compute; reflexivity|].
  destruct (entry_stop_side sqrt6 default_EAConfig EURUSD 6 (Timestamp 19000 6)
              (1105 # 1000)
              (state_reading
                 (engine_reading (11 # 10) (1 # 1000) (1 # 1000000) (7 # 10))
                 [] 1 100)
              _ BUY sqrt6_nonneg H2 eq_refl H4 ltac:(vm_compute; reflexivity))
    as (pos & Hpos & Hside).
  exists pos. split; [exact Hpos|].
  assert (Hty : type pos = PositionType.BUY).
  { cbn in Hpos. injection Hpos as <-. reflexivity. }
  rewrite Hty in Hside. destruct Hside as (_ & Ha & Hb).
  eapply Qlt_le_trans; eassumption.
Defined.

(** ** The engine as a whole *)



(** ** The trade gate *)




(** ** The trailing stop, exactly *)

Module Trailing.
Import Backtester.

Section Trail.
Variable ea_ : EAConfig.
Variable i : Z.
Variables trail_buy trail_sell : Q.

(** What the trailing step may do to one position. *)
Definition trailed (p p' : Position) : Prop :=
  ((i - entry_bar_index p < min_hold_bars ea_)%Z \/ entry_bar_index p = i \/
   stop_loss p <= 0 -> p' = p) /\
  (p' = p \/
   (type p = PositionType.BUY /\ 0 < trail_buy /\ stop_loss p < trail_buy /\
    p' = set_stop_loss p trail_buy) \/
   (type p = PositionType.SELL /\ 0 < trail_sell /\ trail_sell < stop_loss p /\
    p' = set_stop_loss p trail_sell)).

Lemma trailed_refl p : trailed p p.
Proof. split; auto. Qed.

Lemma trail_trailed p : trailed p (trail ea_ i trail_buy trail_sell p).
Proof.
  unfold trail.
  destruct (Z.eqb_spec (entry_bar_index p) i); [apply trailed_refl|].
  destruct (Z.ltb_spec (i - entry_bar_index p) (min_hold_bars ea_));
    [apply trailed_refl|].
  destruct (type p) eqn:Et; cbn [PositionType.eqb andb].
  - destruct (Py.gtb trail_buy 0) eqn:E0; [|apply trailed_refl].
    destruct (Py.gtb (stop_loss p) 0) eqn:E1; [|apply trailed_refl].
    destruct (Py.gtb trail_buy (stop_loss p)) eqn:E2; [|apply trailed_refl].
    apply gtb_lt in E0, E1, E2. cbn [andb]. split.
    + intros [Hx|[Hx|Hx]]; [lia|congruence|lra].
    + right. left. auto.
  - destruct (Py.gtb trail_sell 0) eqn:E0; [|apply trailed_refl].
    destruct (Py.gtb (stop_loss p) 0) eqn:E1; [|apply trailed_refl].
    destruct (Py.ltb trail_sell (stop_loss p)) eqn:E2; [|apply trailed_refl].
    apply gtb_lt in E0, E1. apply ltb_lt in E2. cbn [andb]. split.
    + intros [Hx|[Hx|Hx]]; [lia|congruence|lra].
    + right. right. auto.
Qed.

Lemma Forall2_map_r {A} (R : A -> A -> Prop) (f : A -> A) l :
  (forall x, R x (f x)) -> Forall2 R l (map f l).
Proof. intros H. induction l; cbn; constructor; auto. Qed.

End Trail.

End Trailing.

(** X19.  The trailing stop never raises and moves only what it should.
    On a bar with an entry nothing moves, for no position.  Otherwise the
    positions keep their order, and a position opened on this bar, held for
    fewer than [min_hold_bars] bars, or with a stop that is not positive
    keeps its stop; a long's stop that moves becomes exactly
    [level - trail_multiplier * error], which is then positive and above
    the old stop, and a short's becomes exactly
    [level + trail_multiplier * error], positive and below the old stop.
    The trade log, the realized profit and the cooldown counter are not
    touched. *)
Theorem trailing_stop_exact (sqrt : Q -> Q) (ea_ : EAConfig) (i : Z) (etb : bool)
    (st : Backtester.state) :
  let se := Backtester.signal_engine st in
  let err := sqrt (Qabs (KalmanFilter.P00 (SignalEngine.kalman se))) in
  let trail_buy := SignalEngine.get_kalman_level se - err * trail_multiplier ea_ in
  let trail_sell := SignalEngine.get_kalman_level se + err * trail_multiplier ea_ in
  exists st',
    Backtester.trailing_stop sqrt ea_ i etb st = Ok st' /\
    (etb = true -> st' = st) /\
    Backtester.closed_trades st' = Backtester.closed_trades st /\
    Backtester.realized_pnl st' = Backtester.realized_pnl st /\
    Backtester.bars_since_close st' = Backtester.bars_since_close st /\
    Forall2
      (fun p p' =>
         ((i - entry_bar_index p < min_hold_bars ea_)%Z \/ entry_bar_index p = i \/
          stop_loss p <= 0 -> p' = p) /\
         (p' = p \/
          (type p = PositionType.BUY /\ 0 < trail_buy /\ stop_loss p < trail_buy /\
           p' = Backtester.set_stop_loss p trail_buy) \/
          (type p = PositionType.SELL /\ 0 < trail_sell /\ trail_sell < stop_loss p /\
           p' = Backtester.set_stop_loss p trail_sell)))
      (Backtester.positions st) (Backtester.positions st').
Proof.
  cbv zeta. unfold Backtester.trailing_stop.
  assert (Hsame : forall tb ts,
            Forall2 (Trailing.trailed ea_ i tb ts)
                    (Backtester.positions st) (Backtester.positions st)).
  { intros tb ts. rewrite <- (map_id (Backtester.positions st)) at 2.
    apply Trailing.Forall2_map_r. intros p. apply Trailing.trailed_refl. }
  destruct etb; cbn [negb andb].
  - exists st. repeat split; auto. apply Hsame.
  - destruct (negb (Backtester.is_empty (Backtester.positions st))).
    + rewrite EngineFacts.get_estimation_error_ok. cbn [bind].
      eexists. split; [reflexivity|]. split; [discriminate|].
      cbn. repeat split.
      apply Trailing.Forall2_map_r. intros p. apply Trailing.trail_trailed.
    + exists st. split; [reflexivity|]. split; [auto|]. repeat split.
      apply Hsame.
Qed.

Lemma trailing_stop_exact_witness :
  let st := state_reading (engine_reading (11 # 10) (1 # 1000) (1 # 1000000) (7 # 10))
                          [long_1_0500; long_2_0500] 3 7 in
  exists st',
    Backtester.trailing_stop sqrt6 default_EAConfig 6 false st = Ok st' /\
    map (fun p => Qred (stop_loss p)) (Backtester.positions st')
    = [1097 # 1000; 21 # 20] /\
    Backtester.trailing_stop sqrt6 default_EAConfig 6 true st = Ok st.
Proof.
  cbv zeta.
  destruct (trailing_stop_exact sqrt6 default_EAConfig 6 false
              (state_reading
                 (engine_reading (11 # 10) (1 # 1000) (1 # 1000000) (7 # 10))
                 [long_1_0500; long_2_0500] 3 7)) as (st' & E & _).
  exists st'. split; [exact E|].
  vm_compute in E. injection E as <-.
  split; vm_compute; reflexivity.
Defined.

(** ** The preset instruments *)

(** [str.upper] on ASCII letters, to run [get_instrument] on concrete
    names.  No theorem depends on it. *)
Fixpoint upper_ascii (s : string) : string :=
  match s with
  | EmptyString => EmptyString
  | String c s' =>
      let n := Ascii.nat_of_ascii c in
      String (if (97 <=? n)%nat && (n <=? 122)%nat
              then Ascii.ascii_of_nat (n - 32) else c)
             (upper_ascii s')
  end.

(** X20.  The instrument presets.  Whatever [str.upper] does, the lookup
    returns a preset exactly when the upper-cased name is one of EURUSD,
    GBPUSD, USDJPY, AUDUSD, XAUUSD, and raises [ValueError] otherwise.
    The preset returned carries the upper-cased name as its symbol; its
    point size, point value, lot step, minimum lot and contract size are
    positive, with [min_lot <= max_lot], and its spread is not above the
    default [max_spread_points], so that on a preset the risk manager's
    sizing rounds to the lot step, its spread check passes and the stop
    distance is divided by a non-zero point size. *)
Theorem get_instrument_presets (upper : string -> string) (name : string) :
  let keys := ["EURUSD"; "GBPUSD"; "USDJPY"; "AUDUSD"; "XAUUSD"]%string in
  (In (upper name) keys ->
   exists inst,
     Config.get_instrument upper name = Ok inst /\
     symbol inst = upper name /\
     0 < point inst /\ 0 < point_value inst /\ 0 < lot_step inst /\
     0 < min_lot inst /\ min_lot inst <= max_lot inst /\
     0 < contract_size inst /\ 0 <= spread_points inst /\
     Py.gtb (spread_points inst) (max_spread_points default_EAConfig) = false /\
     Py.gtb (lot_step inst) 0 = true /\
     Py.leb (point_value inst) 0 = false) /\
  (~ In (upper name) keys ->
   Config.get_instrument upper name = Raise ValueError).
Proof.
  cbv zeta. unfold Config.get_instrument. split.
  - intros Hin. cbn in Hin.
    destruct Hin as [<-|[<-|[<-|[<-|[<-|[]]]]]]; cbn;
      eexists; (split; [reflexivity|]); cbn;
      repeat (split; [first [reflexivity|discriminate]|]);
      reflexivity.
  - intros Hnot. cbn [Config.lookup Config._INSTRUMENTS].
    repeat match goal with
    | |- context [String.eqb (upper name) ?k] =>
        destruct (String.eqb_spec (upper name) k) as [E|_];
        [exfalso; apply Hnot; rewrite E; cbn; tauto|]
    end.
    reflexivity.
Qed.

Lemma get_instrument_presets_witness :
  In (upper_ascii "xauusd") ["EURUSD"; "GBPUSD"; "USDJPY"; "AUDUSD"; "XAUUSD"]%string /\
  ~ In (upper_ascii "btcusd") ["EURUSD"; "GBPUSD"; "USDJPY"; "AUDUSD"; "XAUUSD"]%string /\
  Config.get_instrument upper_ascii "xauusd" = Ok Config.XAUUSD /\
  Config.get_instrument upper_ascii "btcusd" = Raise ValueError.
Proof.
  assert (H1 : In (upper_ascii "xauusd")
                  ["EURUSD"; "GBPUSD"; "USDJPY"; "AUDUSD"; "XAUUSD"]%string)
    by (vm_compute; tauto).
  assert (H2 : ~ In (upper_ascii "btcusd")
                    ["EURUSD"; "GBPUSD"; "USDJPY"; "AUDUSD"; "XAUUSD"]%string).
  { vm_compute. intros [H|[H|[H|[H|[H|[]]]]]]; discriminate H. }
  split; [exact H1|]. split; [exact H2|].
  destruct (get_instrument_presets upper_ascii "xauusd") as [Ha _].
  destruct (get_instrument_presets upper_ascii "btcusd") as [_ Hb].
  split; [|exact (Hb H2)].
  destruct (Ha H1) as (inst & E & _). rewrite E. vm_compute in E.
  injection E as <-. reflexivity.
Defined.

(** ** The report's trade statistics *)

Module ReportFacts.
Import Reporting.

Lemma count_if_filter (p : ClosedTrade -> bool) trades :
  count_if p trades = Py.len (filter p trades).
Proof.
  unfold count_if, Py.len.
  assert (H : forall n, fold_left (fun n t => if p t then (n + 1)%Z else n) trades n
                        = (n + Z.of_nat (List.length (filter p trades)))%Z).
  { induction trades as [|t trades IH]; intros n; cbn [fold_left filter].
    - cbn. lia.
    - rewrite IH. destruct (p t); cbn [List.length]; lia. }
  rewrite H. lia.
Qed.

Lemma leb_not_gtb x : Py.leb x 0 = negb (Py.gtb x 0).
Proof. unfold Py.leb, Py.gtb, Py.ltb. rewrite negb_involutive. reflexivity. Qed.

Lemma sum_shift trades : forall x,
  fold_left (fun a t => a + profit t) trades x == x + sum_profit trades.
Proof.
  unfold sum_profit. induction trades as [|t trades IH]; intros x; cbn [fold_left].
  - ring.
  - rewrite IH, (IH (0 + profit t)). ring.
Qed.

Lemma sum_cons t trades : sum_profit (t :: trades) == profit t + sum_profit trades.
Proof.
  unfold sum_profit at 1. cbn [fold_left]. rewrite sum_shift. ring.
Qed.

Lemma sum_split trades :
  sum_profit (filter (fun t => Py.gtb (profit t) 0) trades)
  + sum_profit (filter (fun t => Py.leb (profit t) 0) trades)
  == sum_profit trades /\
  0 <= sum_profit (filter (fun t => Py.gtb (profit t) 0) trades) /\
  sum_profit (filter (fun t => Py.leb (profit t) 0) trades) <= 0.
Proof.
  induction trades as [|t trades (IH1 & IH2 & IH3)]; cbn [filter].
  - unfold sum_profit. cbn. repeat split; try ring; apply Qle_refl.
  - rewrite leb_not_gtb. destruct (Py.gtb (profit t) 0) eqn:E; cbn [negb];
      rewrite !sum_cons.
    + apply gtb_lt in E. repeat split; lra.
    + apply gtb_le in E. repeat split; lra.
Qed.

(** The streak counters never exceed the number of wins and losses seen. *)
Lemma streaks_bound trades : forall sw sl mw ml w l,
  (0 <= sw <= w)%Z -> (0 <= mw <= w)%Z -> (0 <= sl <= l)%Z -> (0 <= ml <= l)%Z ->
  let '(_, _, mw', ml') := fold_left streak_step trades (sw, sl, mw, ml) in
  (0 <= mw' <= w + Py.len (filter (fun t => Py.gtb (profit t) 0) trades))%Z /\
  (0 <= ml' <= l + Py.len (filter (fun t => Py.leb (profit t) 0) trades))%Z.
Proof.
  unfold Py.len.
  induction trades as [|t trades IH]; intros sw sl mw ml w l Hsw Hmw Hsl Hml.
  - cbn. lia.
  - cbn [fold_left filter streak_step]. rewrite leb_not_gtb.
    destruct (Py.gtb (profit t) 0); cbn [negb].
    + specialize (IH (sw + 1)%Z 0%Z (Z.max mw (sw + 1)) (Z.max ml 0) (w + 1)%Z l
                     ltac:(lia) ltac:(lia) ltac:(lia) ltac:(lia)).
      destruct (fold_left _ _ _) as [[[? ?] mw'] ml']. cbn [List.length]. lia.
    + specialize (IH 0%Z (sl + 1)%Z (Z.max mw 0) (Z.max ml (sl + 1)) w (l + 1)%Z
                     ltac:(lia) ltac:(lia) ltac:(lia) ltac:(lia)).
      destruct (fold_left _ _ _) as [[[? ?] mw'] ml']. cbn [List.length]. lia.
Qed.

Lemma getitem_last_eq {A} (l : list A) (d : A) :
  l <> [] -> Py.getitem l (-1) = Ok (last l d).
Proof.
  intros H. destruct (exists_last H) as (l' & x & ->).
  rewrite last_last. apply Accounting.getitem_minus_1.
  rewrite (RunFacts.getitem_default _ d).
  - unfold Py.len. rewrite length_app. cbn [List.length].
    replace (Z.to_nat (Z.of_nat (List.length l' + 1) - 1)) with (List.length l') by lia.
    rewrite app_nth2, Nat.sub_diag by lia. reflexivity.
  - unfold Py.len. rewrite length_app. cbn [List.length]. lia.
Qed.

(** What the statistics are, once the guards are resolved. *)
Lemma trade_metrics_ok r ea_cfg :
  exists m,
    trade_metrics r ea_cfg = Ok m /\
    final_equity m = last (Backtester.equity_curve r) (initial_equity ea_cfg) /\
    total_trades m = Py.len (Backtester.trades r) /\
    (winning_trades m + losing_trades m = total_trades m)%Z /\
    (buy_trades m + sell_trades m = total_trades m)%Z /\
    0 <= win_rate m <= 1 /\
    0 <= gross_profit m /\ 0 <= gross_loss m /\
    (0 <= max_consec_wins m <= winning_trades m)%Z /\
    (0 <= max_consec_losses m <= losing_trades m)%Z /\
    (Backtester.trades r <> [] ->
     (profit_factor m = Infinity <-> gross_loss m == 0) /\
     (gross_loss m == 0 -> profit_loss_ratio m = Infinity) /\
     (losing_trades m = 0%Z ->
      gross_loss m = 0 /\ profit_factor m = Infinity /\
      profit_loss_ratio m = Infinity)).
Proof.
  unfold trade_metrics.
  assert (Hfe : (if Backtester.is_empty (Backtester.equity_curve r)
                 then Ok (initial_equity ea_cfg)
                 else Py.getitem (Backtester.equity_curve r) (-1))
                = Ok (last (Backtester.equity_curve r) (initial_equity ea_cfg))).
  { destruct (Backtester.equity_curve r) as [|e l] eqn:E; [reflexivity|].
    cbn [Backtester.is_empty]. apply getitem_last_eq. discriminate. }
  rewrite Hfe. cbn [bind]. cbv zeta.
  set (trades := Backtester.trades r).
  destruct (Z.eqb_spec (Py.len trades) 0) as [H0|H0].
  { eexists. split; [reflexivity|]. cbn. rewrite H0.
    assert (Ht : trades = []) by (destruct trades; [reflexivity|cbn in H0; lia]).
    rewrite Ht. unfold sum_profit. cbn.
    repeat split; try reflexivity; try lia; try discriminate; congruence. }
  assert (Hnil : Py.len (filter (fun t => Py.leb (profit t) 0) trades) = 0%Z ->
                 filter (fun t => Py.leb (profit t) 0) trades = []).
  { destruct (filter _ trades); [reflexivity|unfold Py.len; cbn; lia]. }
  cbn [negb].
  set (wins := filter (fun t => Py.gtb (profit t) 0) trades).
  set (losses := filter (fun t => Py.leb (profit t) 0) trades).
  assert (Hpart : (Py.len wins + Py.len losses = Py.len trades)%Z).
  { unfold wins, losses, Py.len.
    pose proof (filter_length (fun t => Py.gtb (profit t) 0) trades) as Hf.
    rewrite (filter_ext (fun t => Py.leb (profit t) 0)
                        (fun t => negb (Py.gtb (profit t) 0)))
      by (intros t; apply leb_not_gtb).
    lia. }
  assert (Hpos : (0 < Py.len trades)%Z) by (unfold Py.len in *; lia).
  rewrite div_ok by (apply float_nonzero; lia). cbn [bind].
  destruct (sum_split trades) as (Hsum & Hw & Hl). fold wins losses in Hsum, Hw, Hl.
  assert (Hgl : Qabs (sum_profit losses) == - sum_profit losses)
    by (apply Qabs_neg; exact Hl).
  assert (Hgl0 : 0 <= Qabs (sum_profit losses)) by apply Qabs_nonneg.
  assert (Haw : exists aw,
            (if negb (Py.len wins =? 0)%Z
             then Py.div (sum_profit wins) (Py.float (Py.len wins)) else Ok 0)
            = Ok aw).
  { destruct (Z.eqb_spec (Py.len wins) 0); cbn [negb]; [eauto|].
    rewrite div_ok by (apply float_nonzero; assumption). eauto. }
  destruct Haw as (aw & ->). cbn [bind].
  assert (Hal : exists al,
            (if negb (Py.len losses =? 0)%Z
             then Py.div (Qabs (sum_profit losses)) (Py.float (Py.len losses))
             else Ok 0) = Ok al /\
            (0 < al <-> ~ Qabs (sum_profit losses) == 0)).
  { destruct (Z.eqb_spec (Py.len losses) 0) as [E|E]; cbn [negb].
    - exists 0. split; [reflexivity|].
      assert (losses = []) as -> by (destruct losses; [reflexivity|cbn in E; lia]).
      unfold sum_profit. cbn. split; [intros H; lra|intros H; exfalso; apply H; reflexivity].
    - assert (Hn : 0 < Py.float (Py.len losses))
        by (apply float_pos; unfold Py.len in *; lia).
      rewrite div_ok by lra. eexists. split; [reflexivity|]. split.
      + intros H E0. rewrite E0 in H. unfold Qdiv in H. rewrite Qmult_0_l in H. lra.
      + intros H. apply Qlt_shift_div_l; [exact Hn|]. rewrite Qmult_0_l.
        destruct (Qlt_le_dec 0 (Qabs (sum_profit losses))); [assumption|].
        exfalso. apply H. lra. }
  destruct Hal as (al & -> & Hal). cbn [bind].
  assert (Hplr : exists x,
            (if Py.gtb al 0 then q <- Py.div aw al ;; Ok (Finite q) else Ok Infinity)
            = Ok x /\ (x = Infinity <-> Qabs (sum_profit losses) == 0)).
  { destruct (Py.gtb al 0) eqn:E.
    - apply gtb_lt in E. rewrite div_ok by lra. cbn [bind].
      eexists. split; [reflexivity|]. split; [discriminate|].
      intros H. apply Hal in E. contradiction.
    - apply gtb_le in E. exists Infinity. split; [reflexivity|].
      split; [intros _|reflexivity].
      destruct (Qeq_dec (Qabs (sum_profit losses)) 0) as [H|H]; [exact H|].
      apply Hal in H. lra. }
  destruct Hplr as (plr & -> & Hplr). cbn [bind].
  assert (Hpf : exists x,
            (if Py.gtb (Qabs (sum_profit losses)) 0
             then q <- Py.div (sum_profit wins) (Qabs (sum_profit losses)) ;;
                  Ok (Finite q)
             else Ok Infinity) = Ok x /\
            (x = Infinity <-> Qabs (sum_profit losses) == 0)).
  { destruct (Py.gtb (Qabs (sum_profit losses)) 0) eqn:E.
    - apply gtb_lt in E. rewrite div_ok by lra. cbn [bind].
      eexists. split; [reflexivity|]. split; [discriminate|]. intros H. lra.
    - apply gtb_le in E. exists Infinity. split; [reflexivity|].
      split; [intros _; lra|reflexivity]. }
  destruct Hpf as (pf & -> & Hpf). cbn [bind].
  pose proof (streaks_bound trades 0 0 0 0 0 0
                ltac:(lia) ltac:(lia) ltac:(lia) ltac:(lia)) as Hst.
  unfold streaks. fold wins losses in Hst.
  destruct (fold_left streak_step trades (0%Z, 0%Z, 0%Z, 0%Z))
    as [[[sw sl] mw] ml].
  eexists. split; [reflexivity|]. cbn.
  split; [reflexivity|]. split; [reflexivity|]. split; [exact Hpart|].
  split.
  { rewrite !count_if_filter. unfold Py.len.
    pose proof (filter_length
                  (fun t => PositionType.eqb (ct_type t) PositionType.BUY) trades) as Hf.
    rewrite (filter_ext (fun t => PositionType.eqb (ct_type t) PositionType.SELL)
               (fun t => negb (PositionType.eqb (ct_type t) PositionType.BUY)))
      by (intros t; destruct (ct_type t); reflexivity).
    lia. }
  split.
  { assert (Hd : 0 < Py.float (Py.len trades)) by (apply float_pos; exact Hpos).
    split.
    - apply Qle_shift_div_l; [exact Hd|]. rewrite Qmult_0_l.
      unfold Py.float, Qle, Py.len. cbn [Qnum Qden inject_Z]. lia.
    - apply Qle_shift_div_r; [exact Hd|]. rewrite Qmult_1_l.
      unfold Py.float. rewrite <- Zle_Qle. unfold Py.len in *. lia. }
  split; [exact Hw|]. split; [exact Hgl0|].
  split; [lia|]. split; [lia|]. intros _.
  split; [exact Hpf|]. split; [apply Hplr|].
  intros H0l. fold losses in Hnil. specialize (Hnil H0l).
  assert (Hz : Qabs (sum_profit losses) = 0) by (rewrite Hnil; reflexivity).
  split; [exact Hz|].
  split; [apply Hpf|apply Hplr]; rewrite Hz; reflexivity.
Qed.

End ReportFacts.


(** X21.  The trade statistics of the report are consistent with the
    trade log.  The statements of [compute_metrics] through the streak
    loop never raise, for any result: the final equity is the last value
    of the equity curve, or the initial equity when the curve is empty;
    winning plus losing trades, and buy plus sell trades, make up the
    total; the win rate lies between 0 and 1; gross profit and gross loss
    are non-negative; the longest winning (losing) streak is at most the
    number of winning (losing) trades; and with at least one trade the
    profit factor is [float("inf")] exactly when the gross loss is zero,
    and without a losing trade the gross loss is zero and both the profit
    factor and the profit/loss ratio are [float("inf")].  With no trade
    every statistic keeps its default 0. *)
Theorem trade_metrics_consistent (r : Backtester.BacktestResult)
    (ea_cfg : EAConfig) :
  exists m,
    Reporting.trade_metrics r ea_cfg = Ok m /\
    Reporting.final_equity m
    = last (Backtester.equity_curve r) (initial_equity ea_cfg) /\
    Reporting.total_trades m = Py.len (Backtester.trades r) /\
    (Reporting.winning_trades m + Reporting.losing_trades m
     = Reporting.total_trades m)%Z /\
    (Reporting.buy_trades m + Reporting.sell_trades m
     = Reporting.total_trades m)%Z /\
    0 <= Reporting.win_rate m <= 1 /\
    0 <= Reporting.gross_profit m /\ 0 <= Reporting.gross_loss m /\
    (0 <= Reporting.max_consec_wins m <= Reporting.winning_trades m)%Z /\
    (0 <= Reporting.max_consec_losses m <= Reporting.losing_trades m)%Z /\
    (Backtester.trades r <> [] ->
     (Reporting.profit_factor m = Reporting.Infinity
      <-> Reporting.gross_loss m == 0) /\
     (Reporting.gross_loss m == 0 ->
      Reporting.profit_loss_ratio m = Reporting.Infinity) /\
     (Reporting.losing_trades m = 0%Z ->
      Reporting.gross_loss m = 0 /\
      Reporting.profit_factor m = Reporting.Infinity /\
      Reporting.profit_loss_ratio m = Reporting.Infinity)) /\
    (Backtester.trades r = [] ->
     Reporting.net_profit m = 0 /\ Reporting.win_rate m = 0 /\
     Reporting.profit_factor m = Reporting.Finite 0).
Proof.
  destruct (ReportFacts.trade_metrics_ok r ea_cfg)
    as (m & E & H1 & H2 & H3 & H4 & H5 & H6 & H7 & H8 & H9 & H10).
  exists m. repeat (split; [assumption|]).
  intros Ht. unfold Reporting.trade_metrics in E.
  apply bind_Ok in E. destruct E as (fe & _ & E).
  rewrite Ht in E. cbn in E. injection E as <-. cbn. auto.
Qed.

(** A result with one winning long and one losing short. *)
Definition two_trades : Backtester.BacktestResult :=
  Backtester.set_trades
    {| Backtester.equity_curve := [10000; 10020; 9990];
       Backtester.trades := [];
       Backtester.kalman_levels := []; Backtester.kalman_upper := [];
       Backtester.kalman_lower := []; Backtester.hurst_values := [];
       Backtester.vol_regimes := []; Backtester.signals := [];
       Backtester.dates := [] |}
    [Backtester.mk_closed long_1_0500 (Timestamp 19000 3) (1102 # 1000) 20 "signal" 3;
     Backtester.mk_closed
       {| ticket := 2; type := PositionType.SELL; open_time := Timestamp 19000 4;
          open_price := 11 # 10; lots := 1 # 10; stop_loss := 1103 # 1000;
          entry_bar_index := 4 |}
       (Timestamp 19000 5) (1103 # 1000) (-30) "stop_loss" 5].

Lemma trade_metrics_consistent_witness :
  exists m,
    Reporting.trade_metrics two_trades default_EAConfig = Ok m /\
    Reporting.final_equity m = 9990 /\
    Reporting.winning_trades m = 1%Z /\ Reporting.losing_trades m = 1%Z /\
    Reporting.win_rate m == 1 # 2 /\
    Reporting.gross_loss m == 30 /\
    Reporting.max_consec_losses m = 1%Z.
Proof.
  destruct (trade_metrics_consistent two_trades default_EAConfig) as (m & E & _).
  exists m. split; [exact E|].
  vm_compute in E. injection E as <-.
  repeat split; reflexivity.
Defined.

(** ** A bar, stage by stage *)

Module BarSteps.
Import Backtester.

Section Bar.
Variables sqrt ln : Q -> Q.
Variable ea_ : EAConfig.
Variable inst_ : InstrumentConfig.
Variable data : list Bar.

(** The closing stages leave the engine, the risk manager, the equity, the
    next ticket and the records alone. *)
Definition same_desk (st st' : state) : Prop :=
  signal_engine st' = signal_engine st /\ risk_mgr st' = risk_mgr st /\
  equity st' = equity st /\ next_ticket st' = next_ticket st /\
  result_ st' = result_ st.

Lemma bar_steps st i st' :
  bar sqrt ln ea_ inst_ data st i = Ok st' ->
  exists st1 d c st4 st5 s etb st6,
    begin_bar sqrt ln data i st = Ok (st1, d) /\
    Py.getitem (closes data) i = Ok c /\
    same_desk st1 st4 /\
    entry sqrt ea_ inst_ i d c st4 = Ok (st5, s, etb) /\
    trailing_stop sqrt ea_ i etb st5 = Ok st6 /\
    same_desk st5 st6 /\
    end_bar sqrt ea_ inst_ d c s etb st6 = Ok st'.
Proof.
  unfold bar. intros H.
  apply bind_Ok in H. destruct H as ([st1 d] & H1 & H).
  apply bind_Ok in H. destruct H as (bc & Hbc & H).
  apply bind_Ok in H. destruct H as (bh & _ & H).
  apply bind_Ok in H. destruct H as (bl & _ & H).
  apply bind_Ok in H. destruct H as (st2 & H2 & H).
  apply bind_Ok in H. destruct H as (st3 & H3 & H).
  apply bind_Ok in H. destruct H as (st4 & H4 & H).
  apply bind_Ok in H. destruct H as ([[st5 s] etb] & H5 & H).
  apply bind_Ok in H. destruct H as (st6 & H6 & H).
  exists st1, d, bc, st4, st5, s, etb, st6.
  split; [exact H1|]. split; [exact Hbc|].
  assert (D2 : same_desk st1 st2).
  { rewrite StopLoss.stop_loss_check_ok in H2. injection H2 as <-.
    unfold same_desk. cbn. auto. }
  assert (D3 : same_desk st2 st3).
  { rewrite ExitExact.exit_buy_ok in H3. injection H3 as <-.
    unfold same_desk. destruct (_ && _); cbn; auto. }
  assert (D4 : same_desk st3 st4).
  { rewrite ExitExact.exit_sell_ok in H4. injection H4 as <-.
    unfold same_desk. destruct (_ && _); cbn; auto. }
  split.
  { destruct D2 as (a1 & a2 & a3 & a4 & a5), D3 as (b1 & b2 & b3 & b4 & b5),
      D4 as (c1 & c2 & c3 & c4 & c5).
    unfold same_desk. repeat split; congruence. }
  split; [exact H5|]. split; [exact H6|]. split; [|exact H].
  destruct (RunFacts.trailing_stop_total sqrt ea_ i etb st5)
    as (x & Hx & a1 & a2 & a3 & a5).
  rewrite Hx in H6. injection H6 as <-.
  unfold same_desk. repeat split; try assumption.
  unfold trailing_stop in Hx. destruct (_ && _).
  - apply bind_Ok in Hx. destruct Hx as (e & _ & [= <-]). reflexivity.
  - injection Hx as <-. reflexivity.
Qed.

(** The signals recorded that are not NONE. *)
Definition entries (l : list Signal) : Z :=
  Py.len (filter (fun s => negb (Signal_eqb s NONE)) l).

Lemma entries_snoc l s :
  entries (l ++ [s]) = (entries l + if Signal_eqb s NONE then 0 else 1)%Z.
Proof.
  unfold entries, Py.len. rewrite filter_app, length_app. cbn [filter].
  destruct (Signal_eqb s NONE); cbn; lia.
Qed.

(** A bar records a signal other than NONE exactly when it hands out a
    ticket. *)
Lemma bar_entries st i st' :
  bar sqrt ln ea_ inst_ data st i = Ok st' ->
  (entries (signals (result_ st')) - entries (signals (result_ st))
   = next_ticket st' - next_ticket st)%Z /\
  Py.len (signals (result_ st')) = (Py.len (signals (result_ st)) + 1)%Z.
Proof.
  intros H. apply bar_steps in H.
  destruct H as (st1 & d & c & st4 & st5 & s & etb & st6
                 & H1 & _ & D4 & H5 & _ & D6 & H7).
  assert (R1 : result_ st1 = result_ st /\ next_ticket st1 = next_ticket st).
  { unfold begin_bar in H1.
    apply bind_Ok in H1. destruct H1 as (cd & _ & H1).
    destruct (day_differs _ _);
      apply bind_Ok in H1; destruct H1 as (c0 & _ & H1);
      apply bind_Ok in H1; destruct H1 as (cp & _ & H1);
      apply bind_Ok in H1; destruct H1 as (se & _ & [= <- <-]); auto. }
  destruct D4 as (_ & _ & _ & N4 & R4), D6 as (_ & _ & _ & N6 & R6).
  unfold end_bar, record in H7.
  apply bind_Ok in H7. destruct H7 as (r & Hr & [= <-]).
  apply bind_Ok in Hr. destruct Hr as (u & _ & Hr).
  apply bind_Ok in Hr. destruct Hr as (l & _ & [= <-]).
  cbn [result_ signals next_ticket]. rewrite entries_snoc.
  rewrite R6, N6.
  assert (Hlen : Py.len (signals (result_ st5) ++ [if etb then s else NONE])
                 = (Py.len (signals (result_ st5)) + 1)%Z)
    by (unfold Py.len; rewrite length_app; cbn; lia).
  rewrite Hlen.
  apply Ledger.entry_opens in H5.
  destruct H5 as [[-> ->]|(pos & -> & -> & _ & _ & _ & _ & _ & _ & Hs & _)].
  - cbn [Signal_eqb]. rewrite R4, N4. destruct R1 as [-> ->]. lia.
  - cbn [open_position result_ next_ticket]. rewrite R4, N4.
    destruct R1 as [-> ->]. destruct Hs as [->| ->]; cbn [Signal_eqb]; lia.
Qed.

Lemma trade_entries bars : forall st st',
  trade sqrt ln ea_ inst_ data bars st = Ok st' ->
  (entries (signals (result_ st')) - entries (signals (result_ st))
   = next_ticket st' - next_ticket st)%Z /\
  Py.len (signals (result_ st'))
  = (Py.len (signals (result_ st)) + Py.len bars)%Z.
Proof.
  unfold trade. induction bars as [|i bars IH]; intros st st' H; cbn [foldM] in H.
  - injection H as <-. unfold Py.len. cbn. lia.
  - apply bind_Ok in H. destruct H as (st1 & H1 & H).
    apply bar_entries in H1. apply IH in H.
    unfold Py.len in *. cbn [List.length]. lia.
Qed.

(** A bar appends one entry to every record array, the date of the bar to
    [dates]. *)
Lemma bar_rows st i st' k :
  bar sqrt ln ea_ inst_ data st i = Ok st' ->
  RunFacts.rows (result_ st) k ->
  RunFacts.rows (result_ st') (S k) /\
  exists d, Py.getitem (dates_ data) i = Ok d /\
            dates (result_ st') = dates (result_ st) ++ [d].
Proof.
  intros H Hr. apply bar_steps in H.
  destruct H as (st1 & d & c & st4 & st5 & s & etb & st6
                 & H1 & _ & D4 & H5 & _ & D6 & H7).
  assert (R1 : result_ st1 = result_ st /\ Py.getitem (dates_ data) i = Ok d).
  { unfold begin_bar in H1.
    apply bind_Ok in H1. destruct H1 as (cd & Hcd & H1).
    destruct (day_differs _ _);
      apply bind_Ok in H1; destruct H1 as (c0 & _ & H1);
      apply bind_Ok in H1; destruct H1 as (cp & _ & H1);
      apply bind_Ok in H1; destruct H1 as (se & _ & [= <- <-]); auto. }
  destruct R1 as [R1 Hd].
  destruct D4 as (_ & _ & _ & _ & R4), D6 as (_ & _ & _ & _ & R6).
  assert (R5 : result_ st5 = result_ st4).
  { apply Ledger.entry_opens in H5.
    destruct H5 as [[-> _]|(pos & -> & _)]; reflexivity. }
  unfold end_bar, record in H7.
  apply bind_Ok in H7. destruct H7 as (r & Hrec & [= <-]).
  apply bind_Ok in Hrec. destruct Hrec as (u & _ & Hrec).
  apply bind_Ok in Hrec. destruct Hrec as (l & _ & [= <-]).
  cbn [result_]. rewrite R6, R5, R4, R1.
  destruct Hr as (E1 & E2 & E3 & E4 & E5 & E6 & E7 & E8).
  split.
  - unfold RunFacts.rows; cbn. rewrite !length_app; cbn [List.length].
    repeat split; lia.
  - exists d. split; [exact Hd|reflexivity].
Qed.

Lemma trade_rows bars : forall st st' k,
  trade sqrt ln ea_ inst_ data bars st = Ok st' ->
  RunFacts.rows (result_ st) k ->
  RunFacts.rows (result_ st') (k + List.length bars) /\
  map Ok (dates (result_ st'))
  = map Ok (dates (result_ st)) ++ map (Py.getitem (dates_ data)) bars.
Proof.
  unfold trade. induction bars as [|i bars IH]; intros st st' k H Hr;
    cbn [foldM] in H.
  - injection H as <-. cbn [List.length map]. rewrite Nat.add_0_r, app_nil_r.
    split; [exact Hr|reflexivity].
  - apply bind_Ok in H. destruct H as (st1 & H1 & H).
    destruct (bar_rows _ _ _ _ H1 Hr) as (Hr1 & d & Hd & Ed).
    destruct (IH _ _ _ H Hr1) as (Hr' & Ed').
    cbn [List.length map]. rewrite Nat.add_succ_r. split; [exact Hr'|].
    rewrite Ed', Ed, map_app, <- app_assoc, Hd. reflexivity.
Qed.

End Bar.

End BarSteps.

(** ** The warm-up and the per-bar records *)

(** C9.  For a series of at least [max(strengthPeriod, volHistPeriod) + 50]
    bars (periods of at least 1): the number of warmup bars is
    [min(max(strengthPeriod, volHistPeriod) + 50, totalBars - 1)]; the
    warmup is exactly that many [on_new_bar] calls, the first one
    [(close[0], close[0])] and call [i] after it
    [(close[i], close[i - 1])]; the run is these calls fed to the freshly
    configured engine, then the trading loop over the bars
    [warmupBars .. totalBars - 1] started on the engine the warm-up left,
    with no position, no trade and empty records, then the closing of what
    is left open; and in the result of a run the equity curve, like every
    other per-bar record array, has [totalBars - warmupBars] entries, the
    recorded dates being those of the traded bars, in order. *)
Theorem C9_warmup_and_record_lengths (sqrt ln : Q -> Q) (ea_ : EAConfig)
    (inst_ : InstrumentConfig) (data : list Backtester.Bar) :
  (1 <= hurst_period ea_)%Z -> (1 <= vol_hist_period ea_)%Z ->
  (Z.max (hurst_period ea_) (vol_hist_period ea_) + 50
   <= Backtester.n_bars data)%Z ->
  let totalBars := Backtester.n_bars data in
  let warmupBars := Backtester.warmup_bars ea_ data in
  let closes := Backtester.closes data in
  let calls := RunFacts.warmup_calls closes warmupBars in
  warmupBars
  = Z.min (Z.max (hurst_period ea_) (vol_hist_period ea_) + 50) (totalBars - 1) /\
  Z.of_nat (List.length calls) = warmupBars /\
  nth_error calls 0 = Some (nth 0 closes 0, nth 0 closes 0) /\
  (forall i, (1 <= i < warmupBars)%Z ->
     nth_error calls (Z.to_nat i)
     = Some (nth (Z.to_nat i) closes 0, nth (Z.to_nat (i - 1)) closes 0)) /\
  (forall se, Backtester.warmup sqrt ln ea_ data se
              = WarmupFacts.feed sqrt ln calls se) /\
  Backtester.run sqrt ln ea_ inst_ data
  = (se <- WarmupFacts.feed sqrt ln calls (Backtester.init_engine ea_) ;;
     st <- Backtester.trade sqrt ln ea_ inst_ data
             (Py.range warmupBars totalBars)
             (Backtester.init_state ea_ inst_ se) ;;
     closed_trades <- Backtester.close_remaining inst_ data st ;;
     Ok (Backtester.set_trades (Backtester.result_ st) closed_trades)) /\
  (forall se,
     Backtester.signal_engine (Backtester.init_state ea_ inst_ se) = se /\
     Backtester.positions (Backtester.init_state ea_ inst_ se) = [] /\
     Backtester.closed_trades (Backtester.init_state ea_ inst_ se) = [] /\
     Backtester.equity_curve
       (Backtester.result_ (Backtester.init_state ea_ inst_ se)) = []) /\
  forall r,
    Backtester.run sqrt ln ea_ inst_ data = Ok r ->
    Py.len (Backtester.equity_curve r) = (totalBars - warmupBars)%Z /\
    Py.len (Backtester.kalman_levels r) = (totalBars - warmupBars)%Z /\
    Py.len (Backtester.kalman_upper r) = (totalBars - warmupBars)%Z /\
    Py.len (Backtester.kalman_lower r) = (totalBars - warmupBars)%Z /\
    Py.len (Backtester.hurst_values r) = (totalBars - warmupBars)%Z /\
    Py.len (Backtester.vol_regimes r) = (totalBars - warmupBars)%Z /\
    Py.len (Backtester.signals r) = (totalBars - warmupBars)%Z /\
    Py.len (Backtester.dates r) = (totalBars - warmupBars)%Z /\
    map Ok (Backtester.dates r)
    = map (Py.getitem (Backtester.dates_ data)) (Py.range warmupBars totalBars).
Proof.
  intros Hh Hvh Hn. cbv zeta.
  pose proof (WarmupFacts.warmup_bars_bound ea_ data) as Hwb.
  assert (Hw : (50 <= Backtester.warmup_bars ea_ data)%Z)
    by (unfold Backtester.warmup_bars; lia).
  split; [reflexivity|].
  split; [apply WarmupFacts.warmup_calls_length; lia|].
  split; [reflexivity|]. split.
  { intros i Hi. unfold RunFacts.warmup_calls.
    replace (Z.to_nat i) with (S (Z.to_nat (i - 1))) at 1 by lia.
    cbn [nth_error]. rewrite nth_error_map.
    unfold Py.range. rewrite nth_error_map, nth_error_seq.
    destruct (Nat.ltb_spec (Z.to_nat (i - 1))
                (Z.to_nat (Backtester.warmup_bars ea_ data - 1))); [|lia].
    cbn [option_map]. repeat f_equal; lia. }
  split; [intros se; apply WarmupFacts.warmup_as_feed; lia|].
  split.
  { unfold Backtester.run. rewrite WarmupFacts.warmup_as_feed by lia.
    reflexivity. }
  split; [intros se; repeat split|].
  intros r H. unfold Backtester.run in H.
  apply bind_Ok in H. destruct H as (se & _ & H).
  apply bind_Ok in H. destruct H as (st & Ht & H).
  apply bind_Ok in H. destruct H as (cts & _ & [= <-]).
  destruct (BarSteps.trade_rows sqrt ln ea_ inst_ data _ _ _ 0 Ht)
    as (Hrows & Hd); [repeat split|].
  rewrite range_length in Hrows. cbn [Nat.add] in Hrows.
  destruct Hrows as (H1 & H2 & H3 & H4 & H5 & H6 & H7 & H8).
  unfold Py.len. cbn [Backtester.set_trades Backtester.equity_curve
    Backtester.kalman_levels Backtester.kalman_upper Backtester.kalman_lower
    Backtester.hurst_values Backtester.vol_regimes Backtester.signals
    Backtester.dates].
  rewrite H1, H2, H3, H4, H5, H6, H7, H8.
  repeat (split; [lia|]). exact Hd.
Qed.

Lemma C9_warmup_and_record_lengths_witness :
  (1 <= hurst_period default_EAConfig)%Z /\
  (1 <= vol_hist_period default_EAConfig)%Z /\
  (Z.max (hurst_period default_EAConfig) (vol_hist_period default_EAConfig) + 50
   <= Backtester.n_bars (flat_bars 600))%Z /\
  Backtester.warmup_bars default_EAConfig (flat_bars 600) = 550%Z /\
  exists r,
    Backtester.run sqrt6 ln5 default_EAConfig EURUSD (flat_bars 600) = Ok r /\
    Py.len (Backtester.equity_curve r) = 50%Z /\
    Py.len (Backtester.dates r) = 50%Z.
Proof.
  assert (En : Backtester.n_bars (flat_bars 600) = 600%Z)
    by (vm_compute; reflexivity).
  assert (Ew : Backtester.warmup_bars default_EAConfig (flat_bars 600) = 550%Z)
    by (unfold Backtester.warmup_bars; rewrite En; reflexivity).
  assert (H1 : (1 <= hurst_period default_EAConfig)%Z) by (cbn; lia).
  assert (H3 : (1 <= vol_hist_period default_EAConfig)%Z) by (cbn; lia).
  assert (H8 : (Z.max (hurst_period default_EAConfig)
                  (vol_hist_period default_EAConfig) + 50
                <= Backtester.n_bars (flat_bars 600))%Z)
    by (rewrite En; cbn; lia).
  repeat (split; [assumption|]).
  destruct (run_returns sqrt6 ln5 default_EAConfig EURUSD (flat_bars 600))
    as (r & Hrun);
    [cbn; lia|cbn; lia|cbn; lia|discriminate|reflexivity|discriminate
    |discriminate|rewrite En; lia|].
  destruct (C9_warmup_and_record_lengths sqrt6 ln5 default_EAConfig EURUSD
              (flat_bars 600) H1 H3 H8)
    as (_ & _ & _ & _ & _ & _ & _ & Hlen).
  destruct (Hlen r Hrun) as (Hl1 & _ & _ & _ & _ & _ & _ & Hl8 & _).
  exists r. split; [exact Hrun|].
  rewrite Hl1, Hl8, En, Ew. split; reflexivity.
Defined.

(** X23.  Recorded signals and trades match in number.  Over any bars of
    the loop, the number of recorded signals other than NONE grows by
    exactly the number of tickets handed out; so in the result of a run the
    number of bars with a recorded BUY or SELL equals the number of trades
    in the trade log. *)
Theorem signals_count_trades (sqrt ln : Q -> Q) (ea_ : EAConfig)
    (inst_ : InstrumentConfig) (data : list Backtester.Bar) :
  let entries (l : list Signal) :=
    Py.len (filter (fun s => negb (Signal_eqb s NONE)) l) in
  (forall bars st st',
     Backtester.trade sqrt ln ea_ inst_ data bars st = Ok st' ->
     (entries (Backtester.signals (Backtester.result_ st'))
      - entries (Backtester.signals (Backtester.result_ st))
      = Backtester.next_ticket st' - Backtester.next_ticket st)%Z) /\
  (forall r,
     Backtester.run sqrt ln ea_ inst_ data = Ok r ->
     entries (Backtester.signals r) = Py.len (Backtester.trades r)).
Proof.
  cbv zeta. split.
  - intros bars st st' H.
    apply (BarSteps.trade_entries sqrt ln ea_ inst_ data bars st st' H).
  - intros r H. pose proof H as Hrun. unfold Backtester.run in H.
    apply bind_Ok in H. destruct H as (se & _ & H).
    apply bind_Ok in H. destruct H as (st & Ht & H).
    apply bind_Ok in H. destruct H as (cts & Hc & [= <-]).
    pose proof (BarSteps.trade_entries sqrt ln ea_ inst_ data _ _ _ Ht) as [He _].
    cbn in He. unfold BarSteps.entries in He.
    cbn [Backtester.set_trades Backtester.signals Backtester.trades].
    apply (Ledger.trade_book ea_ sqrt ln inst_ data _ _ _ _ _ eq_refl) in Ht;
      [|apply Ledger.init_state_book].
    apply Ledger.close_remaining_ok in Hc. destruct Hc as (c & d & -> & _).
    destruct (Ledger.final_log ea_ _ _ st (Ledger.end_trade inst_ data c d) Ht)
      as (_ & Hlen & _); [reflexivity|].
    rewrite Hlen. unfold Py.len in *. cbn in He. lia.
Qed.

Lemma signals_count_trades_witness :
  exists st',
    Backtester.trade sqrt6 ln5 default_EAConfig EURUSD seven_bars [6%Z] holding_long
    = Ok st' /\
    Backtester.signals (Backtester.result_ st') = [NONE] /\
    Backtester.next_ticket st' = Backtester.next_ticket holding_long.
Proof.
  set (st' := match Backtester.trade sqrt6 ln5 default_EAConfig EURUSD seven_bars
                      [6%Z] holding_long with
              | Ok s => s
              | Raise _ => holding_long
              end).
  assert (Ht : Backtester.trade sqrt6 ln5 default_EAConfig EURUSD seven_bars
                 [6%Z] holding_long = Ok st') by (vm_compute; reflexivity).
  exists st'. split; [exact Ht|]. split; [vm_compute; reflexivity|].
  destruct (signals_count_trades sqrt6 ln5 default_EAConfig EURUSD seven_bars)
    as (H & _).
  specialize (H [6%Z] holding_long st' Ht).
  replace (Py.len (filter (fun s => negb (Signal_eqb s NONE))
                          (Backtester.signals (Backtester.result_ st'))))
    with 0%Z in H by (vm_compute; reflexivity).
  replace (Py.len (filter (fun s => negb (Signal_eqb s NONE))
                          (Backtester.signals (Backtester.result_ holding_long))))
    with 0%Z in H by (vm_compute; reflexivity).
  lia.
Defined.

(** ** The first bar of a day *)

Lemma not_below_itself x : Py.ltb (x - x) 0 = false.
Proof. apply ltb_ge. lra. Qed.

(** X24.  On the first bar of a day the drawdown gate is idle.  When the
    date of the bar differs from the last one seen, [begin_bar] restarts
    the day at the account equity, which is still the equity recorded at
    the end of the previous bar; the day's loss is then zero, and for the
    risk manager and equity of that bar [can_open_trade] answers as the
    position-count, spread and margin gates alone.  On a bar of the same
    day the risk manager is left as it is.  In both cases the
    bars-since-close counter advances by one and the equity is not
    touched. *)
Theorem new_day_resets_drawdown (sqrt ln : Q -> Q) (data : list Backtester.Bar)
    (i : Z) (st st1 : Backtester.state) (d : stamp) :
  Backtester.begin_bar sqrt ln data i st = Ok (st1, d) ->
  Backtester.equity st1 = Backtester.equity st /\
  Backtester.bars_since_close st1 = (Backtester.bars_since_close st + 1)%Z /\
  (Backtester.day_differs (Backtester.today_of d) (Backtester.last_day st) = true ->
   RiskManager.day_start_equity (Backtester.risk_mgr st1) = Backtester.equity st /\
   Backtester.last_day st1 = Some (Backtester.today_of d) /\
   forall positions spread_points new_lots new_price,
     RiskManager.can_open_trade (Backtester.risk_mgr st1) positions
       (Backtester.equity st1) spread_points new_lots new_price
     = RiskFacts.other_gates (Backtester.risk_mgr st1) positions
         (Backtester.equity st1) spread_points new_lots new_price) /\
  (Backtester.day_differs (Backtester.today_of d) (Backtester.last_day st) = false ->
   Backtester.risk_mgr st1 = Backtester.risk_mgr st /\
   Backtester.last_day st1 = Backtester.last_day st).
Proof.
  unfold Backtester.begin_bar. intros H.
  apply bind_Ok in H. destruct H as (cd & Hcd & H).
  destruct (Backtester.day_differs (Backtester.today_of cd) (Backtester.last_day st))
    eqn:Ed;
    apply bind_Ok in H; destruct H as (c & _ & H);
    apply bind_Ok in H; destruct H as (cp & _ & H);
    apply bind_Ok in H; destruct H as (se & _ & [= <- <-]);
    cbn; rewrite Ed; (split; [reflexivity|]); (split; [reflexivity|]);
    (split; [|intros E; try discriminate E; auto]); intros E; try discriminate E.
  split; [reflexivity|]. split; [reflexivity|].
  intros positions sp lots price.
  unfold RiskManager.can_open_trade, RiskFacts.other_gates.
  cbn [RiskManager.day_start_equity RiskManager.on_new_day RiskManager.ea].
  destruct (_ <=? _)%Z; [reflexivity|].
  rewrite not_below_itself.
  destruct (Py.gtb (Backtester.equity st) 0); cbn [bind];
    (destruct (Py.gtb sp _); [reflexivity|]);
    (destruct (RiskManager.calc_margin _ _ _); cbn [bind]; [|reflexivity]);
    (destruct (RiskManager.get_free_margin _ _ _); cbn [bind]; [|reflexivity]);
    destruct (Py.ltb _ _); reflexivity.
Qed.

Lemma new_day_resets_drawdown_witness :
  exists st1 d,
    Backtester.begin_bar sqrt6 ln5 seven_bars 6 holding_long = Ok (st1, d) /\
    RiskManager.day_start_equity (Backtester.risk_mgr st1) = 10000 /\
    Backtester.bars_since_close st1 = 101%Z.
Proof.
  set (out := match Backtester.begin_bar sqrt6 ln5 seven_bars 6 holding_long with
              | Ok x => x
              | Raise _ => (holding_long, Label 0)
              end).
  assert (Hb : Backtester.begin_bar sqrt6 ln5 seven_bars 6 holding_long
               = Ok (fst out, snd out)) by (vm_compute; reflexivity).
  exists (fst out), (snd out). split; [exact Hb|].
  destruct (new_day_resets_drawdown sqrt6 ln5 seven_bars 6 holding_long
              (fst out) (snd out) Hb) as (_ & Hc & Hnew & _).
  split; [|exact Hc].
  destruct Hnew as (Hd & _); [vm_compute; reflexivity|]. exact Hd.
Defined.

(** ** The report of a run *)


